(** * Shallow embedding of the Git automation scripts

    Source files embedded here:
    - [scripts/branch_manager.py]  ([BranchManager])
    - [scripts/git_automation.py]  ([GitAutomation])
    - [scripts/repo_clone.py]      ([RepoCloner])

    Python strings are sequences of Unicode code points, so a [str] is a list
    of code points ([N]).  The character predicates the scripts call
    ([str.isspace], [str.isalnum], [str.upper]) are the tables of CPython 3.11
    (Unicode 14.0.0).  GitPython, the json module, the clock and the disk are
    external collaborators: they are interfaces ([Class]es) the programs are
    written against, with a small concrete instance used to run the programs
    on explicit inputs. *)

From Stdlib Require Import String Ascii NArith ZArith DecimalString Bool Arith Lia List.
Import ListNotations.

(* ================================================================== *)
(** * Part I. Definitions                                              *)
(* ================================================================== *)

(** ** Unicode character data (CPython 3.11, Unicode 14.0.0) *)

Module UnicodeData.

(** Code points [c] with [chr(c).isspace()], as inclusive ranges. *)
Definition space_ranges : list (N * N) :=
  [
      (0x9,0xD); (0x1C,0x20); (0x85,0x85); (0xA0,0xA0); (0x1680,0x1680); (0x2000,0x200A);
      (0x2028,0x2029); (0x202F,0x202F); (0x205F,0x205F); (0x3000,0x3000)
  ]%N.

(** Code points [c] with [chr(c).isalnum()], as inclusive ranges. *)
Definition alnum_ranges : list (N * N) :=
  [
      (0x30,0x39); (0x41,0x5A); (0x61,0x7A); (0xAA,0xAA); (0xB2,0xB3); (0xB5,0xB5); (0xB9,0xBA);
      (0xBC,0xBE); (0xC0,0xD6); (0xD8,0xF6); (0xF8,0x2C1); (0x2C6,0x2D1); (0x2E0,0x2E4);
      (0x2EC,0x2EC); (0x2EE,0x2EE); (0x370,0x374); (0x376,0x377); (0x37A,0x37D); (0x37F,0x37F);
      (0x386,0x386); (0x388,0x38A); (0x38C,0x38C); (0x38E,0x3A1); (0x3A3,0x3F5); (0x3F7,0x481);
      (0x48A,0x52F); (0x531,0x556); (0x559,0x559); (0x560,0x588); (0x5D0,0x5EA); (0x5EF,0x5F2);
      (0x620,0x64A); (0x660,0x669); (0x66E,0x66F); (0x671,0x6D3); (0x6D5,0x6D5); (0x6E5,0x6E6);
      (0x6EE,0x6FC); (0x6FF,0x6FF); (0x710,0x710); (0x712,0x72F); (0x74D,0x7A5); (0x7B1,0x7B1);
      (0x7C0,0x7EA); (0x7F4,0x7F5); (0x7FA,0x7FA); (0x800,0x815); (0x81A,0x81A); (0x824,0x824);
      (0x828,0x828); (0x840,0x858); (0x860,0x86A); (0x870,0x887); (0x889,0x88E); (0x8A0,0x8C9);
      (0x904,0x939); (0x93D,0x93D); (0x950,0x950); (0x958,0x961); (0x966,0x96F); (0x971,0x980);
      (0x985,0x98C); (0x98F,0x990); (0x993,0x9A8); (0x9AA,0x9B0); (0x9B2,0x9B2); (0x9B6,0x9B9);
      (0x9BD,0x9BD); (0x9CE,0x9CE); (0x9DC,0x9DD); (0x9DF,0x9E1); (0x9E6,0x9F1); (0x9F4,0x9F9);
      (0x9FC,0x9FC); (0xA05,0xA0A); (0xA0F,0xA10); (0xA13,0xA28); (0xA2A,0xA30); (0xA32,0xA33);
      (0xA35,0xA36); (0xA38,0xA39); (0xA59,0xA5C); (0xA5E,0xA5E); (0xA66,0xA6F); (0xA72,0xA74);
      (0xA85,0xA8D); (0xA8F,0xA91); (0xA93,0xAA8); (0xAAA,0xAB0); (0xAB2,0xAB3); (0xAB5,0xAB9);
      (0xABD,0xABD); (0xAD0,0xAD0); (0xAE0,0xAE1); (0xAE6,0xAEF); (0xAF9,0xAF9); (0xB05,0xB0C);
      (0xB0F,0xB10); (0xB13,0xB28); (0xB2A,0xB30); (0xB32,0xB33); (0xB35,0xB39); (0xB3D,0xB3D);
      (0xB5C,0xB5D); (0xB5F,0xB61); (0xB66,0xB6F); (0xB71,0xB77); (0xB83,0xB83); (0xB85,0xB8A);
      (0xB8E,0xB90); (0xB92,0xB95); (0xB99,0xB9A); (0xB9C,0xB9C); (0xB9E,0xB9F); (0xBA3,0xBA4);
      (0xBA8,0xBAA); (0xBAE,0xBB9); (0xBD0,0xBD0); (0xBE6,0xBF2); (0xC05,0xC0C); (0xC0E,0xC10);
      (0xC12,0xC28); (0xC2A,0xC39); (0xC3D,0xC3D); (0xC58,0xC5A); (0xC5D,0xC5D); (0xC60,0xC61);
      (0xC66,0xC6F); (0xC78,0xC7E); (0xC80,0xC80); (0xC85,0xC8C); (0xC8E,0xC90); (0xC92,0xCA8);
      (0xCAA,0xCB3); (0xCB5,0xCB9); (0xCBD,0xCBD); (0xCDD,0xCDE); (0xCE0,0xCE1); (0xCE6,0xCEF);
      (0xCF1,0xCF2); (0xD04,0xD0C); (0xD0E,0xD10); (0xD12,0xD3A); (0xD3D,0xD3D); (0xD4E,0xD4E);
      (0xD54,0xD56); (0xD58,0xD61); (0xD66,0xD78); (0xD7A,0xD7F); (0xD85,0xD96); (0xD9A,0xDB1);
      (0xDB3,0xDBB); (0xDBD,0xDBD); (0xDC0,0xDC6); (0xDE6,0xDEF); (0xE01,0xE30); (0xE32,0xE33);
      (0xE40,0xE46); (0xE50,0xE59); (0xE81,0xE82); (0xE84,0xE84); (0xE86,0xE8A); (0xE8C,0xEA3);
      (0xEA5,0xEA5); (0xEA7,0xEB0); (0xEB2,0xEB3); (0xEBD,0xEBD); (0xEC0,0xEC4); (0xEC6,0xEC6);
      (0xED0,0xED9); (0xEDC,0xEDF); (0xF00,0xF00); (0xF20,0xF33); (0xF40,0xF47); (0xF49,0xF6C);
      (0xF88,0xF8C); (0x1000,0x102A); (0x103F,0x1049); (0x1050,0x1055); (0x105A,0x105D);
      (0x1061,0x1061); (0x1065,0x1066); (0x106E,0x1070); (0x1075,0x1081); (0x108E,0x108E);
      (0x1090,0x1099); (0x10A0,0x10C5); (0x10C7,0x10C7); (0x10CD,0x10CD); (0x10D0,0x10FA);
      (0x10FC,0x1248); (0x124A,0x124D); (0x1250,0x1256); (0x1258,0x1258); (0x125A,0x125D);
      (0x1260,0x1288); (0x128A,0x128D); (0x1290,0x12B0); (0x12B2,0x12B5); (0x12B8,0x12BE);
      (0x12C0,0x12C0); (0x12C2,0x12C5); (0x12C8,0x12D6); (0x12D8,0x1310); (0x1312,0x1315);
      (0x1318,0x135A); (0x1369,0x137C); (0x1380,0x138F); (0x13A0,0x13F5); (0x13F8,0x13FD);
      (0x1401,0x166C); (0x166F,0x167F); (0x1681,0x169A); (0x16A0,0x16EA); (0x16EE,0x16F8);
      (0x1700,0x1711); (0x171F,0x1731); (0x1740,0x1751); (0x1760,0x176C); (0x176E,0x1770);
      (0x1780,0x17B3); (0x17D7,0x17D7); (0x17DC,0x17DC); (0x17E0,0x17E9); (0x17F0,0x17F9);
      (0x1810,0x1819); (0x1820,0x1878); (0x1880,0x1884); (0x1887,0x18A8); (0x18AA,0x18AA);
      (0x18B0,0x18F5); (0x1900,0x191E); (0x1946,0x196D); (0x1970,0x1974); (0x1980,0x19AB);
      (0x19B0,0x19C9); (0x19D0,0x19DA); (0x1A00,0x1A16); (0x1A20,0x1A54); (0x1A80,0x1A89);
      (0x1A90,0x1A99); (0x1AA7,0x1AA7); (0x1B05,0x1B33); (0x1B45,0x1B4C); (0x1B50,0x1B59);
      (0x1B83,0x1BA0); (0x1BAE,0x1BE5); (0x1C00,0x1C23); (0x1C40,0x1C49); (0x1C4D,0x1C7D);
      (0x1C80,0x1C88); (0x1C90,0x1CBA); (0x1CBD,0x1CBF); (0x1CE9,0x1CEC); (0x1CEE,0x1CF3);
      (0x1CF5,0x1CF6); (0x1CFA,0x1CFA); (0x1D00,0x1DBF); (0x1E00,0x1F15); (0x1F18,0x1F1D);
      (0x1F20,0x1F45); (0x1F48,0x1F4D); (0x1F50,0x1F57); (0x1F59,0x1F59); (0x1F5B,0x1F5B);
      (0x1F5D,0x1F5D); (0x1F5F,0x1F7D); (0x1F80,0x1FB4); (0x1FB6,0x1FBC); (0x1FBE,0x1FBE);
      (0x1FC2,0x1FC4); (0x1FC6,0x1FCC); (0x1FD0,0x1FD3); (0x1FD6,0x1FDB); (0x1FE0,0x1FEC);
      (0x1FF2,0x1FF4); (0x1FF6,0x1FFC); (0x2070,0x2071); (0x2074,0x2079); (0x207F,0x2089);
      (0x2090,0x209C); (0x2102,0x2102); (0x2107,0x2107); (0x210A,0x2113); (0x2115,0x2115);
      (0x2119,0x211D); (0x2124,0x2124); (0x2126,0x2126); (0x2128,0x2128); (0x212A,0x212D);
      (0x212F,0x2139); (0x213C,0x213F); (0x2145,0x2149); (0x214E,0x214E); (0x2150,0x2189);
      (0x2460,0x249B); (0x24EA,0x24FF); (0x2776,0x2793); (0x2C00,0x2CE4); (0x2CEB,0x2CEE);
      (0x2CF2,0x2CF3); (0x2CFD,0x2CFD); (0x2D00,0x2D25); (0x2D27,0x2D27); (0x2D2D,0x2D2D);
      (0x2D30,0x2D67); (0x2D6F,0x2D6F); (0x2D80,0x2D96); (0x2DA0,0x2DA6); (0x2DA8,0x2DAE);
      (0x2DB0,0x2DB6); (0x2DB8,0x2DBE); (0x2DC0,0x2DC6); (0x2DC8,0x2DCE); (0x2DD0,0x2DD6);
      (0x2DD8,0x2DDE); (0x2E2F,0x2E2F); (0x3005,0x3007); (0x3021,0x3029); (0x3031,0x3035);
      (0x3038,0x303C); (0x3041,0x3096); (0x309D,0x309F); (0x30A1,0x30FA); (0x30FC,0x30FF);
      (0x3105,0x312F); (0x3131,0x318E); (0x3192,0x3195); (0x31A0,0x31BF); (0x31F0,0x31FF);
      (0x3220,0x3229); (0x3248,0x324F); (0x3251,0x325F); (0x3280,0x3289); (0x32B1,0x32BF);
      (0x3400,0x4DBF); (0x4E00,0xA48C); (0xA4D0,0xA4FD); (0xA500,0xA60C); (0xA610,0xA62B);
      (0xA640,0xA66E); (0xA67F,0xA69D); (0xA6A0,0xA6EF); (0xA717,0xA71F); (0xA722,0xA788);
      (0xA78B,0xA7CA); (0xA7D0,0xA7D1); (0xA7D3,0xA7D3); (0xA7D5,0xA7D9); (0xA7F2,0xA801);
      (0xA803,0xA805); (0xA807,0xA80A); (0xA80C,0xA822); (0xA830,0xA835); (0xA840,0xA873);
      (0xA882,0xA8B3); (0xA8D0,0xA8D9); (0xA8F2,0xA8F7); (0xA8FB,0xA8FB); (0xA8FD,0xA8FE);
      (0xA900,0xA925); (0xA930,0xA946); (0xA960,0xA97C); (0xA984,0xA9B2); (0xA9CF,0xA9D9);
      (0xA9E0,0xA9E4); (0xA9E6,0xA9FE); (0xAA00,0xAA28); (0xAA40,0xAA42); (0xAA44,0xAA4B);
      (0xAA50,0xAA59); (0xAA60,0xAA76); (0xAA7A,0xAA7A); (0xAA7E,0xAAAF); (0xAAB1,0xAAB1);
      (0xAAB5,0xAAB6); (0xAAB9,0xAABD); (0xAAC0,0xAAC0); (0xAAC2,0xAAC2); (0xAADB,0xAADD);
      (0xAAE0,0xAAEA); (0xAAF2,0xAAF4); (0xAB01,0xAB06); (0xAB09,0xAB0E); (0xAB11,0xAB16);
      (0xAB20,0xAB26); (0xAB28,0xAB2E); (0xAB30,0xAB5A); (0xAB5C,0xAB69); (0xAB70,0xABE2);
      (0xABF0,0xABF9); (0xAC00,0xD7A3); (0xD7B0,0xD7C6); (0xD7CB,0xD7FB); (0xF900,0xFA6D);
      (0xFA70,0xFAD9); (0xFB00,0xFB06); (0xFB13,0xFB17); (0xFB1D,0xFB1D); (0xFB1F,0xFB28);
      (0xFB2A,0xFB36); (0xFB38,0xFB3C); (0xFB3E,0xFB3E); (0xFB40,0xFB41); (0xFB43,0xFB44);
      (0xFB46,0xFBB1); (0xFBD3,0xFD3D); (0xFD50,0xFD8F); (0xFD92,0xFDC7); (0xFDF0,0xFDFB);
      (0xFE70,0xFE74); (0xFE76,0xFEFC); (0xFF10,0xFF19); (0xFF21,0xFF3A); (0xFF41,0xFF5A);
      (0xFF66,0xFFBE); (0xFFC2,0xFFC7); (0xFFCA,0xFFCF); (0xFFD2,0xFFD7); (0xFFDA,0xFFDC);
      (0x10000,0x1000B); (0x1000D,0x10026); (0x10028,0x1003A); (0x1003C,0x1003D);
      (0x1003F,0x1004D); (0x10050,0x1005D); (0x10080,0x100FA); (0x10107,0x10133);
      (0x10140,0x10178); (0x1018A,0x1018B); (0x10280,0x1029C); (0x102A0,0x102D0);
      (0x102E1,0x102FB); (0x10300,0x10323); (0x1032D,0x1034A); (0x10350,0x10375);
      (0x10380,0x1039D); (0x103A0,0x103C3); (0x103C8,0x103CF); (0x103D1,0x103D5);
      (0x10400,0x1049D); (0x104A0,0x104A9); (0x104B0,0x104D3); (0x104D8,0x104FB);
      (0x10500,0x10527); (0x10530,0x10563); (0x10570,0x1057A); (0x1057C,0x1058A);
      (0x1058C,0x10592); (0x10594,0x10595); (0x10597,0x105A1); (0x105A3,0x105B1);
      (0x105B3,0x105B9); (0x105BB,0x105BC); (0x10600,0x10736); (0x10740,0x10755);
      (0x10760,0x10767); (0x10780,0x10785); (0x10787,0x107B0); (0x107B2,0x107BA);
      (0x10800,0x10805); (0x10808,0x10808); (0x1080A,0x10835); (0x10837,0x10838);
      (0x1083C,0x1083C); (0x1083F,0x10855); (0x10858,0x10876); (0x10879,0x1089E);
      (0x108A7,0x108AF); (0x108E0,0x108F2); (0x108F4,0x108F5); (0x108FB,0x1091B);
      (0x10920,0x10939); (0x10980,0x109B7); (0x109BC,0x109CF); (0x109D2,0x10A00);
      (0x10A10,0x10A13); (0x10A15,0x10A17); (0x10A19,0x10A35); (0x10A40,0x10A48);
      (0x10A60,0x10A7E); (0x10A80,0x10A9F); (0x10AC0,0x10AC7); (0x10AC9,0x10AE4);
      (0x10AEB,0x10AEF); (0x10B00,0x10B35); (0x10B40,0x10B55); (0x10B58,0x10B72);
      (0x10B78,0x10B91); (0x10BA9,0x10BAF); (0x10C00,0x10C48); (0x10C80,0x10CB2);
      (0x10CC0,0x10CF2); (0x10CFA,0x10D23); (0x10D30,0x10D39); (0x10E60,0x10E7E);
      (0x10E80,0x10EA9); (0x10EB0,0x10EB1); (0x10F00,0x10F27); (0x10F30,0x10F45);
      (0x10F51,0x10F54); (0x10F70,0x10F81); (0x10FB0,0x10FCB); (0x10FE0,0x10FF6);
      (0x11003,0x11037); (0x11052,0x1106F); (0x11071,0x11072); (0x11075,0x11075);
      (0x11083,0x110AF); (0x110D0,0x110E8); (0x110F0,0x110F9); (0x11103,0x11126);
      (0x11136,0x1113F); (0x11144,0x11144); (0x11147,0x11147); (0x11150,0x11172);
      (0x11176,0x11176); (0x11183,0x111B2); (0x111C1,0x111C4); (0x111D0,0x111DA);
      (0x111DC,0x111DC); (0x111E1,0x111F4); (0x11200,0x11211); (0x11213,0x1122B);
      (0x11280,0x11286); (0x11288,0x11288); (0x1128A,0x1128D); (0x1128F,0x1129D);
      (0x1129F,0x112A8); (0x112B0,0x112DE); (0x112F0,0x112F9); (0x11305,0x1130C);
      (0x1130F,0x11310); (0x11313,0x11328); (0x1132A,0x11330); (0x11332,0x11333);
      (0x11335,0x11339); (0x1133D,0x1133D); (0x11350,0x11350); (0x1135D,0x11361);
      (0x11400,0x11434); (0x11447,0x1144A); (0x11450,0x11459); (0x1145F,0x11461);
      (0x11480,0x114AF); (0x114C4,0x114C5); (0x114C7,0x114C7); (0x114D0,0x114D9);
      (0x11580,0x115AE); (0x115D8,0x115DB); (0x11600,0x1162F); (0x11644,0x11644);
      (0x11650,0x11659); (0x11680,0x116AA); (0x116B8,0x116B8); (0x116C0,0x116C9);
      (0x11700,0x1171A); (0x11730,0x1173B); (0x11740,0x11746); (0x11800,0x1182B);
      (0x118A0,0x118F2); (0x118FF,0x11906); (0x11909,0x11909); (0x1190C,0x11913);
      (0x11915,0x11916); (0x11918,0x1192F); (0x1193F,0x1193F); (0x11941,0x11941);
      (0x11950,0x11959); (0x119A0,0x119A7); (0x119AA,0x119D0); (0x119E1,0x119E1);
      (0x119E3,0x119E3); (0x11A00,0x11A00); (0x11A0B,0x11A32); (0x11A3A,0x11A3A);
      (0x11A50,0x11A50); (0x11A5C,0x11A89); (0x11A9D,0x11A9D); (0x11AB0,0x11AF8);
      (0x11C00,0x11C08); (0x11C0A,0x11C2E); (0x11C40,0x11C40); (0x11C50,0x11C6C);
      (0x11C72,0x11C8F); (0x11D00,0x11D06); (0x11D08,0x11D09); (0x11D0B,0x11D30);
      (0x11D46,0x11D46); (0x11D50,0x11D59); (0x11D60,0x11D65); (0x11D67,0x11D68);
      (0x11D6A,0x11D89); (0x11D98,0x11D98); (0x11DA0,0x11DA9); (0x11EE0,0x11EF2);
      (0x11FB0,0x11FB0); (0x11FC0,0x11FD4); (0x12000,0x12399); (0x12400,0x1246E);
      (0x12480,0x12543); (0x12F90,0x12FF0); (0x13000,0x1342E); (0x14400,0x14646);
      (0x16800,0x16A38); (0x16A40,0x16A5E); (0x16A60,0x16A69); (0x16A70,0x16ABE);
      (0x16AC0,0x16AC9); (0x16AD0,0x16AED); (0x16B00,0x16B2F); (0x16B40,0x16B43);
      (0x16B50,0x16B59); (0x16B5B,0x16B61); (0x16B63,0x16B77); (0x16B7D,0x16B8F);
      (0x16E40,0x16E96); (0x16F00,0x16F4A); (0x16F50,0x16F50); (0x16F93,0x16F9F);
      (0x16FE0,0x16FE1); (0x16FE3,0x16FE3); (0x17000,0x187F7); (0x18800,0x18CD5);
      (0x18D00,0x18D08); (0x1AFF0,0x1AFF3); (0x1AFF5,0x1AFFB); (0x1AFFD,0x1AFFE);
      (0x1B000,0x1B122); (0x1B150,0x1B152); (0x1B164,0x1B167); (0x1B170,0x1B2FB);
      (0x1BC00,0x1BC6A); (0x1BC70,0x1BC7C); (0x1BC80,0x1BC88); (0x1BC90,0x1BC99);
      (0x1D2E0,0x1D2F3); (0x1D360,0x1D378); (0x1D400,0x1D454); (0x1D456,0x1D49C);
      (0x1D49E,0x1D49F); (0x1D4A2,0x1D4A2); (0x1D4A5,0x1D4A6); (0x1D4A9,0x1D4AC);
      (0x1D4AE,0x1D4B9); (0x1D4BB,0x1D4BB); (0x1D4BD,0x1D4C3); (0x1D4C5,0x1D505);
      (0x1D507,0x1D50A); (0x1D50D,0x1D514); (0x1D516,0x1D51C); (0x1D51E,0x1D539);
      (0x1D53B,0x1D53E); (0x1D540,0x1D544); (0x1D546,0x1D546); (0x1D54A,0x1D550);
      (0x1D552,0x1D6A5); (0x1D6A8,0x1D6C0); (0x1D6C2,0x1D6DA); (0x1D6DC,0x1D6FA);
      (0x1D6FC,0x1D714); (0x1D716,0x1D734); (0x1D736,0x1D74E); (0x1D750,0x1D76E);
      (0x1D770,0x1D788); (0x1D78A,0x1D7A8); (0x1D7AA,0x1D7C2); (0x1D7C4,0x1D7CB);
      (0x1D7CE,0x1D7FF); (0x1DF00,0x1DF1E); (0x1E100,0x1E12C); (0x1E137,0x1E13D);
      (0x1E140,0x1E149); (0x1E14E,0x1E14E); (0x1E290,0x1E2AD); (0x1E2C0,0x1E2EB);
      (0x1E2F0,0x1E2F9); (0x1E7E0,0x1E7E6); (0x1E7E8,0x1E7EB); (0x1E7ED,0x1E7EE);
      (0x1E7F0,0x1E7FE); (0x1E800,0x1E8C4); (0x1E8C7,0x1E8CF); (0x1E900,0x1E943);
      (0x1E94B,0x1E94B); (0x1E950,0x1E959); (0x1EC71,0x1ECAB); (0x1ECAD,0x1ECAF);
      (0x1ECB1,0x1ECB4); (0x1ED01,0x1ED2D); (0x1ED2F,0x1ED3D); (0x1EE00,0x1EE03);
      (0x1EE05,0x1EE1F); (0x1EE21,0x1EE22); (0x1EE24,0x1EE24); (0x1EE27,0x1EE27);
      (0x1EE29,0x1EE32); (0x1EE34,0x1EE37); (0x1EE39,0x1EE39); (0x1EE3B,0x1EE3B);
      (0x1EE42,0x1EE42); (0x1EE47,0x1EE47); (0x1EE49,0x1EE49); (0x1EE4B,0x1EE4B);
      (0x1EE4D,0x1EE4F); (0x1EE51,0x1EE52); (0x1EE54,0x1EE54); (0x1EE57,0x1EE57);
      (0x1EE59,0x1EE59); (0x1EE5B,0x1EE5B); (0x1EE5D,0x1EE5D); (0x1EE5F,0x1EE5F);
      (0x1EE61,0x1EE62); (0x1EE64,0x1EE64); (0x1EE67,0x1EE6A); (0x1EE6C,0x1EE72);
      (0x1EE74,0x1EE77); (0x1EE79,0x1EE7C); (0x1EE7E,0x1EE7E); (0x1EE80,0x1EE89);
      (0x1EE8B,0x1EE9B); (0x1EEA1,0x1EEA3); (0x1EEA5,0x1EEA9); (0x1EEAB,0x1EEBB);
      (0x1F100,0x1F10C); (0x1FBF0,0x1FBF9); (0x20000,0x2A6DF); (0x2A700,0x2B738);
      (0x2B740,0x2B81D); (0x2B820,0x2CEA1); (0x2CEB0,0x2EBE0); (0x2F800,0x2FA1D);
      (0x30000,0x3134A)
  ]%N.

(** [chr(c).upper()] where it is one code point other than [c]. *)
Definition upper_single : list (N * N) :=
  [
      (0x61,0x41); (0x62,0x42); (0x63,0x43); (0x64,0x44); (0x65,0x45); (0x66,0x46); (0x67,0x47);
      (0x68,0x48); (0x69,0x49); (0x6A,0x4A); (0x6B,0x4B); (0x6C,0x4C); (0x6D,0x4D); (0x6E,0x4E);
      (0x6F,0x4F); (0x70,0x50); (0x71,0x51); (0x72,0x52); (0x73,0x53); (0x74,0x54); (0x75,0x55);
      (0x76,0x56); (0x77,0x57); (0x78,0x58); (0x79,0x59); (0x7A,0x5A); (0xB5,0x39C);
      (0xE0,0xC0); (0xE1,0xC1); (0xE2,0xC2); (0xE3,0xC3); (0xE4,0xC4); (0xE5,0xC5); (0xE6,0xC6);
      (0xE7,0xC7); (0xE8,0xC8); (0xE9,0xC9); (0xEA,0xCA); (0xEB,0xCB); (0xEC,0xCC); (0xED,0xCD);
      (0xEE,0xCE); (0xEF,0xCF); (0xF0,0xD0); (0xF1,0xD1); (0xF2,0xD2); (0xF3,0xD3); (0xF4,0xD4);
      (0xF5,0xD5); (0xF6,0xD6); (0xF8,0xD8); (0xF9,0xD9); (0xFA,0xDA); (0xFB,0xDB); (0xFC,0xDC);
      (0xFD,0xDD); (0xFE,0xDE); (0xFF,0x178); (0x101,0x100); (0x103,0x102); (0x105,0x104);
      (0x107,0x106); (0x109,0x108); (0x10B,0x10A); (0x10D,0x10C); (0x10F,0x10E); (0x111,0x110);
      (0x113,0x112); (0x115,0x114); (0x117,0x116); (0x119,0x118); (0x11B,0x11A); (0x11D,0x11C);
      (0x11F,0x11E); (0x121,0x120); (0x123,0x122); (0x125,0x124); (0x127,0x126); (0x129,0x128);
      (0x12B,0x12A); (0x12D,0x12C); (0x12F,0x12E); (0x131,0x49); (0x133,0x132); (0x135,0x134);
      (0x137,0x136); (0x13A,0x139); (0x13C,0x13B); (0x13E,0x13D); (0x140,0x13F); (0x142,0x141);
      (0x144,0x143); (0x146,0x145); (0x148,0x147); (0x14B,0x14A); (0x14D,0x14C); (0x14F,0x14E);
      (0x151,0x150); (0x153,0x152); (0x155,0x154); (0x157,0x156); (0x159,0x158); (0x15B,0x15A);
      (0x15D,0x15C); (0x15F,0x15E); (0x161,0x160); (0x163,0x162); (0x165,0x164); (0x167,0x166);
      (0x169,0x168); (0x16B,0x16A); (0x16D,0x16C); (0x16F,0x16E); (0x171,0x170); (0x173,0x172);
      (0x175,0x174); (0x177,0x176); (0x17A,0x179); (0x17C,0x17B); (0x17E,0x17D); (0x17F,0x53);
      (0x180,0x243); (0x183,0x182); (0x185,0x184); (0x188,0x187); (0x18C,0x18B); (0x192,0x191);
      (0x195,0x1F6); (0x199,0x198); (0x19A,0x23D); (0x19E,0x220); (0x1A1,0x1A0); (0x1A3,0x1A2);
      (0x1A5,0x1A4); (0x1A8,0x1A7); (0x1AD,0x1AC); (0x1B0,0x1AF); (0x1B4,0x1B3); (0x1B6,0x1B5);
      (0x1B9,0x1B8); (0x1BD,0x1BC); (0x1BF,0x1F7); (0x1C5,0x1C4); (0x1C6,0x1C4); (0x1C8,0x1C7);
      (0x1C9,0x1C7); (0x1CB,0x1CA); (0x1CC,0x1CA); (0x1CE,0x1CD); (0x1D0,0x1CF); (0x1D2,0x1D1);
      (0x1D4,0x1D3); (0x1D6,0x1D5); (0x1D8,0x1D7); (0x1DA,0x1D9); (0x1DC,0x1DB); (0x1DD,0x18E);
      (0x1DF,0x1DE); (0x1E1,0x1E0); (0x1E3,0x1E2); (0x1E5,0x1E4); (0x1E7,0x1E6); (0x1E9,0x1E8);
      (0x1EB,0x1EA); (0x1ED,0x1EC); (0x1EF,0x1EE); (0x1F2,0x1F1); (0x1F3,0x1F1); (0x1F5,0x1F4);
      (0x1F9,0x1F8); (0x1FB,0x1FA); (0x1FD,0x1FC); (0x1FF,0x1FE); (0x201,0x200); (0x203,0x202);
      (0x205,0x204); (0x207,0x206); (0x209,0x208); (0x20B,0x20A); (0x20D,0x20C); (0x20F,0x20E);
      (0x211,0x210); (0x213,0x212); (0x215,0x214); (0x217,0x216); (0x219,0x218); (0x21B,0x21A);
      (0x21D,0x21C); (0x21F,0x21E); (0x223,0x222); (0x225,0x224); (0x227,0x226); (0x229,0x228);
      (0x22B,0x22A); (0x22D,0x22C); (0x22F,0x22E); (0x231,0x230); (0x233,0x232); (0x23C,0x23B);
      (0x23F,0x2C7E); (0x240,0x2C7F); (0x242,0x241); (0x247,0x246); (0x249,0x248);
      (0x24B,0x24A); (0x24D,0x24C); (0x24F,0x24E); (0x250,0x2C6F); (0x251,0x2C6D);
      (0x252,0x2C70); (0x253,0x181); (0x254,0x186); (0x256,0x189); (0x257,0x18A); (0x259,0x18F);
      (0x25B,0x190); (0x25C,0xA7AB); (0x260,0x193); (0x261,0xA7AC); (0x263,0x194);
      (0x265,0xA78D); (0x266,0xA7AA); (0x268,0x197); (0x269,0x196); (0x26A,0xA7AE);
      (0x26B,0x2C62); (0x26C,0xA7AD); (0x26F,0x19C); (0x271,0x2C6E); (0x272,0x19D);
      (0x275,0x19F); (0x27D,0x2C64); (0x280,0x1A6); (0x282,0xA7C5); (0x283,0x1A9);
      (0x287,0xA7B1); (0x288,0x1AE); (0x289,0x244); (0x28A,0x1B1); (0x28B,0x1B2); (0x28C,0x245);
      (0x292,0x1B7); (0x29D,0xA7B2); (0x29E,0xA7B0); (0x345,0x399); (0x371,0x370);
      (0x373,0x372); (0x377,0x376); (0x37B,0x3FD); (0x37C,0x3FE); (0x37D,0x3FF); (0x3AC,0x386);
      (0x3AD,0x388); (0x3AE,0x389); (0x3AF,0x38A); (0x3B1,0x391); (0x3B2,0x392); (0x3B3,0x393);
      (0x3B4,0x394); (0x3B5,0x395); (0x3B6,0x396); (0x3B7,0x397); (0x3B8,0x398); (0x3B9,0x399);
      (0x3BA,0x39A); (0x3BB,0x39B); (0x3BC,0x39C); (0x3BD,0x39D); (0x3BE,0x39E); (0x3BF,0x39F);
      (0x3C0,0x3A0); (0x3C1,0x3A1); (0x3C2,0x3A3); (0x3C3,0x3A3); (0x3C4,0x3A4); (0x3C5,0x3A5);
      (0x3C6,0x3A6); (0x3C7,0x3A7); (0x3C8,0x3A8); (0x3C9,0x3A9); (0x3CA,0x3AA); (0x3CB,0x3AB);
      (0x3CC,0x38C); (0x3CD,0x38E); (0x3CE,0x38F); (0x3D0,0x392); (0x3D1,0x398); (0x3D5,0x3A6);
      (0x3D6,0x3A0); (0x3D7,0x3CF); (0x3D9,0x3D8); (0x3DB,0x3DA); (0x3DD,0x3DC); (0x3DF,0x3DE);
      (0x3E1,0x3E0); (0x3E3,0x3E2); (0x3E5,0x3E4); (0x3E7,0x3E6); (0x3E9,0x3E8); (0x3EB,0x3EA);
      (0x3ED,0x3EC); (0x3EF,0x3EE); (0x3F0,0x39A); (0x3F1,0x3A1); (0x3F2,0x3F9); (0x3F3,0x37F);
      (0x3F5,0x395); (0x3F8,0x3F7); (0x3FB,0x3FA); (0x430,0x410); (0x431,0x411); (0x432,0x412);
      (0x433,0x413); (0x434,0x414); (0x435,0x415); (0x436,0x416); (0x437,0x417); (0x438,0x418);
      (0x439,0x419); (0x43A,0x41A); (0x43B,0x41B); (0x43C,0x41C); (0x43D,0x41D); (0x43E,0x41E);
      (0x43F,0x41F); (0x440,0x420); (0x441,0x421); (0x442,0x422); (0x443,0x423); (0x444,0x424);
      (0x445,0x425); (0x446,0x426); (0x447,0x427); (0x448,0x428); (0x449,0x429); (0x44A,0x42A);
      (0x44B,0x42B); (0x44C,0x42C); (0x44D,0x42D); (0x44E,0x42E); (0x44F,0x42F); (0x450,0x400);
      (0x451,0x401); (0x452,0x402); (0x453,0x403); (0x454,0x404); (0x455,0x405); (0x456,0x406);
      (0x457,0x407); (0x458,0x408); (0x459,0x409); (0x45A,0x40A); (0x45B,0x40B); (0x45C,0x40C);
      (0x45D,0x40D); (0x45E,0x40E); (0x45F,0x40F); (0x461,0x460); (0x463,0x462); (0x465,0x464);
      (0x467,0x466); (0x469,0x468); (0x46B,0x46A); (0x46D,0x46C); (0x46F,0x46E); (0x471,0x470);
      (0x473,0x472); (0x475,0x474); (0x477,0x476); (0x479,0x478); (0x47B,0x47A); (0x47D,0x47C);
      (0x47F,0x47E); (0x481,0x480); (0x48B,0x48A); (0x48D,0x48C); (0x48F,0x48E); (0x491,0x490);
      (0x493,0x492); (0x495,0x494); (0x497,0x496); (0x499,0x498); (0x49B,0x49A); (0x49D,0x49C);
      (0x49F,0x49E); (0x4A1,0x4A0); (0x4A3,0x4A2); (0x4A5,0x4A4); (0x4A7,0x4A6); (0x4A9,0x4A8);
      (0x4AB,0x4AA); (0x4AD,0x4AC); (0x4AF,0x4AE); (0x4B1,0x4B0); (0x4B3,0x4B2); (0x4B5,0x4B4);
      (0x4B7,0x4B6); (0x4B9,0x4B8); (0x4BB,0x4BA); (0x4BD,0x4BC); (0x4BF,0x4BE); (0x4C2,0x4C1);
      (0x4C4,0x4C3); (0x4C6,0x4C5); (0x4C8,0x4C7); (0x4CA,0x4C9); (0x4CC,0x4CB); (0x4CE,0x4CD);
      (0x4CF,0x4C0); (0x4D1,0x4D0); (0x4D3,0x4D2); (0x4D5,0x4D4); (0x4D7,0x4D6); (0x4D9,0x4D8);
      (0x4DB,0x4DA); (0x4DD,0x4DC); (0x4DF,0x4DE); (0x4E1,0x4E0); (0x4E3,0x4E2); (0x4E5,0x4E4);
      (0x4E7,0x4E6); (0x4E9,0x4E8); (0x4EB,0x4EA); (0x4ED,0x4EC); (0x4EF,0x4EE); (0x4F1,0x4F0);
      (0x4F3,0x4F2); (0x4F5,0x4F4); (0x4F7,0x4F6); (0x4F9,0x4F8); (0x4FB,0x4FA); (0x4FD,0x4FC);
      (0x4FF,0x4FE); (0x501,0x500); (0x503,0x502); (0x505,0x504); (0x507,0x506); (0x509,0x508);
      (0x50B,0x50A); (0x50D,0x50C); (0x50F,0x50E); (0x511,0x510); (0x513,0x512); (0x515,0x514);
      (0x517,0x516); (0x519,0x518); (0x51B,0x51A); (0x51D,0x51C); (0x51F,0x51E); (0x521,0x520);
      (0x523,0x522); (0x525,0x524); (0x527,0x526); (0x529,0x528); (0x52B,0x52A); (0x52D,0x52C);
      (0x52F,0x52E); (0x561,0x531); (0x562,0x532); (0x563,0x533); (0x564,0x534); (0x565,0x535);
      (0x566,0x536); (0x567,0x537); (0x568,0x538); (0x569,0x539); (0x56A,0x53A); (0x56B,0x53B);
      (0x56C,0x53C); (0x56D,0x53D); (0x56E,0x53E); (0x56F,0x53F); (0x570,0x540); (0x571,0x541);
      (0x572,0x542); (0x573,0x543); (0x574,0x544); (0x575,0x545); (0x576,0x546); (0x577,0x547);
      (0x578,0x548); (0x579,0x549); (0x57A,0x54A); (0x57B,0x54B); (0x57C,0x54C); (0x57D,0x54D);
      (0x57E,0x54E); (0x57F,0x54F); (0x580,0x550); (0x581,0x551); (0x582,0x552); (0x583,0x553);
      (0x584,0x554); (0x585,0x555); (0x586,0x556); (0x10D0,0x1C90); (0x10D1,0x1C91);
      (0x10D2,0x1C92); (0x10D3,0x1C93); (0x10D4,0x1C94); (0x10D5,0x1C95); (0x10D6,0x1C96);
      (0x10D7,0x1C97); (0x10D8,0x1C98); (0x10D9,0x1C99); (0x10DA,0x1C9A); (0x10DB,0x1C9B);
      (0x10DC,0x1C9C); (0x10DD,0x1C9D); (0x10DE,0x1C9E); (0x10DF,0x1C9F); (0x10E0,0x1CA0);
      (0x10E1,0x1CA1); (0x10E2,0x1CA2); (0x10E3,0x1CA3); (0x10E4,0x1CA4); (0x10E5,0x1CA5);
      (0x10E6,0x1CA6); (0x10E7,0x1CA7); (0x10E8,0x1CA8); (0x10E9,0x1CA9); (0x10EA,0x1CAA);
      (0x10EB,0x1CAB); (0x10EC,0x1CAC); (0x10ED,0x1CAD); (0x10EE,0x1CAE); (0x10EF,0x1CAF);
      (0x10F0,0x1CB0); (0x10F1,0x1CB1); (0x10F2,0x1CB2); (0x10F3,0x1CB3); (0x10F4,0x1CB4);
      (0x10F5,0x1CB5); (0x10F6,0x1CB6); (0x10F7,0x1CB7); (0x10F8,0x1CB8); (0x10F9,0x1CB9);
      (0x10FA,0x1CBA); (0x10FD,0x1CBD); (0x10FE,0x1CBE); (0x10FF,0x1CBF); (0x13F8,0x13F0);
      (0x13F9,0x13F1); (0x13FA,0x13F2); (0x13FB,0x13F3); (0x13FC,0x13F4); (0x13FD,0x13F5);
      (0x1C80,0x412); (0x1C81,0x414); (0x1C82,0x41E); (0x1C83,0x421); (0x1C84,0x422);
      (0x1C85,0x422); (0x1C86,0x42A); (0x1C87,0x462); (0x1C88,0xA64A); (0x1D79,0xA77D);
      (0x1D7D,0x2C63); (0x1D8E,0xA7C6); (0x1E01,0x1E00); (0x1E03,0x1E02); (0x1E05,0x1E04);
      (0x1E07,0x1E06); (0x1E09,0x1E08); (0x1E0B,0x1E0A); (0x1E0D,0x1E0C); (0x1E0F,0x1E0E);
      (0x1E11,0x1E10); (0x1E13,0x1E12); (0x1E15,0x1E14); (0x1E17,0x1E16); (0x1E19,0x1E18);
      (0x1E1B,0x1E1A); (0x1E1D,0x1E1C); (0x1E1F,0x1E1E); (0x1E21,0x1E20); (0x1E23,0x1E22);
      (0x1E25,0x1E24); (0x1E27,0x1E26); (0x1E29,0x1E28); (0x1E2B,0x1E2A); (0x1E2D,0x1E2C);
      (0x1E2F,0x1E2E); (0x1E31,0x1E30); (0x1E33,0x1E32); (0x1E35,0x1E34); (0x1E37,0x1E36);
      (0x1E39,0x1E38); (0x1E3B,0x1E3A); (0x1E3D,0x1E3C); (0x1E3F,0x1E3E); (0x1E41,0x1E40);
      (0x1E43,0x1E42); (0x1E45,0x1E44); (0x1E47,0x1E46); (0x1E49,0x1E48); (0x1E4B,0x1E4A);
      (0x1E4D,0x1E4C); (0x1E4F,0x1E4E); (0x1E51,0x1E50); (0x1E53,0x1E52); (0x1E55,0x1E54);
      (0x1E57,0x1E56); (0x1E59,0x1E58); (0x1E5B,0x1E5A); (0x1E5D,0x1E5C); (0x1E5F,0x1E5E);
      (0x1E61,0x1E60); (0x1E63,0x1E62); (0x1E65,0x1E64); (0x1E67,0x1E66); (0x1E69,0x1E68);
      (0x1E6B,0x1E6A); (0x1E6D,0x1E6C); (0x1E6F,0x1E6E); (0x1E71,0x1E70); (0x1E73,0x1E72);
      (0x1E75,0x1E74); (0x1E77,0x1E76); (0x1E79,0x1E78); (0x1E7B,0x1E7A); (0x1E7D,0x1E7C);
      (0x1E7F,0x1E7E); (0x1E81,0x1E80); (0x1E83,0x1E82); (0x1E85,0x1E84); (0x1E87,0x1E86);
      (0x1E89,0x1E88); (0x1E8B,0x1E8A); (0x1E8D,0x1E8C); (0x1E8F,0x1E8E); (0x1E91,0x1E90);
      (0x1E93,0x1E92); (0x1E95,0x1E94); (0x1E9B,0x1E60); (0x1EA1,0x1EA0); (0x1EA3,0x1EA2);
      (0x1EA5,0x1EA4); (0x1EA7,0x1EA6); (0x1EA9,0x1EA8); (0x1EAB,0x1EAA); (0x1EAD,0x1EAC);
      (0x1EAF,0x1EAE); (0x1EB1,0x1EB0); (0x1EB3,0x1EB2); (0x1EB5,0x1EB4); (0x1EB7,0x1EB6);
      (0x1EB9,0x1EB8); (0x1EBB,0x1EBA); (0x1EBD,0x1EBC); (0x1EBF,0x1EBE); (0x1EC1,0x1EC0);
      (0x1EC3,0x1EC2); (0x1EC5,0x1EC4); (0x1EC7,0x1EC6); (0x1EC9,0x1EC8); (0x1ECB,0x1ECA);
      (0x1ECD,0x1ECC); (0x1ECF,0x1ECE); (0x1ED1,0x1ED0); (0x1ED3,0x1ED2); (0x1ED5,0x1ED4);
      (0x1ED7,0x1ED6); (0x1ED9,0x1ED8); (0x1EDB,0x1EDA); (0x1EDD,0x1EDC); (0x1EDF,0x1EDE);
      (0x1EE1,0x1EE0); (0x1EE3,0x1EE2); (0x1EE5,0x1EE4); (0x1EE7,0x1EE6); (0x1EE9,0x1EE8);
      (0x1EEB,0x1EEA); (0x1EED,0x1EEC); (0x1EEF,0x1EEE); (0x1EF1,0x1EF0); (0x1EF3,0x1EF2);
      (0x1EF5,0x1EF4); (0x1EF7,0x1EF6); (0x1EF9,0x1EF8); (0x1EFB,0x1EFA); (0x1EFD,0x1EFC);
      (0x1EFF,0x1EFE); (0x1F00,0x1F08); (0x1F01,0x1F09); (0x1F02,0x1F0A); (0x1F03,0x1F0B);
      (0x1F04,0x1F0C); (0x1F05,0x1F0D); (0x1F06,0x1F0E); (0x1F07,0x1F0F); (0x1F10,0x1F18);
      (0x1F11,0x1F19); (0x1F12,0x1F1A); (0x1F13,0x1F1B); (0x1F14,0x1F1C); (0x1F15,0x1F1D);
      (0x1F20,0x1F28); (0x1F21,0x1F29); (0x1F22,0x1F2A); (0x1F23,0x1F2B); (0x1F24,0x1F2C);
      (0x1F25,0x1F2D); (0x1F26,0x1F2E); (0x1F27,0x1F2F); (0x1F30,0x1F38); (0x1F31,0x1F39);
      (0x1F32,0x1F3A); (0x1F33,0x1F3B); (0x1F34,0x1F3C); (0x1F35,0x1F3D); (0x1F36,0x1F3E);
      (0x1F37,0x1F3F); (0x1F40,0x1F48); (0x1F41,0x1F49); (0x1F42,0x1F4A); (0x1F43,0x1F4B);
      (0x1F44,0x1F4C); (0x1F45,0x1F4D); (0x1F51,0x1F59); (0x1F53,0x1F5B); (0x1F55,0x1F5D);
      (0x1F57,0x1F5F); (0x1F60,0x1F68); (0x1F61,0x1F69); (0x1F62,0x1F6A); (0x1F63,0x1F6B);
      (0x1F64,0x1F6C); (0x1F65,0x1F6D); (0x1F66,0x1F6E); (0x1F67,0x1F6F); (0x1F70,0x1FBA);
      (0x1F71,0x1FBB); (0x1F72,0x1FC8); (0x1F73,0x1FC9); (0x1F74,0x1FCA); (0x1F75,0x1FCB);
      (0x1F76,0x1FDA); (0x1F77,0x1FDB); (0x1F78,0x1FF8); (0x1F79,0x1FF9); (0x1F7A,0x1FEA);
      (0x1F7B,0x1FEB); (0x1F7C,0x1FFA); (0x1F7D,0x1FFB); (0x1FB0,0x1FB8); (0x1FB1,0x1FB9);
      (0x1FBE,0x399); (0x1FD0,0x1FD8); (0x1FD1,0x1FD9); (0x1FE0,0x1FE8); (0x1FE1,0x1FE9);
      (0x1FE5,0x1FEC); (0x214E,0x2132); (0x2170,0x2160); (0x2171,0x2161); (0x2172,0x2162);
      (0x2173,0x2163); (0x2174,0x2164); (0x2175,0x2165); (0x2176,0x2166); (0x2177,0x2167);
      (0x2178,0x2168); (0x2179,0x2169); (0x217A,0x216A); (0x217B,0x216B); (0x217C,0x216C);
      (0x217D,0x216D); (0x217E,0x216E); (0x217F,0x216F); (0x2184,0x2183); (0x24D0,0x24B6);
      (0x24D1,0x24B7); (0x24D2,0x24B8); (0x24D3,0x24B9); (0x24D4,0x24BA); (0x24D5,0x24BB);
      (0x24D6,0x24BC); (0x24D7,0x24BD); (0x24D8,0x24BE); (0x24D9,0x24BF); (0x24DA,0x24C0);
      (0x24DB,0x24C1); (0x24DC,0x24C2); (0x24DD,0x24C3); (0x24DE,0x24C4); (0x24DF,0x24C5);
      (0x24E0,0x24C6); (0x24E1,0x24C7); (0x24E2,0x24C8); (0x24E3,0x24C9); (0x24E4,0x24CA);
      (0x24E5,0x24CB); (0x24E6,0x24CC); (0x24E7,0x24CD); (0x24E8,0x24CE); (0x24E9,0x24CF);
      (0x2C30,0x2C00); (0x2C31,0x2C01); (0x2C32,0x2C02); (0x2C33,0x2C03); (0x2C34,0x2C04);
      (0x2C35,0x2C05); (0x2C36,0x2C06); (0x2C37,0x2C07); (0x2C38,0x2C08); (0x2C39,0x2C09);
      (0x2C3A,0x2C0A); (0x2C3B,0x2C0B); (0x2C3C,0x2C0C); (0x2C3D,0x2C0D); (0x2C3E,0x2C0E);
      (0x2C3F,0x2C0F); (0x2C40,0x2C10); (0x2C41,0x2C11); (0x2C42,0x2C12); (0x2C43,0x2C13);
      (0x2C44,0x2C14); (0x2C45,0x2C15); (0x2C46,0x2C16); (0x2C47,0x2C17); (0x2C48,0x2C18);
      (0x2C49,0x2C19); (0x2C4A,0x2C1A); (0x2C4B,0x2C1B); (0x2C4C,0x2C1C); (0x2C4D,0x2C1D);
      (0x2C4E,0x2C1E); (0x2C4F,0x2C1F); (0x2C50,0x2C20); (0x2C51,0x2C21); (0x2C52,0x2C22);
      (0x2C53,0x2C23); (0x2C54,0x2C24); (0x2C55,0x2C25); (0x2C56,0x2C26); (0x2C57,0x2C27);
      (0x2C58,0x2C28); (0x2C59,0x2C29); (0x2C5A,0x2C2A); (0x2C5B,0x2C2B); (0x2C5C,0x2C2C);
      (0x2C5D,0x2C2D); (0x2C5E,0x2C2E); (0x2C5F,0x2C2F); (0x2C61,0x2C60); (0x2C65,0x23A);
      (0x2C66,0x23E); (0x2C68,0x2C67); (0x2C6A,0x2C69); (0x2C6C,0x2C6B); (0x2C73,0x2C72);
      (0x2C76,0x2C75); (0x2C81,0x2C80); (0x2C83,0x2C82); (0x2C85,0x2C84); (0x2C87,0x2C86);
      (0x2C89,0x2C88); (0x2C8B,0x2C8A); (0x2C8D,0x2C8C); (0x2C8F,0x2C8E); (0x2C91,0x2C90);
      (0x2C93,0x2C92); (0x2C95,0x2C94); (0x2C97,0x2C96); (0x2C99,0x2C98); (0x2C9B,0x2C9A);
      (0x2C9D,0x2C9C); (0x2C9F,0x2C9E); (0x2CA1,0x2CA0); (0x2CA3,0x2CA2); (0x2CA5,0x2CA4);
      (0x2CA7,0x2CA6); (0x2CA9,0x2CA8); (0x2CAB,0x2CAA); (0x2CAD,0x2CAC); (0x2CAF,0x2CAE);
      (0x2CB1,0x2CB0); (0x2CB3,0x2CB2); (0x2CB5,0x2CB4); (0x2CB7,0x2CB6); (0x2CB9,0x2CB8);
      (0x2CBB,0x2CBA); (0x2CBD,0x2CBC); (0x2CBF,0x2CBE); (0x2CC1,0x2CC0); (0x2CC3,0x2CC2);
      (0x2CC5,0x2CC4); (0x2CC7,0x2CC6); (0x2CC9,0x2CC8); (0x2CCB,0x2CCA); (0x2CCD,0x2CCC);
      (0x2CCF,0x2CCE); (0x2CD1,0x2CD0); (0x2CD3,0x2CD2); (0x2CD5,0x2CD4); (0x2CD7,0x2CD6);
      (0x2CD9,0x2CD8); (0x2CDB,0x2CDA); (0x2CDD,0x2CDC); (0x2CDF,0x2CDE); (0x2CE1,0x2CE0);
      (0x2CE3,0x2CE2); (0x2CEC,0x2CEB); (0x2CEE,0x2CED); (0x2CF3,0x2CF2); (0x2D00,0x10A0);
      (0x2D01,0x10A1); (0x2D02,0x10A2); (0x2D03,0x10A3); (0x2D04,0x10A4); (0x2D05,0x10A5);
      (0x2D06,0x10A6); (0x2D07,0x10A7); (0x2D08,0x10A8); (0x2D09,0x10A9); (0x2D0A,0x10AA);
      (0x2D0B,0x10AB); (0x2D0C,0x10AC); (0x2D0D,0x10AD); (0x2D0E,0x10AE); (0x2D0F,0x10AF);
      (0x2D10,0x10B0); (0x2D11,0x10B1); (0x2D12,0x10B2); (0x2D13,0x10B3); (0x2D14,0x10B4);
      (0x2D15,0x10B5); (0x2D16,0x10B6); (0x2D17,0x10B7); (0x2D18,0x10B8); (0x2D19,0x10B9);
      (0x2D1A,0x10BA); (0x2D1B,0x10BB); (0x2D1C,0x10BC); (0x2D1D,0x10BD); (0x2D1E,0x10BE);
      (0x2D1F,0x10BF); (0x2D20,0x10C0); (0x2D21,0x10C1); (0x2D22,0x10C2); (0x2D23,0x10C3);
      (0x2D24,0x10C4); (0x2D25,0x10C5); (0x2D27,0x10C7); (0x2D2D,0x10CD); (0xA641,0xA640);
      (0xA643,0xA642); (0xA645,0xA644); (0xA647,0xA646); (0xA649,0xA648); (0xA64B,0xA64A);
      (0xA64D,0xA64C); (0xA64F,0xA64E); (0xA651,0xA650); (0xA653,0xA652); (0xA655,0xA654);
      (0xA657,0xA656); (0xA659,0xA658); (0xA65B,0xA65A); (0xA65D,0xA65C); (0xA65F,0xA65E);
      (0xA661,0xA660); (0xA663,0xA662); (0xA665,0xA664); (0xA667,0xA666); (0xA669,0xA668);
      (0xA66B,0xA66A); (0xA66D,0xA66C); (0xA681,0xA680); (0xA683,0xA682); (0xA685,0xA684);
      (0xA687,0xA686); (0xA689,0xA688); (0xA68B,0xA68A); (0xA68D,0xA68C); (0xA68F,0xA68E);
      (0xA691,0xA690); (0xA693,0xA692); (0xA695,0xA694); (0xA697,0xA696); (0xA699,0xA698);
      (0xA69B,0xA69A); (0xA723,0xA722); (0xA725,0xA724); (0xA727,0xA726); (0xA729,0xA728);
      (0xA72B,0xA72A); (0xA72D,0xA72C); (0xA72F,0xA72E); (0xA733,0xA732); (0xA735,0xA734);
      (0xA737,0xA736); (0xA739,0xA738); (0xA73B,0xA73A); (0xA73D,0xA73C); (0xA73F,0xA73E);
      (0xA741,0xA740); (0xA743,0xA742); (0xA745,0xA744); (0xA747,0xA746); (0xA749,0xA748);
      (0xA74B,0xA74A); (0xA74D,0xA74C); (0xA74F,0xA74E); (0xA751,0xA750); (0xA753,0xA752);
      (0xA755,0xA754); (0xA757,0xA756); (0xA759,0xA758); (0xA75B,0xA75A); (0xA75D,0xA75C);
      (0xA75F,0xA75E); (0xA761,0xA760); (0xA763,0xA762); (0xA765,0xA764); (0xA767,0xA766);
      (0xA769,0xA768); (0xA76B,0xA76A); (0xA76D,0xA76C); (0xA76F,0xA76E); (0xA77A,0xA779);
      (0xA77C,0xA77B); (0xA77F,0xA77E); (0xA781,0xA780); (0xA783,0xA782); (0xA785,0xA784);
      (0xA787,0xA786); (0xA78C,0xA78B); (0xA791,0xA790); (0xA793,0xA792); (0xA794,0xA7C4);
      (0xA797,0xA796); (0xA799,0xA798); (0xA79B,0xA79A); (0xA79D,0xA79C); (0xA79F,0xA79E);
      (0xA7A1,0xA7A0); (0xA7A3,0xA7A2); (0xA7A5,0xA7A4); (0xA7A7,0xA7A6); (0xA7A9,0xA7A8);
      (0xA7B5,0xA7B4); (0xA7B7,0xA7B6); (0xA7B9,0xA7B8); (0xA7BB,0xA7BA); (0xA7BD,0xA7BC);
      (0xA7BF,0xA7BE); (0xA7C1,0xA7C0); (0xA7C3,0xA7C2); (0xA7C8,0xA7C7); (0xA7CA,0xA7C9);
      (0xA7D1,0xA7D0); (0xA7D7,0xA7D6); (0xA7D9,0xA7D8); (0xA7F6,0xA7F5); (0xAB53,0xA7B3);
      (0xAB70,0x13A0); (0xAB71,0x13A1); (0xAB72,0x13A2); (0xAB73,0x13A3); (0xAB74,0x13A4);
      (0xAB75,0x13A5); (0xAB76,0x13A6); (0xAB77,0x13A7); (0xAB78,0x13A8); (0xAB79,0x13A9);
      (0xAB7A,0x13AA); (0xAB7B,0x13AB); (0xAB7C,0x13AC); (0xAB7D,0x13AD); (0xAB7E,0x13AE);
      (0xAB7F,0x13AF); (0xAB80,0x13B0); (0xAB81,0x13B1); (0xAB82,0x13B2); (0xAB83,0x13B3);
      (0xAB84,0x13B4); (0xAB85,0x13B5); (0xAB86,0x13B6); (0xAB87,0x13B7); (0xAB88,0x13B8);
      (0xAB89,0x13B9); (0xAB8A,0x13BA); (0xAB8B,0x13BB); (0xAB8C,0x13BC); (0xAB8D,0x13BD);
      (0xAB8E,0x13BE); (0xAB8F,0x13BF); (0xAB90,0x13C0); (0xAB91,0x13C1); (0xAB92,0x13C2);
      (0xAB93,0x13C3); (0xAB94,0x13C4); (0xAB95,0x13C5); (0xAB96,0x13C6); (0xAB97,0x13C7);
      (0xAB98,0x13C8); (0xAB99,0x13C9); (0xAB9A,0x13CA); (0xAB9B,0x13CB); (0xAB9C,0x13CC);
      (0xAB9D,0x13CD); (0xAB9E,0x13CE); (0xAB9F,0x13CF); (0xABA0,0x13D0); (0xABA1,0x13D1);
      (0xABA2,0x13D2); (0xABA3,0x13D3); (0xABA4,0x13D4); (0xABA5,0x13D5); (0xABA6,0x13D6);
      (0xABA7,0x13D7); (0xABA8,0x13D8); (0xABA9,0x13D9); (0xABAA,0x13DA); (0xABAB,0x13DB);
      (0xABAC,0x13DC); (0xABAD,0x13DD); (0xABAE,0x13DE); (0xABAF,0x13DF); (0xABB0,0x13E0);
      (0xABB1,0x13E1); (0xABB2,0x13E2); (0xABB3,0x13E3); (0xABB4,0x13E4); (0xABB5,0x13E5);
      (0xABB6,0x13E6); (0xABB7,0x13E7); (0xABB8,0x13E8); (0xABB9,0x13E9); (0xABBA,0x13EA);
      (0xABBB,0x13EB); (0xABBC,0x13EC); (0xABBD,0x13ED); (0xABBE,0x13EE); (0xABBF,0x13EF);
      (0xFF41,0xFF21); (0xFF42,0xFF22); (0xFF43,0xFF23); (0xFF44,0xFF24); (0xFF45,0xFF25);
      (0xFF46,0xFF26); (0xFF47,0xFF27); (0xFF48,0xFF28); (0xFF49,0xFF29); (0xFF4A,0xFF2A);
      (0xFF4B,0xFF2B); (0xFF4C,0xFF2C); (0xFF4D,0xFF2D); (0xFF4E,0xFF2E); (0xFF4F,0xFF2F);
      (0xFF50,0xFF30); (0xFF51,0xFF31); (0xFF52,0xFF32); (0xFF53,0xFF33); (0xFF54,0xFF34);
      (0xFF55,0xFF35); (0xFF56,0xFF36); (0xFF57,0xFF37); (0xFF58,0xFF38); (0xFF59,0xFF39);
      (0xFF5A,0xFF3A); (0x10428,0x10400); (0x10429,0x10401); (0x1042A,0x10402);
      (0x1042B,0x10403); (0x1042C,0x10404); (0x1042D,0x10405); (0x1042E,0x10406);
      (0x1042F,0x10407); (0x10430,0x10408); (0x10431,0x10409); (0x10432,0x1040A);
      (0x10433,0x1040B); (0x10434,0x1040C); (0x10435,0x1040D); (0x10436,0x1040E);
      (0x10437,0x1040F); (0x10438,0x10410); (0x10439,0x10411); (0x1043A,0x10412);
      (0x1043B,0x10413); (0x1043C,0x10414); (0x1043D,0x10415); (0x1043E,0x10416);
      (0x1043F,0x10417); (0x10440,0x10418); (0x10441,0x10419); (0x10442,0x1041A);
      (0x10443,0x1041B); (0x10444,0x1041C); (0x10445,0x1041D); (0x10446,0x1041E);
      (0x10447,0x1041F); (0x10448,0x10420); (0x10449,0x10421); (0x1044A,0x10422);
      (0x1044B,0x10423); (0x1044C,0x10424); (0x1044D,0x10425); (0x1044E,0x10426);
      (0x1044F,0x10427); (0x104D8,0x104B0); (0x104D9,0x104B1); (0x104DA,0x104B2);
      (0x104DB,0x104B3); (0x104DC,0x104B4); (0x104DD,0x104B5); (0x104DE,0x104B6);
      (0x104DF,0x104B7); (0x104E0,0x104B8); (0x104E1,0x104B9); (0x104E2,0x104BA);
      (0x104E3,0x104BB); (0x104E4,0x104BC); (0x104E5,0x104BD); (0x104E6,0x104BE);
      (0x104E7,0x104BF); (0x104E8,0x104C0); (0x104E9,0x104C1); (0x104EA,0x104C2);
      (0x104EB,0x104C3); (0x104EC,0x104C4); (0x104ED,0x104C5); (0x104EE,0x104C6);
      (0x104EF,0x104C7); (0x104F0,0x104C8); (0x104F1,0x104C9); (0x104F2,0x104CA);
      (0x104F3,0x104CB); (0x104F4,0x104CC); (0x104F5,0x104CD); (0x104F6,0x104CE);
      (0x104F7,0x104CF); (0x104F8,0x104D0); (0x104F9,0x104D1); (0x104FA,0x104D2);
      (0x104FB,0x104D3); (0x10597,0x10570); (0x10598,0x10571); (0x10599,0x10572);
      (0x1059A,0x10573); (0x1059B,0x10574); (0x1059C,0x10575); (0x1059D,0x10576);
      (0x1059E,0x10577); (0x1059F,0x10578); (0x105A0,0x10579); (0x105A1,0x1057A);
      (0x105A3,0x1057C); (0x105A4,0x1057D); (0x105A5,0x1057E); (0x105A6,0x1057F);
      (0x105A7,0x10580); (0x105A8,0x10581); (0x105A9,0x10582); (0x105AA,0x10583);
      (0x105AB,0x10584); (0x105AC,0x10585); (0x105AD,0x10586); (0x105AE,0x10587);
      (0x105AF,0x10588); (0x105B0,0x10589); (0x105B1,0x1058A); (0x105B3,0x1058C);
      (0x105B4,0x1058D); (0x105B5,0x1058E); (0x105B6,0x1058F); (0x105B7,0x10590);
      (0x105B8,0x10591); (0x105B9,0x10592); (0x105BB,0x10594); (0x105BC,0x10595);
      (0x10CC0,0x10C80); (0x10CC1,0x10C81); (0x10CC2,0x10C82); (0x10CC3,0x10C83);
      (0x10CC4,0x10C84); (0x10CC5,0x10C85); (0x10CC6,0x10C86); (0x10CC7,0x10C87);
      (0x10CC8,0x10C88); (0x10CC9,0x10C89); (0x10CCA,0x10C8A); (0x10CCB,0x10C8B);
      (0x10CCC,0x10C8C); (0x10CCD,0x10C8D); (0x10CCE,0x10C8E); (0x10CCF,0x10C8F);
      (0x10CD0,0x10C90); (0x10CD1,0x10C91); (0x10CD2,0x10C92); (0x10CD3,0x10C93);
      (0x10CD4,0x10C94); (0x10CD5,0x10C95); (0x10CD6,0x10C96); (0x10CD7,0x10C97);
      (0x10CD8,0x10C98); (0x10CD9,0x10C99); (0x10CDA,0x10C9A); (0x10CDB,0x10C9B);
      (0x10CDC,0x10C9C); (0x10CDD,0x10C9D); (0x10CDE,0x10C9E); (0x10CDF,0x10C9F);
      (0x10CE0,0x10CA0); (0x10CE1,0x10CA1); (0x10CE2,0x10CA2); (0x10CE3,0x10CA3);
      (0x10CE4,0x10CA4); (0x10CE5,0x10CA5); (0x10CE6,0x10CA6); (0x10CE7,0x10CA7);
      (0x10CE8,0x10CA8); (0x10CE9,0x10CA9); (0x10CEA,0x10CAA); (0x10CEB,0x10CAB);
      (0x10CEC,0x10CAC); (0x10CED,0x10CAD); (0x10CEE,0x10CAE); (0x10CEF,0x10CAF);
      (0x10CF0,0x10CB0); (0x10CF1,0x10CB1); (0x10CF2,0x10CB2); (0x118C0,0x118A0);
      (0x118C1,0x118A1); (0x118C2,0x118A2); (0x118C3,0x118A3); (0x118C4,0x118A4);
      (0x118C5,0x118A5); (0x118C6,0x118A6); (0x118C7,0x118A7); (0x118C8,0x118A8);
      (0x118C9,0x118A9); (0x118CA,0x118AA); (0x118CB,0x118AB); (0x118CC,0x118AC);
      (0x118CD,0x118AD); (0x118CE,0x118AE); (0x118CF,0x118AF); (0x118D0,0x118B0);
      (0x118D1,0x118B1); (0x118D2,0x118B2); (0x118D3,0x118B3); (0x118D4,0x118B4);
      (0x118D5,0x118B5); (0x118D6,0x118B6); (0x118D7,0x118B7); (0x118D8,0x118B8);
      (0x118D9,0x118B9); (0x118DA,0x118BA); (0x118DB,0x118BB); (0x118DC,0x118BC);
      (0x118DD,0x118BD); (0x118DE,0x118BE); (0x118DF,0x118BF); (0x16E60,0x16E40);
      (0x16E61,0x16E41); (0x16E62,0x16E42); (0x16E63,0x16E43); (0x16E64,0x16E44);
      (0x16E65,0x16E45); (0x16E66,0x16E46); (0x16E67,0x16E47); (0x16E68,0x16E48);
      (0x16E69,0x16E49); (0x16E6A,0x16E4A); (0x16E6B,0x16E4B); (0x16E6C,0x16E4C);
      (0x16E6D,0x16E4D); (0x16E6E,0x16E4E); (0x16E6F,0x16E4F); (0x16E70,0x16E50);
      (0x16E71,0x16E51); (0x16E72,0x16E52); (0x16E73,0x16E53); (0x16E74,0x16E54);
      (0x16E75,0x16E55); (0x16E76,0x16E56); (0x16E77,0x16E57); (0x16E78,0x16E58);
      (0x16E79,0x16E59); (0x16E7A,0x16E5A); (0x16E7B,0x16E5B); (0x16E7C,0x16E5C);
      (0x16E7D,0x16E5D); (0x16E7E,0x16E5E); (0x16E7F,0x16E5F); (0x1E922,0x1E900);
      (0x1E923,0x1E901); (0x1E924,0x1E902); (0x1E925,0x1E903); (0x1E926,0x1E904);
      (0x1E927,0x1E905); (0x1E928,0x1E906); (0x1E929,0x1E907); (0x1E92A,0x1E908);
      (0x1E92B,0x1E909); (0x1E92C,0x1E90A); (0x1E92D,0x1E90B); (0x1E92E,0x1E90C);
      (0x1E92F,0x1E90D); (0x1E930,0x1E90E); (0x1E931,0x1E90F); (0x1E932,0x1E910);
      (0x1E933,0x1E911); (0x1E934,0x1E912); (0x1E935,0x1E913); (0x1E936,0x1E914);
      (0x1E937,0x1E915); (0x1E938,0x1E916); (0x1E939,0x1E917); (0x1E93A,0x1E918);
      (0x1E93B,0x1E919); (0x1E93C,0x1E91A); (0x1E93D,0x1E91B); (0x1E93E,0x1E91C);
      (0x1E93F,0x1E91D); (0x1E940,0x1E91E); (0x1E941,0x1E91F); (0x1E942,0x1E920);
      (0x1E943,0x1E921)
  ]%N.

(** [chr(c).upper()] where it is several code points (full case mapping). *)
Definition upper_full : list (N * list N) :=
  [
      (0xDF,[0x53;0x53]); (0x149,[0x2BC;0x4E]); (0x1F0,[0x4A;0x30C]);
      (0x390,[0x399;0x308;0x301]); (0x3B0,[0x3A5;0x308;0x301]); (0x587,[0x535;0x552]);
      (0x1E96,[0x48;0x331]); (0x1E97,[0x54;0x308]); (0x1E98,[0x57;0x30A]);
      (0x1E99,[0x59;0x30A]); (0x1E9A,[0x41;0x2BE]); (0x1F50,[0x3A5;0x313]);
      (0x1F52,[0x3A5;0x313;0x300]); (0x1F54,[0x3A5;0x313;0x301]); (0x1F56,[0x3A5;0x313;0x342]);
      (0x1F80,[0x1F08;0x399]); (0x1F81,[0x1F09;0x399]); (0x1F82,[0x1F0A;0x399]);
      (0x1F83,[0x1F0B;0x399]); (0x1F84,[0x1F0C;0x399]); (0x1F85,[0x1F0D;0x399]);
      (0x1F86,[0x1F0E;0x399]); (0x1F87,[0x1F0F;0x399]); (0x1F88,[0x1F08;0x399]);
      (0x1F89,[0x1F09;0x399]); (0x1F8A,[0x1F0A;0x399]); (0x1F8B,[0x1F0B;0x399]);
      (0x1F8C,[0x1F0C;0x399]); (0x1F8D,[0x1F0D;0x399]); (0x1F8E,[0x1F0E;0x399]);
      (0x1F8F,[0x1F0F;0x399]); (0x1F90,[0x1F28;0x399]); (0x1F91,[0x1F29;0x399]);
      (0x1F92,[0x1F2A;0x399]); (0x1F93,[0x1F2B;0x399]); (0x1F94,[0x1F2C;0x399]);
      (0x1F95,[0x1F2D;0x399]); (0x1F96,[0x1F2E;0x399]); (0x1F97,[0x1F2F;0x399]);
      (0x1F98,[0x1F28;0x399]); (0x1F99,[0x1F29;0x399]); (0x1F9A,[0x1F2A;0x399]);
      (0x1F9B,[0x1F2B;0x399]); (0x1F9C,[0x1F2C;0x399]); (0x1F9D,[0x1F2D;0x399]);
      (0x1F9E,[0x1F2E;0x399]); (0x1F9F,[0x1F2F;0x399]); (0x1FA0,[0x1F68;0x399]);
      (0x1FA1,[0x1F69;0x399]); (0x1FA2,[0x1F6A;0x399]); (0x1FA3,[0x1F6B;0x399]);
      (0x1FA4,[0x1F6C;0x399]); (0x1FA5,[0x1F6D;0x399]); (0x1FA6,[0x1F6E;0x399]);
      (0x1FA7,[0x1F6F;0x399]); (0x1FA8,[0x1F68;0x399]); (0x1FA9,[0x1F69;0x399]);
      (0x1FAA,[0x1F6A;0x399]); (0x1FAB,[0x1F6B;0x399]); (0x1FAC,[0x1F6C;0x399]);
      (0x1FAD,[0x1F6D;0x399]); (0x1FAE,[0x1F6E;0x399]); (0x1FAF,[0x1F6F;0x399]);
      (0x1FB2,[0x1FBA;0x399]); (0x1FB3,[0x391;0x399]); (0x1FB4,[0x386;0x399]);
      (0x1FB6,[0x391;0x342]); (0x1FB7,[0x391;0x342;0x399]); (0x1FBC,[0x391;0x399]);
      (0x1FC2,[0x1FCA;0x399]); (0x1FC3,[0x397;0x399]); (0x1FC4,[0x389;0x399]);
      (0x1FC6,[0x397;0x342]); (0x1FC7,[0x397;0x342;0x399]); (0x1FCC,[0x397;0x399]);
      (0x1FD2,[0x399;0x308;0x300]); (0x1FD3,[0x399;0x308;0x301]); (0x1FD6,[0x399;0x342]);
      (0x1FD7,[0x399;0x308;0x342]); (0x1FE2,[0x3A5;0x308;0x300]); (0x1FE3,[0x3A5;0x308;0x301]);
      (0x1FE4,[0x3A1;0x313]); (0x1FE6,[0x3A5;0x342]); (0x1FE7,[0x3A5;0x308;0x342]);
      (0x1FF2,[0x1FFA;0x399]); (0x1FF3,[0x3A9;0x399]); (0x1FF4,[0x38F;0x399]);
      (0x1FF6,[0x3A9;0x342]); (0x1FF7,[0x3A9;0x342;0x399]); (0x1FFC,[0x3A9;0x399]);
      (0xFB00,[0x46;0x46]); (0xFB01,[0x46;0x49]); (0xFB02,[0x46;0x4C]);
      (0xFB03,[0x46;0x46;0x49]); (0xFB04,[0x46;0x46;0x4C]); (0xFB05,[0x53;0x54]);
      (0xFB06,[0x53;0x54]); (0xFB13,[0x544;0x546]); (0xFB14,[0x544;0x535]);
      (0xFB15,[0x544;0x53B]); (0xFB16,[0x54E;0x546]); (0xFB17,[0x544;0x53D])
  ]%N.

End UnicodeData.

(** ** Python [str] *)

Module PyStr.

Definition char := N.
Definition str := list char.

(** A source literal: the code points of an ASCII string. *)
Definition lit (s : string) : str := map N_of_ascii (list_ascii_of_string s).

Definition char_eqb (a b : char) : bool := N.eqb a b.

Fixpoint str_eqb (a b : str) : bool :=
  match a, b with
  | [], [] => true
  | x :: a', y :: b' => char_eqb x y && str_eqb a' b'
  | _, _ => false
  end.

Fixpoint in_ranges (c : char) (rs : list (N * N)) : bool :=
  match rs with
  | [] => false
  | (lo, hi) :: rest => ((lo <=? c) && (c <=? hi))%N || in_ranges c rest
  end.

Fixpoint assoc {B : Type} (c : char) (tbl : list (N * B)) : option B :=
  match tbl with
  | [] => None
  | (k, v) :: rest => if N.eqb k c then Some v else assoc c rest
  end.

(** [ch.isspace()] and [ch.isalnum()] for a one-character string. *)
Definition isspace (c : char) : bool := in_ranges c UnicodeData.space_ranges.
Definition isalnum (c : char) : bool := in_ranges c UnicodeData.alnum_ranges.

(** [ch.upper()]: the full case mapping, one to three code points. *)
Definition upper_char (c : char) : str :=
  match assoc c UnicodeData.upper_full with
  | Some u => u
  | None => match assoc c UnicodeData.upper_single with
            | Some u => [u]
            | None => [c]
            end
  end.

(** [s.upper()] maps every character on its own (no context rule applies
    to upper-casing). *)
Definition upper (s : str) : str := flat_map upper_char s.

(** [s.lstrip()], [s.rstrip()], [s.strip()] with no argument: white space
    is what [isspace] accepts. *)
Fixpoint lstrip (s : str) : str :=
  match s with
  | [] => []
  | c :: t => if isspace c then lstrip t else s
  end.

Definition rstrip (s : str) : str := rev (lstrip (rev s)).

Definition strip (s : str) : str := rstrip (lstrip s).

(** [s.startswith(p)]. *)
Fixpoint startswith (s p : str) : bool :=
  match p, s with
  | [], _ => true
  | _ :: _, [] => false
  | y :: p', x :: s' => char_eqb x y && startswith s' p'
  end.

(** [s.replace(old, new)]: the occurrences of [old] are found from the left
    and do not overlap.  [skip] counts the characters of a match still to be
    passed over.  For an empty [old], Python puts [new] before every
    character and at the end. *)
Fixpoint replace_from (old new : str) (skip : nat) (s : str) : str :=
  match s with
  | [] => []
  | c :: t =>
      match skip with
      | S k => replace_from old new k t
      | O => if startswith s old
             then new ++ replace_from old new (List.length old - 1) t
             else c :: replace_from old new 0 t
      end
  end.

Definition replace (s old new : str) : str :=
  match old with
  | [] => new ++ flat_map (fun c => c :: new) s
  | _ :: _ => replace_from old new 0 s
  end.

(** [s.split(sep)] for a non-empty separator: always at least one field.
    [cur] holds the current field, reversed. *)
Fixpoint split_from (sep : str) (skip : nat) (cur : str) (s : str) : list str :=
  match s with
  | [] => [rev cur]
  | c :: t =>
      match skip with
      | S k => split_from sep k cur t
      | O => if startswith s sep
             then rev cur :: split_from sep (List.length sep - 1) [] t
             else split_from sep 0 (c :: cur) t
      end
  end.

Definition split (s sep : str) : list str := split_from sep 0 [] s.

(** [l[-1]] of a list known to be non-empty (the result of [split]). *)
Definition last_item (l : list str) : str := last l [].

(** ASCII code points, and strings made of them. *)
Definition is_ascii (c : char) : bool := (c <? 128)%N.

(** Truth value of a string: empty is false. *)
Definition truthy (s : str) : bool :=
  match s with [] => false | _ :: _ => true end.

(** [value or default] for an optional string: [None] and the empty string
    are both false. *)
Definition or_else (value : option str) (default : str) : str :=
  match value with
  | Some (c :: t) => c :: t
  | Some [] | None => default
  end.

End PyStr.

Import PyStr.


(** ** Python values, exceptions and the external libraries *)

(** JSON-like Python values: what the history records are made of and what
    [json.loads] can return.  A [dict] keeps its items in insertion order. *)
#[warnings="-register-all"]
Inductive json : Type :=
| JNull
| JBool (b : bool)
| JInt (n : Z)
| JStr (s : str)
| JList (items : list json)
| JDict (items : list (str * json)).

(** Exceptions, as far as the handlers of the scripts tell them apart:
    [except GitCommandError] and [except Exception]. *)
Inductive exn : Type :=
| GitCommandError (msg : str)
| OtherError (msg : str).


Inductive result (A : Type) : Type :=
| Ret (a : A)
| Raise (e : exn).
Arguments Ret {A} a.
Arguments Raise {A} e.

Definition result_bind {A B : Type} (r : result A) (k : A -> result B)
  : result B :=
  match r with
  | Ret a => k a
  | Raise e => Raise e
  end.

(** The json module: [json.loads(text)], which raises on malformed text,
    and [json.dumps(value, indent=2)]. *)
Class JsonModule : Type := {
  json_loads : str -> result json;
  json_dumps : json -> str
}.

(** The json module reads back a value it wrote, and what it writes is not
    blank. *)
Definition reads_back `{JsonModule} (v : json) : Prop :=
  json_loads (json_dumps v) = Ret v /\ truthy (strip (json_dumps v)) = true.

(** GitPython, pathlib/shutil and the clock over a world [W] (the
    repository, its remotes and the disk).  Queries leave the world as it
    is; every call may raise. *)
Class GitPython (W : Type) : Type := {
  (** [repo.active_branch.name]; raises on a detached HEAD *)
  active_branch_name : W -> result str;
  (** [repo.is_dirty()] *)
  is_dirty : W -> result bool;
  (** [[b.name for b in repo.heads]] *)
  head_names : W -> result (list str);
  (** truth value of [repo.remotes] *)
  has_remotes : W -> result bool;
  (** [repo.git.add(A=True)] *)
  git_add_all : W -> result unit * W;
  (** [repo.index.add(files)] *)
  index_add : list str -> W -> result unit * W;
  (** [repo.index.commit(message, author=...).hexsha] *)
  index_commit : str -> option str -> W -> result str * W;
  (** [repo.remotes[remote].push(branch, force=...)] *)
  remote_push : str -> str -> bool -> W -> result unit * W;
  (** [repo.git.checkout(branch)] *)
  git_checkout : str -> W -> result unit * W;
  (** [repo.remotes.origin.pull()] *)
  origin_pull : W -> result unit * W;
  (** [repo.create_head(name)] *)
  create_head : str -> W -> result unit * W;
  (** [new_branch.checkout()] *)
  head_checkout : str -> W -> result unit * W;
  (** [Repo.clone_from(url, path, branch=..., depth=...)] *)
  clone_from : str -> str -> option str -> option N -> W -> result unit * W;
  (** [base_dir / name], as text *)
  path_join : str -> str -> str;
  (** [path.exists()] *)
  path_exists : str -> W -> result bool;
  (** [shutil.rmtree(path)] *)
  rmtree : str -> W -> result unit * W;
  (** [datetime.now().isoformat()] *)
  now_isoformat : W -> str
}.

(** The library calls a run makes, in order. *)
Inductive call : Type :=
| CActiveBranch
| CIsDirty
| CHeadNames
| CHasRemotes
| CAddAll
| CIndexAdd (files : list str)
| CIndexCommit (message : str) (author : option str)
| CRemotePush (remote branch : str) (force : bool)
| CCheckout (branch : str)
| COriginPull
| CCreateHead (name : str)
| CHeadCheckout (name : str)
| CCloneFrom (url path : str) (branch : option str) (depth : option N)
| CPathExists (path : str)
| CRmtree (path : str).

(** ** Program state and the monad of the methods *)

Record state (W : Type) : Type := {
  world : W;
  calls : list call;
  (** [GitAutomation.automation_history] *)
  automation_history : list json;
  (** content of data/git_automation_history.json; [None]: no such file *)
  history_file : option str;
  (** [BranchManager.branch_history] *)
  branch_history : list json;
  (** [RepoCloner.clone_history] *)
  clone_history : list json
}.
Arguments world {W} s.
Arguments calls {W} s.
Arguments automation_history {W} s.
Arguments history_file {W} s.
Arguments branch_history {W} s.
Arguments clone_history {W} s.
Arguments Build_state {W}.

(** The histories of a state: in memory and on disk. *)
Definition histories {W : Type} (s : state W)
  : list json * option str * list json * list json :=
  (automation_history s, history_file s, branch_history s, clone_history s).

Definition M (W A : Type) : Type := state W -> result A * state W.

Definition ret {W A : Type} (a : A) : M W A := fun s => (Ret a, s).

Definition raise {W A : Type} (e : exn) : M W A := fun s => (Raise e, s).

Definition bind {W A B : Type} (m : M W A) (k : A -> M W B) : M W B :=
  fun s =>
    match m s with
    | (Ret a, s') => k a s'
    | (Raise e, s') => (Raise e, s')
    end.

(** [try: m  except ... as e: handler e].  What [m] did before it raised
    stays done. *)
Definition try_except {W A : Type} (m : M W A) (handler : exn -> M W A)
  : M W A :=
  fun s =>
    match m s with
    | (Ret a, s') => (Ret a, s')
    | (Raise e, s') => handler e s'
    end.

Declare Scope py_scope.
Delimit Scope py_scope with py.
Notation "x <- m ;; k" := (bind m (fun x => k))
  (at level 61, m at next level, right associativity) : py_scope.
Notation "m ;;; k" := (bind m (fun _ => k))
  (at level 61, right associativity) : py_scope.
Open Scope py_scope.

Section Calls.
Context {W : Type} {G : GitPython W}.

Definition log_call (c : call) (s : state W) : state W :=
  {| world := world s; calls := calls s ++ [c];
     automation_history := automation_history s;
     history_file := history_file s;
     branch_history := branch_history s;
     clone_history := clone_history s |}.

Definition set_world (w : W) (s : state W) : state W :=
  {| world := w; calls := calls s;
     automation_history := automation_history s;
     history_file := history_file s;
     branch_history := branch_history s;
     clone_history := clone_history s |}.

(** A query of the library: logged, the world unchanged. *)
Definition query {A : Type} (c : call) (f : W -> result A) : M W A :=
  fun s => (f (world s), log_call c s).

(** A command of the library: logged, the world as the library leaves it. *)
Definition command {A : Type} (c : call) (f : W -> result A * W) : M W A :=
  fun s => let (r, w) := f (world s) in (r, set_world w (log_call c s)).

(** Reading the clock is no library call of interest: it is not logged. *)
Definition now : M W str := fun s => (Ret (now_isoformat (world s)), s).

(** [wp m Q s]: run from [s], the method [m] ends in a result and a state
    that satisfy [Q]. *)
Definition wp {A : Type} (m : M W A) (Q : result A -> state W -> Prop)
    (s : state W) : Prop :=
  Q (fst (m s)) (snd (m s)).

End Calls.
(** ** [BranchManager] (scripts/branch_manager.py) *)

Module BranchManager.

Definition BRANCH_SUFFIX : str := lit "AI_Fix".

(** [os.getenv(name, default)]: the variable's value when it is set (an
    empty value included), the default otherwise. *)
Definition getenv (value : option str) (default : str) : str :=
  match value with
  | Some v => v
  | None => default
  end.

(** The process environment, as far as the scripts read it. *)
Record environ := {
  TEAM_NAME : option str;
  LEADER_NAME : option str;
  DEFAULT_BRANCH : option str
}.

Definition DEFAULT_TEAM_NAME (env : environ) : str :=
  getenv (TEAM_NAME env) (lit "RAG_RAIDERS").
Definition DEFAULT_LEADER_NAME (env : environ) : str :=
  getenv (LEADER_NAME env) (lit "DEO_PRAKASH").

(** The attributes of a [BranchManager] the naming reads. [has_repo] is the
    truth value of [self.repo]. *)
Record t := {
  has_repo : bool;
  team_name : str;
  leader_name : str
}.

(** [__init__]: [team_name or DEFAULT_TEAM_NAME], the same for the leader. *)
Definition init (env : environ) (repo_ok : bool)
    (team leader : option str) : t :=
  {| has_repo := repo_ok;
     team_name := or_else team (DEFAULT_TEAM_NAME env);
     leader_name := or_else leader (DEFAULT_LEADER_NAME env) |}.

Definition underscore : char := 95%N.
Definition space : char := 32%N.

(** [_normalize_name]. *)
Definition _normalize_name (value : option str) : str :=
  match value with
  | None => []
  | Some value =>
      let cleaned := replace (strip value) [space] [underscore] in
      let cleaned :=
        filter (fun ch => isalnum ch || char_eqb ch underscore) cleaned in
      upper cleaned
  end.

(** The characters of the class [[A-Z0-9_]]. *)
Definition token_char (c : char) : bool :=
  ((65 <=? c) && (c <=? 90))%N || ((48 <=? c) && (c <=? 57))%N
  || char_eqb c underscore.

(** An argument of [_normalize_name] whose characters are all ASCII
    ([None] has none). *)
Definition ascii_only (value : option str) : bool :=
  match value with
  | None => true
  | Some s => forallb is_ascii s
  end.

(** [generate_branch_name]. *)
Definition generate_branch_name (self : t) (team leader : option str) : str :=
  let team := _normalize_name (Some (or_else team (team_name self))) in
  let leader := _normalize_name (Some (or_else leader (leader_name self))) in
  team ++ [underscore] ++ leader ++ [underscore] ++ BRANCH_SUFFIX.


(** [existing_history.append(entry)]: only a list has [append]. *)
Definition list_append (existing : json) (entry : json) : result json :=
  match existing with
  | JList items => Ret (JList (items ++ [entry]))
  | _ => Raise (OtherError (lit "AttributeError: no attribute append"))
  end.

(** [_save_to_file]: read the history file, append the entry, write the
    array back; any exception is logged and swallowed.  The argument and
    the second component of the result are the content of
    data/branch_history.json ([None]: no such file).  Reading and writing
    the file themselves are taken to succeed. *)
Definition _save_to_file `{JsonModule} (branch_entry : json)
    (file : option str) : result unit * option str :=
  let attempt : result str :=
    result_bind
      (match file with
       | Some content =>
           if truthy (strip content) then json_loads content
           else Ret (JList [])
       | None => Ret (JList [])
       end)
      (fun existing_history =>
         result_bind (list_append existing_history branch_entry)
           (fun existing_history => Ret (json_dumps existing_history)))
  in
  match attempt with
  | Ret text => (Ret tt, Some text)
  | Raise _ => (Ret tt, file)
  end.

Section Methods.
Context {W : Type} {G : GitPython W}.

Definition append_branch_history (record : json) : M W unit :=
  fun s =>
    (Ret tt,
     {| world := world s; calls := calls s;
        automation_history := automation_history s;
        history_file := history_file s;
        branch_history := branch_history s ++ [record];
        clone_history := clone_history s |}).

Definition branch_record (timestamp branch_name base_branch : str) : json :=
  JDict [ (lit "timestamp", JStr timestamp);
          (lit "branch_name", JStr branch_name);
          (lit "base_branch", JStr base_branch);
          (lit "status", JStr (lit "created")) ].

(** [create_branch(branch_name, base_branch, checkout)]. *)
Definition create_branch (self : t) (branch_name base_branch : str)
    (checkout : bool) : M W bool :=
  if negb (has_repo self) then ret false
  else
    try_except
      (command (CCheckout base_branch) (git_checkout base_branch) ;;;
       remotes <- query CHasRemotes has_remotes ;;
       (if remotes : bool then command COriginPull origin_pull else ret tt) ;;;
       existing <- query CHeadNames head_names ;;
       (if existsb (str_eqb branch_name) existing
        then
          if checkout
          then command (CCheckout branch_name) (git_checkout branch_name)
          else ret tt
        else
          command (CCreateHead branch_name) (create_head branch_name) ;;;
          if checkout
          then command (CHeadCheckout branch_name) (head_checkout branch_name)
          else ret tt) ;;;
       timestamp <- now ;;
       append_branch_history
         (branch_record timestamp branch_name base_branch) ;;;
       ret true)
      (fun e => match e with
                | GitCommandError _ => ret false
                | OtherError _ => ret false
                end).

End Methods.

End BranchManager.

(** ** [GitAutomation] (scripts/git_automation.py) *)

Module GitAutomation.

(** The attributes of a [GitAutomation] the methods read: the names taken
    from the environment by [__init__] ([team_name], [leader_name]), the
    branch manager it builds, and the environment itself, which
    [ensure_ai_fix_branch] reads again. *)
Record t := {
  team_name : str;
  leader_name : str;
  branch_manager : BranchManager.t;
  environ : BranchManager.environ
}.

Definition init (env : BranchManager.environ) (bm_repo_ok : bool) : t :=
  {| team_name :=
       BranchManager.getenv (BranchManager.TEAM_NAME env) (lit "RIFT_ORGANISERS");
     leader_name :=
       BranchManager.getenv (BranchManager.LEADER_NAME env) (lit "SAIYAM_KUMAR");
     branch_manager := BranchManager.init env bm_repo_ok None None;
     environ := env |}.

Definition AI_AGENT_TAG : str := lit "[AI-AGENT]".

(** The message [commit] hands to Git: tagged unless it starts with the
    tag. *)
Definition commit_message (message : str) : str :=
  if negb (startswith message AI_AGENT_TAG)
  then lit "[AI-AGENT] " ++ message
  else message.

(** The author [commit] passes on: both parts given and not empty, or
    none. *)
Definition commit_author (author_name author_email : option str) : option str :=
  match author_name, author_email with
  | Some (a :: an), Some (e :: em) =>
      Some ((a :: an) ++ lit " <" ++ (e :: em) ++ lit ">")
  | _, _ => None
  end.

(** [_save_operation]: the same read, append and write back as
    [BranchManager._save_to_file], on data/git_automation_history.json. *)
Definition _save_operation `{JsonModule} (operation : json)
    (file : option str) : result unit * option str :=
  let attempt : result str :=
    result_bind
      (match file with
       | Some content =>
           if truthy (strip content) then json_loads content
           else Ret (JList [])
       | None => Ret (JList [])
       end)
      (fun existing_history =>
         result_bind (BranchManager.list_append existing_history operation)
           (fun existing_history => Ret (json_dumps existing_history)))
  in
  match attempt with
  | Ret text => (Ret tt, Some text)
  | Raise _ => (Ret tt, file)
  end.

(** What a reader of the history file finds in it, read the way
    [_save_operation] reads it: an absent or blank file is an empty
    array. *)
Definition read_history `{JsonModule} (file : option str) : result json :=
  match file with
  | Some content =>
      if truthy (strip content) then json_loads content else Ret (JList [])
  | None => Ret (JList [])
  end.

(** [n] appends in a row. *)
Definition save_all `{JsonModule} (operations : list json)
    (file : option str) : option str :=
  fold_left (fun f op => snd (_save_operation op f)) operations file.

(** The dictionary [automated_commit_push] returns. *)
Record results := {
  r_add : bool;
  r_commit : option str;
  r_push : bool;
  r_timestamp : str
}.

Definition commit_record (timestamp commit_hash message branch : str) : json :=
  JDict [ (lit "timestamp", JStr timestamp);
          (lit "action", JStr (lit "commit"));
          (lit "commit_hash", JStr commit_hash);
          (lit "message", JStr message);
          (lit "branch", JStr branch) ].

Definition push_record (timestamp remote branch : str) (force : bool) : json :=
  JDict [ (lit "timestamp", JStr timestamp);
          (lit "action", JStr (lit "push"));
          (lit "remote", JStr remote);
          (lit "branch", JStr branch);
          (lit "force", JBool force);
          (lit "status", JStr (lit "success")) ].

Section Methods.
Context {W : Type} {G : GitPython W} {J : JsonModule}.

Definition append_automation_history (record : json) : M W unit :=
  fun s =>
    (Ret tt,
     {| world := world s; calls := calls s;
        automation_history := automation_history s ++ [record];
        history_file := history_file s;
        branch_history := branch_history s;
        clone_history := clone_history s |}).

(** [self._save_operation(record)] on the state's history file. *)
Definition save_operation (record : json) : M W unit :=
  fun s =>
    let (r, file) := _save_operation record (history_file s) in
    (r,
     {| world := world s; calls := calls s;
        automation_history := automation_history s;
        history_file := file;
        branch_history := branch_history s;
        clone_history := clone_history s |}).

(** [add_files(files, add_all)]. *)
Definition add_files (files : option (list str)) (add_all : bool) : M W bool :=
  try_except
    (if add_all
     then command CAddAll git_add_all ;;; ret true
     else
       match files with
       | Some (f :: fs) =>
           command (CIndexAdd (f :: fs)) (index_add (f :: fs)) ;;; ret true
       | Some [] | None => ret false
       end)
    (fun e => ret false).

(** [commit(message, author_name, author_email)]: the short hash, or
    [None]. *)
Definition commit (message : str) (author_name author_email : option str)
  : M W (option str) :=
  try_except
    (dirty <- query CIsDirty is_dirty ;;
     if negb dirty then ret None
     else
       let message := commit_message message in
       let author := commit_author author_name author_email in
       hexsha <- command (CIndexCommit message author)
                         (index_commit message author) ;;
       let commit_hash := firstn 7 hexsha in
       timestamp <- now ;;
       branch <- query CActiveBranch active_branch_name ;;
       let record := commit_record timestamp commit_hash message branch in
       append_automation_history record ;;;
       save_operation record ;;;
       ret (Some commit_hash))
    (fun e => ret None).

Definition protected_branch (branch : str) : bool :=
  existsb (str_eqb branch) [lit "main"; lit "master"].

(** The branch [push] targets: the one passed, or the current one. *)
Definition target_branch (branch : option str) (w : W) : result str :=
  match branch with
  | Some b => Ret b
  | None => active_branch_name w
  end.

(** [push(remote, branch, force)]. *)
Definition push (remote : str) (branch : option str) (force : bool)
  : M W bool :=
  try_except
    (branch <- match branch with
               | None => query CActiveBranch active_branch_name
               | Some b => ret b
               end ;;
     if protected_branch branch then ret false
     else
       command (CRemotePush remote branch force)
               (remote_push remote branch force) ;;;
       timestamp <- now ;;
       let record := push_record timestamp remote branch force in
       append_automation_history record ;;;
       save_operation record ;;;
       ret true)
    (fun e => match e with
              | GitCommandError _ => ret false
              | OtherError _ => ret false
              end).

(** [ensure_ai_fix_branch(team_name, leader_name, base_branch)]: the
    target branch, or an exception. *)
Definition ensure_ai_fix_branch (self : t)
    (team leader base_branch : option str) : M W str :=
  let base_branch :=
    match base_branch with
    | Some b => b
    | None => BranchManager.getenv
                (BranchManager.DEFAULT_BRANCH (environ self)) (lit "main")
    end in
  let team := or_else team (team_name self) in
  let leader := or_else leader (leader_name self) in
  let target_branch :=
    BranchManager.generate_branch_name (branch_manager self)
      (Some team) (Some leader) in
  current_branch <- query CActiveBranch active_branch_name ;;
  if str_eqb current_branch target_branch then ret target_branch
  else
    created <- BranchManager.create_branch (branch_manager self)
                 target_branch base_branch true ;;
    if negb created
    then raise (OtherError
                  (lit "RuntimeError: Failed to create or checkout AI fix branch"))
    else ret target_branch.

(** [automated_commit_push(message, add_all, remote)]. *)
Definition automated_commit_push (self : t) (message : str) (add_all : bool)
    (remote : str) : M W results :=
  timestamp <- now ;;
  let results :=
    {| r_add := false; r_commit := None; r_push := false;
       r_timestamp := timestamp |} in
  ensured <- try_except
               (ensure_ai_fix_branch self None None None ;;; ret true)
               (fun e => ret false) ;;
  if negb ensured then ret results
  else
    added <- add_files None add_all ;;
    if negb added then ret results
    else
      let results :=
        {| r_add := true; r_commit := None; r_push := false;
           r_timestamp := timestamp |} in
      commit_hash <- commit message None None ;;
      match commit_hash with
      | Some (c :: h) =>
          let results :=
            {| r_add := true; r_commit := Some (c :: h); r_push := false;
               r_timestamp := timestamp |} in
          pushed <- push remote None false ;;
          if pushed
          then ret {| r_add := true; r_commit := Some (c :: h);
                      r_push := true; r_timestamp := timestamp |}
          else ret results
      | Some [] | None => ret results
      end.

End Methods.

End GitAutomation.

(** ** [RepoCloner] (scripts/repo_clone.py) *)

Module RepoCloner.

(** [repo_url.split('/')[-1].replace('.git', '')]. *)
Definition repo_name_of (repo_url : str) : str :=
  replace (last_item (split repo_url (lit "/"))) (lit ".git") [].

Definition clone_success_record
    (timestamp repo_url repo_name branch path : str) : json :=
  JDict [ (lit "timestamp", JStr timestamp);
          (lit "repo_url", JStr repo_url);
          (lit "repo_name", JStr repo_name);
          (lit "branch", JStr branch);
          (lit "status", JStr (lit "success"));
          (lit "path", JStr path) ].

Definition clone_failure_record (timestamp repo_url error : str) : json :=
  JDict [ (lit "timestamp", JStr timestamp);
          (lit "repo_url", JStr repo_url);
          (lit "status", JStr (lit "failed"));
          (lit "error", JStr error) ].

Section Methods.
Context {W : Type} {G : GitPython W}.

Definition append_clone_history (record : json) : M W unit :=
  fun s =>
    (Ret tt,
     {| world := world s; calls := calls s;
        automation_history := automation_history s;
        history_file := history_file s;
        branch_history := branch_history s;
        clone_history := clone_history s ++ [record] |}).

(** [clone_repository(repo_url, branch, depth)]; [base_dir] is
    [self.base_dir].  The clone path stands for the [Repo] returned. *)
Definition clone_repository (base_dir repo_url : str) (branch : option str)
    (depth : option N) : M W str :=
  try_except
    (let repo_name := repo_name_of repo_url in
     let clone_path := path_join base_dir repo_name in
     there <- query (CPathExists clone_path) (path_exists clone_path) ;;
     (if there : bool
      then command (CRmtree clone_path) (rmtree clone_path)
      else ret tt) ;;;
     let kw_branch :=
       match branch with Some (c :: b) => Some (c :: b) | _ => None end in
     let kw_depth :=
       match depth with Some 0%N | None => None | Some d => Some d end in
     command (CCloneFrom repo_url clone_path kw_branch kw_depth)
             (clone_from repo_url clone_path kw_branch kw_depth) ;;;
     timestamp <- now ;;
     append_clone_history
       (clone_success_record timestamp repo_url repo_name
          (or_else branch (lit "default")) clone_path) ;;;
     ret clone_path)
    (fun e =>
       match e with
       | GitCommandError msg =>
           timestamp <- now ;;
           append_clone_history
             (clone_failure_record timestamp repo_url msg) ;;;
           raise e
       | OtherError _ => raise e
       end).

End Methods.

End RepoCloner.

(** ** A json module to run the programs with

    Reader and writer for the values of the history files: [null],
    booleans, integers, strings, arrays and objects, written the way
    [json.dumps(value, indent=2)] writes them.  Numbers with a fraction
    or an exponent, which the scripts never write, are not read. *)

Module MiniJson.

Definition ch (a : ascii) : char := N_of_ascii a.
Definition quote : char := 34%N.
Definition backslash : char := 92%N.
Definition newline : char := 10%N.

Definition hex_digit (n : N) : char :=
  if (n <? 10)%N then (48 + n)%N else (87 + n)%N.

(** [\uXXXX] for a code unit below 0x10000. *)
Definition escape_unit (n : N) : str :=
  [backslash; ch "u";
   hex_digit (n / 4096); hex_digit ((n / 256) mod 16);
   hex_digit ((n / 16) mod 16); hex_digit (n mod 16)]%N.

(** One character of a string, as [ensure_ascii] writes it. *)
Definition escape_char (c : char) : str :=
  if N.eqb c quote then [backslash; quote]
  else if N.eqb c backslash then [backslash; backslash]
  else if N.eqb c 10 then [backslash; ch "n"]
  else if N.eqb c 13 then [backslash; ch "r"]
  else if N.eqb c 9 then [backslash; ch "t"]
  else if N.eqb c 8 then [backslash; ch "b"]
  else if N.eqb c 12 then [backslash; ch "f"]
  else if ((32 <=? c) && (c <=? 126))%N then [c]
  else if (c <? 0x10000)%N then escape_unit c
  else escape_unit (0xD800 + (c - 0x10000) / 1024)%N
       ++ escape_unit (0xDC00 + (c - 0x10000) mod 1024)%N.

Definition dumps_str (s : str) : str :=
  [quote] ++ flat_map escape_char s ++ [quote].

Definition dumps_int (n : Z) : str :=
  lit (NilZero.string_of_int (Z.to_int n)).

Definition newline_indent (level : nat) : str :=
  newline :: repeat (ch " ") (2 * level).

(** [json.dumps(v, indent=2)] at nesting depth [level]. *)
Fixpoint dumps_at (level : nat) (v : json) : str :=
  match v with
  | JNull => lit "null"
  | JBool true => lit "true"
  | JBool false => lit "false"
  | JInt n => dumps_int n
  | JStr s => dumps_str s
  | JList [] => lit "[]"
  | JList (x :: xs) =>
      lit "[" ++ newline_indent (S level) ++ dumps_at (S level) x
      ++ (fix rest (l : list json) : str :=
            match l with
            | [] => []
            | y :: l' =>
                lit "," ++ newline_indent (S level) ++ dumps_at (S level) y
                ++ rest l'
            end) xs
      ++ newline_indent level ++ lit "]"
  | JDict [] => lit "{}"
  | JDict ((k, x) :: xs) =>
      lit "{" ++ newline_indent (S level) ++ dumps_str k ++ lit ": "
      ++ dumps_at (S level) x
      ++ (fix rest (l : list (str * json)) : str :=
            match l with
            | [] => []
            | (k', y) :: l' =>
                lit "," ++ newline_indent (S level) ++ dumps_str k'
                ++ lit ": " ++ dumps_at (S level) y ++ rest l'
            end) xs
      ++ newline_indent level ++ lit "}"
  end.

Definition dumps (v : json) : str := dumps_at 0 v.

(** *** Reading *)

Definition is_ws (c : char) : bool :=
  N.eqb c 32 || N.eqb c 9 || N.eqb c 10 || N.eqb c 13.

Fixpoint skip_ws (s : str) : str :=
  match s with
  | c :: t => if is_ws c then skip_ws t else s
  | [] => []
  end.

Definition is_digit (c : char) : bool := ((48 <=? c) && (c <=? 57))%N.

Definition hex_value (c : char) : option N :=
  if is_digit c then Some (c - 48)%N
  else if ((97 <=? c) && (c <=? 102))%N then Some (c - 87)%N
  else if ((65 <=? c) && (c <=? 70))%N then Some (c - 55)%N
  else None.

Definition read_unit (s : str) : option (N * str) :=
  match s with
  | a :: b :: c :: d :: t =>
      match hex_value a, hex_value b, hex_value c, hex_value d with
      | Some a, Some b, Some c, Some d =>
          Some (a * 4096 + b * 256 + c * 16 + d, t)%N
      | _, _, _, _ => None
      end
  | _ => None
  end.

(** The characters of a string up to its closing quote; [acc] is what was
    read, reversed.  A control character may not stand unescaped, and a
    high surrogate followed by a low one is one character. *)
Fixpoint read_chars (fuel : nat) (acc : str) (s : str) : option (str * str) :=
  match fuel with
  | O => None
  | S fuel =>
      match s with
      | [] => None
      | c :: t =>
          if N.eqb c quote then Some (rev acc, t)
          else if N.eqb c backslash then
            match t with
            | [] => None
            | e :: t' =>
                if N.eqb e quote then read_chars fuel (quote :: acc) t'
                else if N.eqb e backslash then read_chars fuel (backslash :: acc) t'
                else if N.eqb e (ch "/") then read_chars fuel (ch "/" :: acc) t'
                else if N.eqb e (ch "n") then read_chars fuel (10%N :: acc) t'
                else if N.eqb e (ch "r") then read_chars fuel (13%N :: acc) t'
                else if N.eqb e (ch "t") then read_chars fuel (9%N :: acc) t'
                else if N.eqb e (ch "b") then read_chars fuel (8%N :: acc) t'
                else if N.eqb e (ch "f") then read_chars fuel (12%N :: acc) t'
                else if N.eqb e (ch "u") then
                  match read_unit t' with
                  | None => None
                  | Some (hi, t'') =>
                      let pair :=
                        if ((0xD800 <=? hi) && (hi <=? 0xDBFF))%N then
                          match t'' with
                          | b :: u :: t3 =>
                              if N.eqb b backslash && N.eqb u (ch "u") then
                                match read_unit t3 with
                                | Some (lo, t4) =>
                                    if ((0xDC00 <=? lo) && (lo <=? 0xDFFF))%N
                                    then Some
                                      ((0x10000 + (hi - 0xD800) * 1024
                                        + (lo - 0xDC00))%N, t4)
                                    else None
                                | None => None
                                end
                              else None
                          | _ => None
                          end
                        else None in
                      match pair with
                      | Some (c', t4) => read_chars fuel (c' :: acc) t4
                      | None => read_chars fuel (hi :: acc) t''
                      end
                  end
                else None
            end
          else if (c <? 32)%N then None
          else read_chars fuel (c :: acc) t
      end
  end.

Fixpoint read_digits (acc : N) (s : str) : N * str :=
  match s with
  | c :: t => if is_digit c then read_digits (acc * 10 + (c - 48))%N t
              else (acc, s)
  | [] => (acc, [])
  end.

(** A natural number: [0], or digits not starting with [0]; what follows
    may not turn it into a fraction or an exponent. *)
Definition read_nat (s : str) : option (N * str) :=
  match s with
  | c :: t =>
      if is_digit c then
        let (n, rest) := if N.eqb c 48 then (0%N, t) else read_digits 0 s in
        match rest with
        | d :: _ =>
            if is_digit d || N.eqb d (ch ".") || N.eqb d (ch "e")
               || N.eqb d (ch "E")
            then None else Some (n, rest)
        | [] => Some (n, rest)
        end
      else None
  | [] => None
  end.

Definition read_int (s : str) : option (Z * str) :=
  match s with
  | c :: t =>
      if N.eqb c (ch "-")
      then option_map (fun p => (- Z.of_N (fst p), snd p)%Z) (read_nat t)
      else option_map (fun p => (Z.of_N (fst p), snd p)) (read_nat s)
  | [] => None
  end.

(** A [dict] keeps one item per key: a repeated key takes the later value
    at the earlier place. *)
Fixpoint dict_set (items : list (str * json)) (k : str) (v : json)
  : list (str * json) :=
  match items with
  | [] => [(k, v)]
  | (k', v') :: rest =>
      if str_eqb k' k then (k', v) :: rest else (k', v') :: dict_set rest k v
  end.

Definition strip_prefix (p s : str) : option str :=
  if startswith s p then Some (skipn (List.length p) s) else None.

(** One value, leading white space skipped; with it, what is left of the
    text.  [read_items] and [read_members] read the rest of an array or an
    object after its first item. *)
Fixpoint read_value (fuel : nat) (s : str) : option (json * str) :=
  match fuel with
  | O => None
  | S fuel =>
      match skip_ws s with
      | [] => None
      | c :: t =>
          if N.eqb c (ch "n") then
            option_map (fun r => (JNull, r)) (strip_prefix (lit "ull") t)
          else if N.eqb c (ch "t") then
            option_map (fun r => (JBool true, r)) (strip_prefix (lit "rue") t)
          else if N.eqb c (ch "f") then
            option_map (fun r => (JBool false, r)) (strip_prefix (lit "alse") t)
          else if N.eqb c quote then
            match read_chars (S (List.length t)) [] t with
            | Some (str, r) => Some (JStr str, r)
            | None => None
            end
          else if N.eqb c (ch "[") then
            match skip_ws t with
            | d :: r =>
                if N.eqb d (ch "]") then Some (JList [], r)
                else
                  match read_value fuel t with
                  | Some (x, r') => read_items fuel [x] r'
                  | None => None
                  end
            | [] => None
            end
          else if N.eqb c (ch "{") then
            match skip_ws t with
            | d :: r =>
                if N.eqb d (ch "}") then Some (JDict [], r)
                else read_members fuel [] (d :: r)
            | [] => None
            end
          else
            match read_int (c :: t) with
            | Some (n, r) => Some (JInt n, r)
            | None => None
            end
      end
  end
with read_items (fuel : nat) (acc : list json) (s : str)
  : option (json * str) :=
  match fuel with
  | O => None
  | S fuel =>
      match skip_ws s with
      | c :: t =>
          if N.eqb c (ch "]") then Some (JList (rev acc), t)
          else if N.eqb c (ch ",") then
            match read_value fuel t with
            | Some (x, r) => read_items fuel (x :: acc) r
            | None => None
            end
          else None
      | [] => None
      end
  end
with read_members (fuel : nat) (acc : list (str * json)) (s : str)
  : option (json * str) :=
  match fuel with
  | O => None
  | S fuel =>
      match skip_ws s with
      | c :: t =>
          if N.eqb c quote then
            match read_chars (S (List.length t)) [] t with
            | Some (k, r) =>
                match skip_ws r with
                | colon :: r' =>
                    if N.eqb colon (ch ":") then
                      match read_value fuel r' with
                      | Some (x, r'') =>
                          let acc := dict_set acc k x in
                          match skip_ws r'' with
                          | d :: r3 =>
                              if N.eqb d (ch "}") then Some (JDict acc, r3)
                              else if N.eqb d (ch ",")
                              then read_members fuel acc r3
                              else None
                          | [] => None
                          end
                      | None => None
                      end
                    else None
                | [] => None
                end
            | None => None
            end
          else None
      | [] => None
      end
  end.

(** [json.loads(text)]: one value and nothing but white space after it. *)
Definition loads (text : str) : result json :=
  match read_value (S (List.length text)) text with
  | Some (v, rest) =>
      match skip_ws rest with
      | [] => Ret v
      | _ :: _ => Raise (OtherError (lit "JSONDecodeError: Extra data"))
      end
  | None => Raise (OtherError (lit "JSONDecodeError"))
  end.

#[export] Instance module : JsonModule :=
  {| json_loads := loads; json_dumps := dumps |}.

End MiniJson.

(** ** A small Git world to run the programs with

    One repository with its checked-out branch, local branches, a dirty
    flag, reachable remotes, and the directories on disk.  A push needs a
    reachable remote and a local branch of the name pushed. *)

Module ToyGit.

Record repo := {
  branch : option str;          (* [None]: detached HEAD *)
  heads : list str;
  dirty : bool;
  remotes : list str;
  commits : list str;           (* messages committed, newest first *)
  pushed : list (str * str);    (* (remote, branch), newest first *)
  dirs : list str;
  clock : str
}.

Definition hexsha : str := lit "9fceb02d0ae598e95dc970b74767f19372d61af8".

Definition mem (x : str) (l : list str) : bool := existsb (str_eqb x) l.

Definition with_branch (b : option str) (w : repo) : repo :=
  {| branch := b; heads := heads w; dirty := dirty w; remotes := remotes w;
     commits := commits w; pushed := pushed w; dirs := dirs w;
     clock := clock w |}.

Definition with_heads (h : list str) (w : repo) : repo :=
  {| branch := branch w; heads := h; dirty := dirty w; remotes := remotes w;
     commits := commits w; pushed := pushed w; dirs := dirs w;
     clock := clock w |}.

Definition with_commit (message : str) (w : repo) : repo :=
  {| branch := branch w; heads := heads w; dirty := false;
     remotes := remotes w; commits := message :: commits w;
     pushed := pushed w; dirs := dirs w; clock := clock w |}.

Definition with_pushed (remote b : str) (w : repo) : repo :=
  {| branch := branch w; heads := heads w; dirty := dirty w;
     remotes := remotes w; commits := commits w;
     pushed := (remote, b) :: pushed w; dirs := dirs w; clock := clock w |}.

Definition with_dirs (d : list str) (w : repo) : repo :=
  {| branch := branch w; heads := heads w; dirty := dirty w;
     remotes := remotes w; commits := commits w; pushed := pushed w;
     dirs := d; clock := clock w |}.

#[export] Instance git : GitPython repo := {|
  active_branch_name w :=
    match branch w with
    | Some b => Ret b
    | None => Raise (OtherError (lit "TypeError: HEAD is detached"))
    end;
  is_dirty w := Ret (dirty w);
  head_names w := Ret (heads w);
  has_remotes w := Ret (match remotes w with [] => false | _ :: _ => true end);
  git_add_all w := (Ret tt, w);
  index_add files w := (Ret tt, w);
  index_commit message author w := (Ret hexsha, with_commit message w);
  remote_push remote b force w :=
    if mem remote (remotes w)
    then if mem b (heads w) then (Ret tt, with_pushed remote b w)
         else (Raise (GitCommandError
                        (lit "src refspec does not match any")), w)
    else (Raise (OtherError (lit "IndexError: no such remote")), w);
  git_checkout b w :=
    if mem b (heads w) then (Ret tt, with_branch (Some b) w)
    else (Raise (GitCommandError (lit "pathspec did not match")), w);
  origin_pull w :=
    if mem (lit "origin") (remotes w) then (Ret tt, w)
    else (Raise (OtherError (lit "AttributeError: origin")), w);
  create_head name w := (Ret tt, with_heads (heads w ++ [name]) w);
  head_checkout name w := (Ret tt, with_branch (Some name) w);
  clone_from url path b depth w :=
    match url with
    | [] => (Raise (GitCommandError (lit "repository not found")), w)
    | _ :: _ => (Ret tt, with_dirs (path :: dirs w) w)
    end;
  path_join base name := base ++ lit "/" ++ name;
  path_exists path w := Ret (mem path (dirs w));
  rmtree path w :=
    (Ret tt, with_dirs (filter (fun d => negb (str_eqb d path)) (dirs w)) w);
  now_isoformat w := clock w
|}.

(** A working copy on [on_branch] with changes to commit and the remote
    origin. *)
Definition working_copy (on_branch : str) : repo :=
  {| branch := Some on_branch; heads := [lit "main"; on_branch];
     dirty := true; remotes := [lit "origin"]; commits := []; pushed := [];
     dirs := []; clock := lit "2026-02-19T10:00:00" |}.

(** The state of freshly built objects on a world: nothing called,
    histories empty, the history file as [__init__] leaves it. *)
Definition fresh (w : repo) : state repo :=
  {| world := w; calls := []; automation_history := [];
     history_file := Some (lit "[]"); branch_history := [];
     clone_history := [] |}.

End ToyGit.

(** ** What an operation leaves in the histories

    For a call started in state [s] that ends with result [r] in state
    [s']. *)

Module HistoryEffect.

Section Effects.
Context {W : Type} {J : JsonModule}.

Definition of_push (remote : str) (force : bool) (s : state W)
    (r : result bool) (s' : state W) : Prop :=
  match r with
  | Ret true =>
      exists timestamp branch,
        let record := GitAutomation.push_record timestamp remote branch force in
        histories s'
        = (automation_history s ++ [record],
           snd (GitAutomation._save_operation record (history_file s)),
           branch_history s, clone_history s)
  | Ret false => histories s' = histories s
  | Raise _ => False
  end.

Definition of_commit (s : state W) (r : result (option str)) (s' : state W)
  : Prop :=
  match r with
  | Ret (Some commit_hash) =>
      exists timestamp message branch,
        let record :=
          GitAutomation.commit_record timestamp commit_hash message branch in
        histories s'
        = (automation_history s ++ [record],
           snd (GitAutomation._save_operation record (history_file s)),
           branch_history s, clone_history s)
  | Ret None => histories s' = histories s
  | Raise _ => False
  end.

Definition of_create_branch (branch_name base_branch : str) (s : state W)
    (r : result bool) (s' : state W) : Prop :=
  match r with
  | Ret true =>
      exists timestamp,
        histories s'
        = (automation_history s, history_file s,
           branch_history s
           ++ [BranchManager.branch_record timestamp branch_name base_branch],
           clone_history s)
  | Ret false => histories s' = histories s
  | Raise _ => False
  end.

Definition of_clone (repo_url : str) (branch : option str) (s : state W)
    (r : result str) (s' : state W) : Prop :=
  match r with
  | Ret path =>
      exists timestamp,
        histories s'
        = (automation_history s, history_file s, branch_history s,
           clone_history s
           ++ [RepoCloner.clone_success_record timestamp repo_url
                 (RepoCloner.repo_name_of repo_url)
                 (or_else branch (lit "default")) path])
  | Raise (GitCommandError msg) =>
      exists timestamp,
        histories s'
        = (automation_history s, history_file s, branch_history s,
           clone_history s
           ++ [RepoCloner.clone_failure_record timestamp repo_url msg])
  | Raise (OtherError _) => histories s' = histories s
  end.

End Effects.

End HistoryEffect.

(** ** The steps of [automated_commit_push]

    The library calls each step may make, and the runs of the workflow:
    it stops at the first step that fails. *)

Module Workflow.

(** Ensuring the branch: [ensure_ai_fix_branch] and [create_branch]. *)
Definition branch_call (c : call) : bool :=
  match c with
  | CActiveBranch | CCheckout _ | CHasRemotes | COriginPull | CHeadNames
  | CCreateHead _ | CHeadCheckout _ => true
  | _ => false
  end.

(** Staging: [add_files]. *)
Definition stage_call (c : call) : bool :=
  match c with
  | CAddAll | CIndexAdd _ => true
  | _ => false
  end.

(** Committing: [commit]; it also asks for the current branch. *)
Definition commit_call (c : call) : bool :=
  match c with
  | CIsDirty | CIndexCommit _ _ => true
  | _ => false
  end.

(** Pushing: [push]; it also asks for the current branch. *)
Definition push_call (c : call) : bool :=
  match c with
  | CRemotePush _ _ _ => true
  | _ => false
  end.

Section Runs.
Context {W : Type} {G : GitPython W} {J : JsonModule}.

(** From [s] to [s'] only calls accepted by [P] were made. *)
Definition calls_within (P : call -> bool) (s s' : state W) : Prop :=
  exists new, calls s' = calls s ++ new /\ forallb P new = true.

Definition outcome (s : state W) (add : bool) (commit : option str)
    (push : bool) : GitAutomation.results :=
  {| GitAutomation.r_add := add; GitAutomation.r_commit := commit;
     GitAutomation.r_push := push;
     GitAutomation.r_timestamp := now_isoformat (world s) |}.

Inductive run (self : GitAutomation.t) (message : str) (add_all : bool)
    (remote : str) (s : state W) : GitAutomation.results -> state W -> Prop :=
| stop_at_branch (e : exn) (s1 : state W) :
    GitAutomation.ensure_ai_fix_branch self None None None s = (Raise e, s1) ->
    run self message add_all remote s (outcome s false None false) s1
| stop_at_stage (b : str) (s1 s2 : state W) :
    GitAutomation.ensure_ai_fix_branch self None None None s = (Ret b, s1) ->
    GitAutomation.add_files None add_all s1 = (Ret false, s2) ->
    run self message add_all remote s (outcome s false None false) s2
| stop_at_commit (b : str) (s1 s2 s3 : state W) (c : option str) :
    GitAutomation.ensure_ai_fix_branch self None None None s = (Ret b, s1) ->
    GitAutomation.add_files None add_all s1 = (Ret true, s2) ->
    GitAutomation.commit message None None s2 = (Ret c, s3) ->
    c = None \/ c = Some [] ->
    run self message add_all remote s (outcome s true None false) s3
| through_push (b h : str) (s1 s2 s3 s4 : state W) (pushed : bool) :
    GitAutomation.ensure_ai_fix_branch self None None None s = (Ret b, s1) ->
    GitAutomation.add_files None add_all s1 = (Ret true, s2) ->
    GitAutomation.commit message None None s2 = (Ret (Some h), s3) ->
    h <> [] ->
    GitAutomation.push remote None false s3 = (Ret pushed, s4) ->
    run self message add_all remote s (outcome s true (Some h) pushed) s4.

End Runs.

End Workflow.

(** ** Properties of names *)

Module NameSpec.

(** An ASCII character is a character of [[A-Z0-9_]]; any other character
    passes. *)
Definition ascii_part_ok (c : char) : bool :=
  implb (is_ascii c) (BranchManager.token_char c).

(** Upper case of an ASCII character, as one character. *)
Definition ascii_upper (c : char) : char :=
  if ((97 <=? c) && (c <=? 122))%N then (c - 32)%N else c.

End NameSpec.

(** ** The deliverables check (test_member2_deliverables.py): naming *)

Module Deliverables.

(** [_normalize_name] of the test file: its own copy of the function. *)
Definition _normalize_name (value : option str) : str :=
  match value with
  | None => []
  | Some value =>
      let cleaned :=
        replace (strip value) [BranchManager.space] [BranchManager.underscore] in
      let cleaned :=
        filter (fun ch => isalnum ch || char_eqb ch BranchManager.underscore)
               cleaned in
      upper cleaned
  end.

(** [get_expected_branch_name()]. *)
Definition get_expected_branch_name (env : BranchManager.environ) : str :=
  let team_name :=
    _normalize_name
      (Some (BranchManager.getenv (BranchManager.TEAM_NAME env)
               (lit "RIFT_ORGANISERS"))) in
  let leader_name :=
    _normalize_name
      (Some (BranchManager.getenv (BranchManager.LEADER_NAME env)
               (lit "SAIYAM_KUMAR"))) in
  team_name ++ lit "_" ++ leader_name ++ lit "_AI_Fix".

End Deliverables.

(** ** [BranchManager], the other methods (scripts/branch_manager.py) *)

Module BranchOps.

(** [pattern in b] for strings: [pattern] occurs somewhere in [b]. *)
Fixpoint contains (b pattern : str) : bool :=
  startswith b pattern
  || match b with
     | [] => false
     | _ :: t => contains t pattern
     end.

(** [__init__] on the history file: an empty array is written when there
    is no file; a file that exists is left as it is. *)
Definition ensure_store (file : option str) : option str :=
  match file with
  | None => Some (lit "[]")
  | Some content => Some content
  end.

(** The manager's history, in memory ([self.branch_history]) and on disk
    (data/branch_history.json). *)
Record store := {
  entries : list json;
  file : option str
}.

Definition branch_entry
    (branch_name type timestamp issue_id description run_id : str) : json :=
  JDict [ (lit "branch_name", JStr branch_name);
          (lit "type", JStr type);
          (lit "timestamp", JStr timestamp);
          (lit "issue_id", JStr issue_id);
          (lit "description", JStr description);
          (lit "run_id", JStr run_id);
          (lit "created_by", JStr (lit "DevOps_Lead"));
          (lit "status", JStr (lit "created")) ].

(** [create_branch_entry(issue_type, issue_id, description, team_name,
    leader_name)]; [run_id] and [timestamp] are what the two readings of
    the clock give.  The entry returned, and the history after it. *)
Definition create_branch_entry `{JsonModule} (self : BranchManager.t)
    (issue_type issue_id description team leader : option str)
    (run_id timestamp : str) (st : store) : json * store :=
  let branch_name := BranchManager.generate_branch_name self team leader in
  let entry :=
    branch_entry branch_name (or_else issue_type (lit "N/A")) timestamp
      (or_else issue_id (lit "N/A")) (or_else description (lit "N/A"))
      run_id in
  (entry,
   {| entries := entries st ++ [entry];
      file := snd (BranchManager._save_to_file entry (file st)) |}).

Section Methods.
Context {W : Type} {G : GitPython W}.

(** [create_ai_fix_branch(team_name, leader_name)]: the base branch is the
    default of [create_branch], main. *)
Definition create_ai_fix_branch (self : BranchManager.t)
    (team leader : option str) : M W (option str) :=
  let branch_name := BranchManager.generate_branch_name self team leader in
  created <- BranchManager.create_branch self branch_name (lit "main") true ;;
  if created then ret (Some branch_name) else ret None.

(** [list_branches(pattern)]. *)
Definition list_branches (self : BranchManager.t) (pattern : option str)
  : M W (list str) :=
  if negb (BranchManager.has_repo self) then ret []
  else
    try_except
      (branches <- query CHeadNames head_names ;;
       let branches :=
         match pattern with
         | Some (c :: p) => filter (fun b => contains b (c :: p)) branches
         | Some [] | None => branches
         end in
       ret branches)
      (fun e => ret []).

End Methods.

End BranchOps.

(** ** [GitAutomation], the other methods (scripts/git_automation.py) *)

Module GitOps.

(** What [create_ai_branch_and_commit] returns: the dictionary with
    [success] false and no branch, or the results of the workflow with the
    branch added. *)
Inductive outcome : Type :=
| NoBranch
| Ran (results : GitAutomation.results) (branch : str).

Section Methods.
Context {W : Type} {G : GitPython W} {J : JsonModule}.

(** [save_automation_history]: the file becomes the in-memory history. *)
Definition save_automation_history : M W unit :=
  fun s =>
    (Ret tt,
     {| world := world s; calls := calls s;
        automation_history := automation_history s;
        history_file := Some (json_dumps (JList (automation_history s)));
        branch_history := branch_history s;
        clone_history := clone_history s |}).

(** [create_ai_branch_and_commit(description, commit_message, team_name,
    leader_name)]. *)
Definition create_ai_branch_and_commit (self : GitAutomation.t)
    (description commit_message : str) (team leader : option str)
  : M W outcome :=
  branch_name <- BranchOps.create_ai_fix_branch
                   (GitAutomation.branch_manager self) team leader ;;
  match branch_name with
  | Some (c :: n) =>
      results <- GitAutomation.automated_commit_push self commit_message
                   true (lit "origin") ;;
      ret (Ran results (c :: n))
  | Some [] | None => ret NoBranch
  end.

(** The branch [ensure_ai_fix_branch] aims at when called with no
    argument, as [automated_commit_push] calls it. *)
Definition default_target (self : GitAutomation.t) : str :=
  BranchManager.generate_branch_name (GitAutomation.branch_manager self)
    (Some (or_else None (GitAutomation.team_name self)))
    (Some (or_else None (GitAutomation.leader_name self))).

(** The base branch it starts from. *)
Definition default_base (self : GitAutomation.t) : str :=
  BranchManager.getenv
    (BranchManager.DEFAULT_BRANCH (GitAutomation.environ self)) (lit "main").




End Methods.

End GitOps.

(** ** [RepoCloner], the other methods (scripts/repo_clone.py) *)

Module CloneOps.





(** The separator [clone_repository] splits the URL at. *)
Definition slash : char := 47%N.

Section Methods.
Context {W : Type} {G : GitPython W}.



End Methods.

End CloneOps.

(** ** The deliverables check (test_member2_deliverables.py): the test of
    the branch history *)

Module DeliverablesTest.

(** The [branch_configs] of [test_deliverable_1]. *)
Definition branch_configs : list (option str * option str * option str) :=
  [ (Some (lit "bug"), Some (lit "101"), Some (lit "fix_authentication"));
    (Some (lit "feature"), Some (lit "102"), Some (lit "add_analytics"));
    (Some (lit "hotfix"), Some (lit "103"), Some (lit "security_patch"));
    (Some (lit "fix"), None, Some (lit "performance_optimization")) ].

(** [d[key]] on the items of a dict, which holds a key once. *)
Fixpoint dict_get (items : list (str * json)) (key : str) : option json :=
  match items with
  | [] => None
  | (k, v) :: rest => if str_eqb k key then Some v else dict_get rest key
  end.

(** [branch['branch_name'] == expected]: a dict without the key, and
    anything that is no dict, raises. *)
Definition names_branch (expected : str) (branch : json) : result bool :=
  match branch with
  | JDict items =>
      match dict_get items (lit "branch_name") with
      | Some (JStr name) => Ret (str_eqb name expected)
      | Some _ => Ret false
      | None => Raise (OtherError (lit "KeyError: branch_name"))
      end
  | _ => Raise (OtherError (lit "TypeError: indices must be integers"))
  end.

(** [all(branch['branch_name'] == expected for branch in history)] over
    a list: it stops at the first entry under another name. *)
Fixpoint all_named (expected : str) (history : list json) : result bool :=
  match history with
  | [] => Ret true
  | branch :: rest =>
      match names_branch expected branch with
      | Ret true => all_named expected rest
      | Ret false => Ret false
      | Raise e => Raise e
      end
  end.

(** [success] of the test from what [json.loads] gave.  Iterating over a
    dict gives its keys and over a string its characters, which cannot be
    indexed by a name; an empty one has no entry and is too short. *)
Definition check_history (expected : str) (history : json) : result bool :=
  match history with
  | JList entries =>
      result_bind (all_named expected entries)
        (fun all_correct =>
           Ret ((4 <=? List.length entries) && all_correct))
  | JDict [] | JStr [] => Ret false
  | JDict (_ :: _) | JStr (_ :: _) =>
      Raise (OtherError (lit "TypeError: string indices must be integers"))
  | JNull | JBool _ | JInt _ =>
      Raise (OtherError (lit "TypeError: object is not iterable"))
  end.

Section Test.
Context {J : JsonModule}.

(** The loop over [branch_configs]; [clock i] is what the clock gives for
    the run id and the time stamp of the entry of index [i]. *)
Fixpoint create_entries (manager : BranchManager.t) (team leader : str)
    (configs : list (option str * option str * option str))
    (clock : nat -> str * str) (i : nat) (st : BranchOps.store)
  : BranchOps.store :=
  match configs with
  | [] => st
  | (issue_type, issue_id, description) :: rest =>
      create_entries manager team leader rest clock (S i)
        (snd (BranchOps.create_branch_entry manager issue_type issue_id
                description (Some team) (Some leader)
                (fst (clock i)) (snd (clock i)) st))
  end.

(** The manager's history once the entries are created; [file] is the
    history file the test starts on. *)
Definition created (env : BranchManager.environ) (clock : nat -> str * str)
    (file : option str) : BranchOps.store :=
  let team_name :=
    BranchManager.getenv (BranchManager.TEAM_NAME env) (lit "RIFT_ORGANISERS") in
  let leader_name :=
    BranchManager.getenv (BranchManager.LEADER_NAME env) (lit "SAIYAM_KUMAR") in
  let manager :=
    BranchManager.init env false (Some team_name) (Some leader_name) in
  create_entries manager team_name leader_name branch_configs clock 0
    {| BranchOps.entries := [];
       BranchOps.file := BranchOps.ensure_store file |}.

(** [test_deliverable_1()]. *)
Definition test_deliverable_1 (env : BranchManager.environ)
    (clock : nat -> str * str) (file : option str) : result bool :=
  match BranchOps.file (created env clock file) with
  | None => Ret false
  | Some content =>
      result_bind (json_loads content)
        (check_history (Deliverables.get_expected_branch_name env))
  end.

End Test.

End DeliverablesTest.

(* ================================================================== *)
(** * Part II. Theorems                                                *)
(* ================================================================== *)

(** ** Facts about Python strings *)

Module PyStrFacts.

Lemma str_eqb_eq (a b : str) : str_eqb a b = true <-> a = b.
Proof.
  revert b; induction a as [|x a IH]; intros [|y b]; simpl; split;
    try congruence; try reflexivity.
  - intros H. apply andb_true_iff in H as [Hx Hab].
    apply N.eqb_eq in Hx. apply IH in Hab. congruence.
  - intros H. injection H as -> ->. apply andb_true_iff. split.
    + apply N.eqb_refl.
    + now apply IH.
Qed.

(** A boolean property checked on every code point below [n] holds of
    each of them. *)
Lemma below_checked (P : char -> bool) (n : nat) :
  forallb P (map N.of_nat (seq 0 n)) = true ->
  forall c : char, (c < N.of_nat n)%N -> P c = true.
Proof.
  intros H c Hc. rewrite forallb_forall in H. apply H.
  apply in_map_iff. exists (N.to_nat c). split.
  - apply N2Nat.id.
  - apply in_seq. lia.
Qed.

Section Elements.
Variable P : char -> Prop.

Lemma lstrip_Forall s : Forall P s -> Forall P (lstrip s).
Proof.
  induction 1 as [|c t Hc Ht IH]; simpl; [constructor|].
  destruct (isspace c); [exact IH | now constructor].
Qed.

Lemma strip_Forall s : Forall P s -> Forall P (strip s).
Proof.
  intros H. unfold strip, rstrip.
  apply Forall_rev, lstrip_Forall, Forall_rev, lstrip_Forall, H.
Qed.

Lemma replace_from_Forall old new s :
  Forall P new -> Forall P s -> forall k, Forall P (replace_from old new k s).
Proof.
  intros Hnew Hs. induction Hs as [|c t Hc Ht IH]; intros k;
    cbn [replace_from].
  - constructor.
  - destruct k as [|k]; [|apply IH].
    destruct (startswith (c :: t) old).
    + apply Forall_app. split; [exact Hnew | apply IH].
    + constructor; [exact Hc | apply IH].
Qed.

Lemma replace_Forall s old new :
  old <> [] -> Forall P new -> Forall P s -> Forall P (replace s old new).
Proof.
  intros Hold Hnew Hs. destruct old as [|o old]; [congruence|].
  now apply replace_from_Forall.
Qed.

Lemma upper_Forall s :
  (forall c, In c s -> Forall P (upper_char c)) -> Forall P (upper s).
Proof.
  unfold upper. induction s as [|c t IH]; intros H; simpl; [constructor|].
  apply Forall_app. split.
  - apply H. now left.
  - apply IH. intros d Hd. apply H. now right.
Qed.

End Elements.

(** Strings with no white space at either end, no occurrence of the
    pattern, and only fixed points of upper-casing are left as they are. *)
Lemma lstrip_id s :
  match s with c :: _ => isspace c = false | [] => True end -> lstrip s = s.
Proof. destruct s as [|c t]; simpl; [reflexivity|]. now intros ->. Qed.

Lemma strip_id s : Forall (fun c => isspace c = false) s -> strip s = s.
Proof.
  intros H. unfold strip, rstrip.
  rewrite (lstrip_id s) by (destruct H; auto).
  rewrite lstrip_id; [apply rev_involutive|].
  apply Forall_rev in H. destruct H; auto.
Qed.

Lemma replace_char_id s (a : char) new :
  Forall (fun c => char_eqb c a = false) s -> replace s [a] new = s.
Proof.
  unfold replace. induction 1 as [|c t Hc Ht IH]; simpl; [reflexivity|].
  rewrite Hc. simpl. now rewrite IH.
Qed.

Lemma filter_id (f : char -> bool) s :
  Forall (fun c => f c = true) s -> filter f s = s.
Proof.
  induction 1 as [|c t Hc Ht IH]; simpl; [reflexivity|].
  now rewrite Hc, IH.
Qed.

Lemma upper_id s : Forall (fun c => upper_char c = [c]) s -> upper s = s.
Proof.
  unfold upper. induction 1 as [|c t Hc Ht IH]; simpl; [reflexivity|].
  now rewrite Hc, IH.
Qed.

End PyStrFacts.

(** ** Branch naming: [_normalize_name] and [generate_branch_name] *)

Module BranchNaming.
Import BranchManager PyStrFacts.

Lemma token_char_ascii c : token_char c = true -> (c < 128)%N.
Proof.
  unfold token_char, char_eqb, underscore. intros H.
  repeat (apply orb_true_iff in H as [H|H]).
  - apply andb_true_iff in H as [_ H]. apply N.leb_le in H. lia.
  - apply andb_true_iff in H as [_ H]. apply N.leb_le in H. lia.
  - apply N.eqb_eq in H. lia.
Qed.

(** What the tables say on the ASCII block, checked code point by code
    point. *)
Lemma ascii_kept_upper c :
  (c < 128)%N -> (isalnum c || char_eqb c underscore) = true ->
  forallb token_char (upper_char c) = true.
Proof.
  intros Hc Hk.
  pose (P := fun c => implb (isalnum c || char_eqb c underscore)
                            (forallb token_char (upper_char c))).
  assert (HP : P c = true)
    by (apply (below_checked P 128); [vm_compute; reflexivity | exact Hc]).
  unfold P in HP. now rewrite Hk in HP.
Qed.

Lemma token_char_fixed c :
  token_char c = true ->
  isspace c = false /\ char_eqb c space = false /\
  (isalnum c || char_eqb c underscore) = true /\ upper_char c = [c].
Proof.
  intros Ht.
  pose (P := fun c => implb (token_char c)
               (negb (isspace c) && negb (char_eqb c space)
                && (isalnum c || char_eqb c underscore)
                && str_eqb (upper_char c) [c])).
  assert (HP : P c = true).
  { apply (below_checked P 128); [vm_compute; reflexivity|].
    now apply token_char_ascii. }
  unfold P in HP. rewrite Ht in HP. simpl in HP.
  repeat (apply andb_true_iff in HP as [HP ?]).
  repeat split.
  - now apply negb_true_iff.
  - now apply negb_true_iff.
  - assumption.
  - now apply str_eqb_eq.
Qed.

(** On ASCII input the token is in [[A-Z0-9_]]. *)
Lemma normalize_ascii_tokens s :
  Forall (fun c => (c < 128)%N) s ->
  Forall (fun c => token_char c = true) (_normalize_name (Some s)).
Proof.
  intros Hs. unfold _normalize_name. apply upper_Forall.
  intros c Hin. apply filter_In in Hin as [Hin Hkeep].
  assert (Hc : (c < 128)%N).
  { assert (Hall : Forall (fun c => (c < 128)%N)
                       (replace (strip s) [space] [underscore])).
    { apply replace_Forall; [discriminate | | now apply strip_Forall].
      constructor; [reflexivity | constructor]. }
    rewrite Forall_forall in Hall. now apply Hall. }
  apply Forall_forall. intros d Hd.
  pose proof (ascii_kept_upper c Hc Hkeep) as Hu.
  rewrite forallb_forall in Hu. now apply Hu.
Qed.

Lemma ascii_only_Forall s :
  ascii_only (Some s) = true -> Forall (fun c => (c < 128)%N) s.
Proof.
  simpl. intros H. apply Forall_forall. intros c Hc.
  rewrite forallb_forall in H. apply H in Hc. now apply N.ltb_lt.
Qed.

(** A token in [[A-Z0-9_]] is a fixed point of the normalization. *)
Lemma normalize_token_fixed s :
  Forall (fun c => token_char c = true) s -> _normalize_name (Some s) = s.
Proof.
  intros Hs. unfold _normalize_name.
  assert (H : Forall (fun c => isspace c = false /\ char_eqb c space = false /\
              (isalnum c || char_eqb c underscore) = true /\
              upper_char c = [c]) s).
  { eapply Forall_impl; [|exact Hs]. intros c. apply token_char_fixed. }
  rewrite strip_id by (eapply Forall_impl; [|exact H]; now intros c (? & _)).
  rewrite replace_char_id
    by (eapply Forall_impl; [|exact H]; now intros c (_ & ? & _)).
  rewrite filter_id
    by (eapply Forall_impl; [|exact H]; now intros c (_ & _ & ? & _)).
  apply upper_id. eapply Forall_impl; [|exact H]. now intros c (_ & _ & _ & ?).
Qed.

(** C4. [generate_branch_name] gives RIFT_ORGANISERS_SAIYAM_KUMAR_AI_Fix for
    team RIFT ORGANISERS and leader Saiyam Kumar, and RIFT2026_JOHNDOE_AI_Fix
    for team RIFT@2026 and leader John-Doe, whatever the manager's own
    configured names are: punctuation is dropped, not replaced. *)
Theorem generate_branch_name_examples (self : BranchManager.t) :
  generate_branch_name self (Some (lit "RIFT ORGANISERS"))
                            (Some (lit "Saiyam Kumar"))
    = lit "RIFT_ORGANISERS_SAIYAM_KUMAR_AI_Fix"
  /\ generate_branch_name self (Some (lit "RIFT@2026")) (Some (lit "John-Doe"))
    = lit "RIFT2026_JOHNDOE_AI_Fix".
Proof. split; vm_compute; reflexivity. Qed.

(** C5 (as the code has it). For every ASCII argument of [_normalize_name],
    [None] included, the result contains only characters of [[A-Z0-9_]]. *)
Theorem normalize_name_charset_ascii (value : option str) :
  ascii_only value = true ->
  forallb token_char (_normalize_name value) = true.
Proof.
  destruct value as [s|]; [|reflexivity].
  intros H. apply forallb_forall. apply Forall_forall.
  now apply normalize_ascii_tokens, ascii_only_Forall.
Qed.

Lemma normalize_name_charset_ascii_witness :
  forallb token_char (_normalize_name (Some (lit "  rift@2026 team "))) = true.
Proof.
  apply (normalize_name_charset_ascii (Some (lit "  rift@2026 team "))).
  vm_compute. reflexivity.
Defined.

(** C5, the claim as stated, fails off ASCII: e-acute (U+00E9) is
    alphanumeric for [str.isalnum] and upper-cases to U+00C9, which is not
    in [[A-Z0-9_]]. *)
Lemma normalize_name_charset_counterexample :
  _normalize_name (Some [0xE9%N]) = [0xC9%N]
  /\ forallb token_char (_normalize_name (Some [0xE9%N])) = false.
Proof. split; vm_compute; reflexivity. Qed.

(** C6 (as the code has it). On every ASCII argument, normalizing the
    result of [_normalize_name] again gives the same string. *)
Theorem normalize_name_idempotent_ascii (value : option str) :
  ascii_only value = true ->
  _normalize_name (Some (_normalize_name value)) = _normalize_name value.
Proof.
  intros H. apply normalize_token_fixed.
  destruct value as [s|]; [|constructor].
  now apply normalize_ascii_tokens, ascii_only_Forall.
Qed.

Lemma normalize_name_idempotent_ascii_witness :
  _normalize_name (Some (_normalize_name (Some (lit " John-Doe jr "))))
  = _normalize_name (Some (lit " John-Doe jr ")).
Proof.
  apply (normalize_name_idempotent_ascii (Some (lit " John-Doe jr "))).
  vm_compute. reflexivity.
Defined.

(** C6, the claim as stated, fails on U+01F0 (j with caron): it is
    alphanumeric and its upper case is J followed by the combining caron
    U+030C, which is not alphanumeric and is dropped by the second pass. *)
Lemma normalize_name_idempotent_counterexample :
  _normalize_name (Some [0x1F0%N]) = [0x4A%N; 0x30C%N]
  /\ _normalize_name (Some (_normalize_name (Some [0x1F0%N]))) = [0x4A%N]
  /\ _normalize_name (Some (_normalize_name (Some [0x1F0%N])))
     <> _normalize_name (Some [0x1F0%N]).
Proof. repeat split; try (vm_compute; reflexivity). vm_compute. discriminate. Qed.

(** C10 (as the code has it). An empty-string argument is treated as an
    absent one: the manager's configured name is normalized in its place.
    A manager built with no names in an environment that sets none uses
    RAG_RAIDERS and DEO_PRAKASH, so the name is
    RAG_RAIDERS_DEO_PRAKASH_AI_Fix; in general the token is the configured
    name's own token, empty when that is. *)
Theorem generate_branch_name_empty_argument
    (self : BranchManager.t) (team leader : option str) (repo_ok : bool) :
  generate_branch_name self (Some []) leader
    = generate_branch_name self None leader
  /\ generate_branch_name self team (Some [])
    = generate_branch_name self team None
  /\ generate_branch_name self (Some []) (Some [])
    = _normalize_name (Some (team_name self)) ++ [underscore]
      ++ _normalize_name (Some (leader_name self)) ++ [underscore]
      ++ BRANCH_SUFFIX
  /\ generate_branch_name
       (init (Build_environ None None None) repo_ok None None)
       (Some []) (Some [])
    = lit "RAG_RAIDERS_DEO_PRAKASH_AI_Fix".
Proof. repeat split. Qed.

(** C10, the claim as stated, fails when the configured names are empty:
    with TEAM_NAME and LEADER_NAME set to the empty string in the
    environment, empty arguments give __AI_Fix. *)
Lemma generate_branch_name_empty_counterexample :
  generate_branch_name
    (init (Build_environ (Some []) (Some []) None) true None None)
    (Some []) (Some [])
  = lit "__AI_Fix".
Proof. vm_compute. reflexivity. Qed.

End BranchNaming.

(** ** Reasoning rules for the methods *)

Module Rules.

Section Monad.
Context {W : Type} {G : GitPython W}.

Lemma wp_ret {A : Type} (a : A) (Q : result A -> state W -> Prop) s :
  Q (Ret a) s -> wp (ret a) Q s.
Proof. exact (fun H => H). Qed.

Lemma wp_raise {A : Type} (e : exn) (Q : result A -> state W -> Prop) s :
  Q (Raise e) s -> wp (raise e) Q s.
Proof. exact (fun H => H). Qed.

Lemma wp_bind {A B : Type} (m : M W A) (k : A -> M W B)
    (Q : result B -> state W -> Prop) s :
  wp m (fun r s' => match r with
                    | Ret a => wp (k a) Q s'
                    | Raise e => Q (Raise e) s'
                    end) s ->
  wp (bind m k) Q s.
Proof.
  unfold wp, bind. destruct (m s) as [[a|e] s']; cbn; exact (fun H => H).
Qed.

Lemma wp_try {A : Type} (m : M W A) (handler : exn -> M W A)
    (Q : result A -> state W -> Prop) s :
  wp m (fun r s' => match r with
                    | Ret a => Q (Ret a) s'
                    | Raise e => wp (handler e) Q s'
                    end) s ->
  wp (try_except m handler) Q s.
Proof.
  unfold wp, try_except. destruct (m s) as [[a|e] s']; cbn; exact (fun H => H).
Qed.

Lemma wp_query {A : Type} (c : call) (f : W -> result A)
    (Q : result A -> state W -> Prop) s :
  Q (f (world s)) (log_call c s) -> wp (query c f) Q s.
Proof. exact (fun H => H). Qed.

Lemma wp_command {A : Type} (c : call) (f : W -> result A * W)
    (Q : result A -> state W -> Prop) s :
  Q (fst (f (world s))) (set_world (snd (f (world s))) (log_call c s)) ->
  wp (command c f) Q s.
Proof.
  unfold wp, command. destruct (f (world s)) as [r w]. exact (fun H => H).
Qed.

Lemma wp_now (Q : result str -> state W -> Prop) s :
  Q (Ret (now_isoformat (world s))) s -> wp now Q s.
Proof. exact (fun H => H). Qed.


(** The result and the final state of a run, from a [wp] fact. *)
Lemma wp_run {A : Type} (m : M W A) (Q : result A -> state W -> Prop) s :
  wp m Q s -> exists r s', m s = (r, s') /\ Q r s'.
Proof.
  unfold wp. intros H. exists (fst (m s)), (snd (m s)).
  split; [apply surjective_pairing | exact H].
Qed.

End Monad.

Section Appends.
Context {W : Type} {G : GitPython W} {J : JsonModule}.

(** [save_operation] never raises, and touches the history file only. *)
Lemma wp_save_operation (record : json) (Q : result unit -> state W -> Prop) s :
  Q (Ret tt)
    {| world := world s; calls := calls s;
       automation_history := automation_history s;
       history_file := snd (GitAutomation._save_operation record (history_file s));
       branch_history := branch_history s;
       clone_history := clone_history s |} ->
  wp (GitAutomation.save_operation record) Q s.
Proof.
  unfold wp, GitAutomation.save_operation, GitAutomation._save_operation.
  destruct (result_bind _ _); exact (fun H => H).
Qed.

Lemma wp_append_automation_history (record : json)
    (Q : result unit -> state W -> Prop) s :
  Q (Ret tt)
    {| world := world s; calls := calls s;
       automation_history := automation_history s ++ [record];
       history_file := history_file s;
       branch_history := branch_history s;
       clone_history := clone_history s |} ->
  wp (GitAutomation.append_automation_history record) Q s.
Proof. exact (fun H => H). Qed.

Lemma wp_append_branch_history (record : json)
    (Q : result unit -> state W -> Prop) s :
  Q (Ret tt)
    {| world := world s; calls := calls s;
       automation_history := automation_history s;
       history_file := history_file s;
       branch_history := branch_history s ++ [record];
       clone_history := clone_history s |} ->
  wp (BranchManager.append_branch_history record) Q s.
Proof. exact (fun H => H). Qed.

Lemma wp_append_clone_history (record : json)
    (Q : result unit -> state W -> Prop) s :
  Q (Ret tt)
    {| world := world s; calls := calls s;
       automation_history := automation_history s;
       history_file := history_file s;
       branch_history := branch_history s;
       clone_history := clone_history s ++ [record] |} ->
  wp (RepoCloner.append_clone_history record) Q s.
Proof. exact (fun H => H). Qed.

End Appends.

(** One step of symbolic execution. *)
Ltac wp_step :=
  lazymatch goal with
  | |- wp (bind _ _) _ _ => apply wp_bind
  | |- wp (try_except _ _) _ _ => apply wp_try
  | |- wp (ret _) _ _ => apply wp_ret
  | |- wp (raise _) _ _ => apply wp_raise
  | |- wp (query _ _) _ _ => apply wp_query
  | |- wp (command _ _) _ _ => apply wp_command
  | |- wp now _ _ => apply wp_now
  end; cbv beta zeta.

(** A case split on what a library call returned or on a test. *)
Ltac wp_case :=
  lazymatch goal with
  | |- match ?x with _ => _ end => destruct x eqn:?
  | |- wp (if ?b then _ else _) _ _ => destruct b eqn:?
  | |- wp (match ?x with _ => _ end) _ _ => destruct x eqn:?
  end.

(** Run a method to its end, splitting on every library result and
    test. *)
Ltac wp_all :=
  repeat first
    [ wp_step
    | apply wp_append_automation_history
    | apply wp_save_operation
    | apply wp_append_branch_history
    | apply wp_append_clone_history
    | wp_case ].

End Rules.

(** ** [GitAutomation.push] *)

Module PushPolicy.
Import GitAutomation PyStrFacts Rules.

Section Push.
Context {W : Type} {G : GitPython W} {J : JsonModule}.

Lemma protected_branch_spec (b : str) :
  protected_branch b = true <-> b = lit "main" \/ b = lit "master".
Proof.
  unfold protected_branch. cbn [existsb].
  rewrite orb_false_r, orb_true_iff, !str_eqb_eq.
  split; intros [H|H]; auto.
Qed.

(** A blocked push: failure, and nothing done but asking for the current
    branch when none was passed. *)
Lemma push_blocked (remote : str) (branch : option str) (force : bool)
    (s : state W) (b : str) :
  target_branch branch (world s) = Ret b ->
  protected_branch b = true ->
  push remote branch force s
  = (Ret false,
     match branch with None => log_call CActiveBranch s | Some _ => s end).
Proof.
  intros Hb Hp. unfold push, try_except, bind.
  destruct branch as [b'|]; unfold target_branch in Hb.
  - injection Hb as ->. unfold ret at 1. rewrite Hp. reflexivity.
  - unfold query. rewrite Hb, Hp. reflexivity.
Qed.

(** A push that is not blocked: the branch is handed to the remote's push
    once, and the result says whether that call returned. *)
Lemma push_unprotected (remote : str) (branch : option str) (force : bool)
    (s : state W) (b : str) :
  target_branch branch (world s) = Ret b ->
  protected_branch b = false ->
  exists s',
    push remote branch force s
    = (Ret (match fst (remote_push remote b force (world s)) with
            | Ret _ => true
            | Raise _ => false
            end), s')
    /\ calls s'
       = calls s
         ++ match branch with None => [CActiveBranch] | Some _ => [] end
         ++ [CRemotePush remote b force]
    /\ world s' = snd (remote_push remote b force (world s)).
Proof.
  intros Hb Hp.
  assert (H : wp (push remote branch force)
                (fun r s' =>
                   r = Ret (match fst (remote_push remote b force (world s)) with
                            | Ret _ => true
                            | Raise _ => false
                            end)
                   /\ calls s'
                      = calls s
                        ++ match branch with
                           | None => [CActiveBranch]
                           | Some _ => []
                           end
                        ++ [CRemotePush remote b force]
                   /\ world s' = snd (remote_push remote b force (world s))) s).
  { unfold push. wp_step. wp_step.
    destruct branch as [b'|]; unfold target_branch in Hb.
    - injection Hb as ->. wp_step. rewrite Hp. wp_step. wp_step.
      destruct (remote_push remote b force (world s)) as [[[]|e] w'];
        cbn [fst snd].
      + wp_step. wp_step. cbv zeta. wp_step.
        apply wp_append_automation_history. wp_step.
        apply wp_save_operation. wp_step. repeat split.
      + destruct e; wp_step; repeat split.
    - wp_step. rewrite Hb, Hp. wp_step. wp_step. cbn [world log_call].
      destruct (remote_push remote b force (world s)) as [[[]|e] w'];
        cbn [fst snd].
      + wp_step. wp_step. cbv zeta. wp_step.
        apply wp_append_automation_history. wp_step.
        apply wp_save_operation. wp_step.
        repeat split. cbn [calls log_call set_world].
        now rewrite <- app_assoc.
      + destruct e; wp_step; repeat split;
          cbn [calls log_call set_world]; now rewrite <- app_assoc. }
  destruct (wp_run _ _ _ H) as (r & s' & Hrun & -> & Hcalls & Hworld).
  now exists s'.
Qed.

(** C1 (as the code has it).  A push whose target branch, passed or
    resolved to the current branch, is main or master returns [False]
    without raising and without any call on a remote, whatever [force] is:
    the only library call is the query for the current branch when no
    branch was passed, and the histories are left alone.  For any other
    target branch, [push] hands the branch to the remote's push, once, and
    never raises: it returns [True] when that call returns and [False]
    when it raises, as it does on a reachable remote for a branch the
    repository does not have. *)
Theorem push_protected_branch_policy (remote : str) (branch : option str)
    (force : bool) (s : state W) (b : str) :
  target_branch branch (world s) = Ret b ->
  (b = lit "main" \/ b = lit "master" ->
   push remote branch force s
   = (Ret false,
      match branch with None => log_call CActiveBranch s | Some _ => s end))
  /\ (b <> lit "main" -> b <> lit "master" ->
      exists s',
        push remote branch force s
        = (Ret (match fst (remote_push remote b force (world s)) with
                | Ret _ => true
                | Raise _ => false
                end), s')
        /\ calls s'
           = calls s
             ++ match branch with None => [CActiveBranch] | Some _ => [] end
             ++ [CRemotePush remote b force]
        /\ world s' = snd (remote_push remote b force (world s))).
Proof.
  intros Hb. split.
  - intros Hprot. apply push_blocked with (b := b); [exact Hb|].
    now apply protected_branch_spec.
  - intros Hmain Hmaster. apply push_unprotected; [exact Hb|].
    destruct (protected_branch b) eqn:Hp; [|reflexivity].
    apply protected_branch_spec in Hp. tauto.
Qed.

End Push.

#[local] Existing Instance ToyGit.git.
#[local] Existing Instance MiniJson.module.

Lemma push_protected_branch_policy_witness :
  push (lit "origin") None true
       (ToyGit.fresh (ToyGit.working_copy (lit "main")))
  = (Ret false,
     log_call CActiveBranch (ToyGit.fresh (ToyGit.working_copy (lit "main"))))
  /\ exists s',
       push (lit "origin") None false
            (ToyGit.fresh (ToyGit.working_copy (lit "RIFT_SAIYAM_AI_Fix")))
       = (Ret true, s')
       /\ calls s'
          = [] ++ [CActiveBranch]
            ++ [CRemotePush (lit "origin") (lit "RIFT_SAIYAM_AI_Fix") false]
       /\ world s'
          = ToyGit.with_pushed (lit "origin") (lit "RIFT_SAIYAM_AI_Fix")
              (ToyGit.working_copy (lit "RIFT_SAIYAM_AI_Fix")).
Proof.
  split.
  - apply (proj1 (@push_protected_branch_policy _ ToyGit.git MiniJson.module
             (lit "origin") None true
             (ToyGit.fresh (ToyGit.working_copy (lit "main")))
             (lit "main") ltac:(reflexivity))).
    left. reflexivity.
  - apply (proj2 (@push_protected_branch_policy _ ToyGit.git MiniJson.module
             (lit "origin") None false
             (ToyGit.fresh (ToyGit.working_copy (lit "RIFT_SAIYAM_AI_Fix")))
             (lit "RIFT_SAIYAM_AI_Fix") ltac:(reflexivity))).
    + vm_compute. discriminate.
    + vm_compute. discriminate.
Defined.

(** C1, the claim as stated, fails on a reachable remote: with the remote
    origin there and the target branch other than main and master, but no
    branch of this name in the repository, the push on the remote raises
    and [push] returns [False]; nothing is pushed. *)
Lemma reachable_remote_push_fails :
  ToyGit.mem (lit "origin")
    (ToyGit.remotes (ToyGit.working_copy (lit "main"))) = true
  /\ GitAutomation.protected_branch (lit "RIFT_SAIYAM_AI_Fix") = false
  /\ fst (push (lit "origin") (Some (lit "RIFT_SAIYAM_AI_Fix")) false
            (ToyGit.fresh (ToyGit.working_copy (lit "main"))))
     = Ret false
  /\ calls (snd (push (lit "origin") (Some (lit "RIFT_SAIYAM_AI_Fix")) false
                   (ToyGit.fresh (ToyGit.working_copy (lit "main")))))
     = [CRemotePush (lit "origin") (lit "RIFT_SAIYAM_AI_Fix") false]
  /\ ToyGit.pushed
       (world (snd (push (lit "origin") (Some (lit "RIFT_SAIYAM_AI_Fix")) false
                      (ToyGit.fresh (ToyGit.working_copy (lit "main"))))))
     = [].
Proof. repeat split; vm_compute; reflexivity. Qed.

End PushPolicy.

(** ** [GitAutomation.commit] *)

Module CommitFacts.
Import GitAutomation PyStrFacts Rules PushPolicy.

Lemma startswith_app (p s : str) : startswith (p ++ s) p = true.
Proof.
  induction p as [|c p IH]; [destruct s; reflexivity|].
  cbn. unfold char_eqb. now rewrite N.eqb_refl, IH.
Qed.

Lemma startswith_trans (s p q : str) :
  startswith s p = true -> startswith p q = true -> startswith s q = true.
Proof.
  revert s q. induction p as [|c p IH]; intros s q Hsp Hpq.
  - destruct q; [destruct s; reflexivity | discriminate].
  - destruct s as [|d s]; [discriminate|]. destruct q as [|e q]; [reflexivity|].
    cbn in *. apply andb_true_iff in Hsp as [Hdc Hsp].
    apply andb_true_iff in Hpq as [Hce Hpq].
    apply N.eqb_eq in Hdc, Hce. subst. unfold char_eqb.
    rewrite N.eqb_refl. cbn. now apply IH with (q := q) in Hsp.
Qed.

(** The committed message starts with the tag; a message that starts with
    the tag already is left as it is. *)
Lemma commit_message_tagged (message : str) :
  startswith (commit_message message) AI_AGENT_TAG = true.
Proof.
  unfold commit_message. destruct (startswith message AI_AGENT_TAG) eqn:H.
  - exact H.
  - cbn [negb].
    apply startswith_trans with (p := lit "[AI-AGENT] ").
    + apply startswith_app.
    + reflexivity.
Qed.

Section Commit.
Context {W : Type} {G : GitPython W} {J : JsonModule}.

Lemma commit_nothing (message : str) (author_name author_email : option str)
    (s : state W) :
  is_dirty (world s) = Ret false ->
  commit message author_name author_email s = (Ret None, log_call CIsDirty s).
Proof.
  intros Hd. unfold commit, try_except, bind, query. now rewrite Hd.
Qed.

Lemma commit_changes (message : str) (author_name author_email : option str)
    (s : state W) (hexsha branch : str) (w' : W) :
  is_dirty (world s) = Ret true ->
  index_commit (commit_message message)
    (commit_author author_name author_email) (world s) = (Ret hexsha, w') ->
  active_branch_name w' = Ret branch ->
  wp (commit message author_name author_email)
     (fun r s' =>
        r = Ret (Some (firstn 7 hexsha))
        /\ world s' = w'
        /\ calls s' = calls s
             ++ [CIsDirty;
                 CIndexCommit (commit_message message)
                   (commit_author author_name author_email);
                 CActiveBranch]) s.
Proof.
  intros Hd Hc Hb. unfold commit. wp_step. wp_step. wp_step.
  rewrite Hd. cbn [negb]. wp_step. wp_step.
  cbn [log_call world]. rewrite Hc. cbn [fst snd]. wp_step. wp_step.
  wp_step. wp_step. cbn [set_world log_call world]. rewrite Hb.
  wp_step. apply wp_append_automation_history. wp_step.
  apply wp_save_operation. wp_step.
  cbn [world calls set_world log_call]. repeat split.
  now rewrite <- !app_assoc.
Qed.

(** C7 (as the code has it).  With nothing to commit, [commit] returns
    [None] and makes no commit: its only library call is the dirty check.
    With changes, when the commit goes through on a checked-out branch,
    it returns the first seven characters of the hash, a non-empty string
    when the hash is one.  The message committed starts with the tag
    [[AI-AGENT]]: a message that starts with the tag is committed as it is,
    any other with the tag and a space put before it. *)
Theorem commit_contract (message : str) (author_name author_email : option str)
    (s : state W) :
  (is_dirty (world s) = Ret false ->
   commit message author_name author_email s = (Ret None, log_call CIsDirty s))
  /\ (forall (hexsha branch : str) (w' : W),
        is_dirty (world s) = Ret true ->
        index_commit (commit_message message)
          (commit_author author_name author_email) (world s)
        = (Ret hexsha, w') ->
        active_branch_name w' = Ret branch ->
        hexsha <> [] ->
        exists commit_hash,
          fst (commit message author_name author_email s)
          = Ret (Some commit_hash)
          /\ commit_hash = firstn 7 hexsha /\ commit_hash <> []
          /\ In (CIndexCommit (commit_message message)
                   (commit_author author_name author_email))
                (calls (snd (commit message author_name author_email s))))
  /\ startswith (commit_message message) AI_AGENT_TAG = true
  /\ (startswith message AI_AGENT_TAG = true ->
      commit_message message = message)
  /\ (startswith message AI_AGENT_TAG = false ->
      commit_message message = lit "[AI-AGENT] " ++ message).
Proof.
  split; [apply commit_nothing|]. split.
  - intros hexsha branch w' Hd Hc Hb Hne.
    pose proof (commit_changes message author_name author_email s
                  hexsha branch w' Hd Hc Hb) as (Hr & _ & Hcalls).
    exists (firstn 7 hexsha). repeat split.
    + exact Hr.
    + destruct hexsha; [congruence | discriminate].
    + rewrite Hcalls. apply in_or_app. right. right. now left.
  - split; [apply commit_message_tagged|].
    unfold commit_message. split; intros ->; reflexivity.
Qed.

End Commit.

#[local] Existing Instance ToyGit.git.
#[local] Existing Instance MiniJson.module.

Lemma commit_contract_witness :
  commit (lit "fix tests") None None
         (ToyGit.fresh (ToyGit.with_commit (lit "init")
                          (ToyGit.working_copy (lit "main"))))
  = (Ret None,
     log_call CIsDirty
       (ToyGit.fresh (ToyGit.with_commit (lit "init")
                        (ToyGit.working_copy (lit "main")))))
  /\ (exists commit_hash,
        fst (commit (lit "fix tests") None None
               (ToyGit.fresh (ToyGit.working_copy (lit "main"))))
        = Ret (Some commit_hash)
        /\ commit_hash = firstn 7 ToyGit.hexsha /\ commit_hash <> []
        /\ In (CIndexCommit (commit_message (lit "fix tests"))
                 (commit_author None None))
              (calls (snd (commit (lit "fix tests") None None
                             (ToyGit.fresh (ToyGit.working_copy (lit "main")))))))
  /\ commit_message (lit "[AI-AGENT] fix tests") = lit "[AI-AGENT] fix tests"
  /\ commit_message (lit "fix tests") = lit "[AI-AGENT] " ++ lit "fix tests".
Proof.
  split; [|split; [|split]].
  - apply (proj1 (@commit_contract _ ToyGit.git MiniJson.module
             (lit "fix tests") None None _)).
    reflexivity.
  - apply (proj1 (proj2 (@commit_contract _ ToyGit.git MiniJson.module
             (lit "fix tests") None None
             (ToyGit.fresh (ToyGit.working_copy (lit "main")))))
           ToyGit.hexsha (lit "main")
           (ToyGit.with_commit (commit_message (lit "fix tests"))
              (ToyGit.working_copy (lit "main")))).
    + reflexivity.
    + reflexivity.
    + reflexivity.
    + vm_compute. discriminate.
  - apply (proj1 (proj2 (proj2 (proj2 (@commit_contract _ ToyGit.git
             MiniJson.module (lit "[AI-AGENT] fix tests") None None
             (ToyGit.fresh (ToyGit.working_copy (lit "main")))))))).
    reflexivity.
  - apply (proj2 (proj2 (proj2 (proj2 (@commit_contract _ ToyGit.git
             MiniJson.module (lit "fix tests") None None
             (ToyGit.fresh (ToyGit.working_copy (lit "main")))))))).
    reflexivity.
Defined.

(** C7, the claim as stated, fails on a message that starts with the tag
    but not with the tag and a space: [[AI-AGENT]fix] is committed as it
    is, so the committed message does not start with the tag followed by a
    space. *)
Lemma commit_prefix_counterexample :
  fst (commit (lit "[AI-AGENT]fix") None None
         (ToyGit.fresh (ToyGit.working_copy (lit "main"))))
  = Ret (Some (lit "9fceb02"))
  /\ ToyGit.commits
       (world (snd (commit (lit "[AI-AGENT]fix") None None
                      (ToyGit.fresh (ToyGit.working_copy (lit "main"))))))
     = [lit "[AI-AGENT]fix"]
  /\ startswith (lit "[AI-AGENT]fix") (lit "[AI-AGENT] ") = false.
Proof. repeat split; vm_compute; reflexivity. Qed.

End CommitFacts.

(** ** History records of the operations *)

Module HistoryRecords.
Import Rules PushPolicy.

Section Records.
Context {W : Type} {G : GitPython W} {J : JsonModule}.

Lemma push_history (remote : str) (branch : option str) (force : bool)
    (s : state W) :
  wp (GitAutomation.push remote branch force)
     (HistoryEffect.of_push remote force s) s.
Proof.
  unfold GitAutomation.push. wp_all; cbn; try reflexivity.
  all: do 2 eexists; reflexivity.
Qed.

Lemma commit_history (message : str) (author_name author_email : option str)
    (s : state W) :
  wp (GitAutomation.commit message author_name author_email)
     (HistoryEffect.of_commit s) s.
Proof.
  unfold GitAutomation.commit. wp_all; cbn; try reflexivity.
  all: do 3 eexists; reflexivity.
Qed.

Lemma create_branch_history (self : BranchManager.t)
    (branch_name base_branch : str) (checkout : bool) (s : state W) :
  wp (BranchManager.create_branch self branch_name base_branch checkout)
     (HistoryEffect.of_create_branch branch_name base_branch s) s.
Proof.
  unfold BranchManager.create_branch. wp_all; cbn; try reflexivity.
  all: eexists; reflexivity.
Qed.

Lemma clone_history_effect (base_dir repo_url : str) (branch : option str)
    (depth : option N) (s : state W) :
  wp (RepoCloner.clone_repository base_dir repo_url branch depth)
     (HistoryEffect.of_clone repo_url branch s) s.
Proof.
  unfold RepoCloner.clone_repository. wp_all; cbn; try reflexivity.
  all: eexists; reflexivity.
Qed.

(** C2 (as the code has it).  A push or commit that succeeds appends
    exactly one record to the automation history and runs
    [_save_operation] on the history file exactly once; a branch creation
    that succeeds appends exactly one record to the branch history; a
    clone appends exactly one record to the clone history when it succeeds
    and when it fails with a Git command error, the latter with status
    [failed] and the error text.  A push, commit or branch creation that
    fails, is refused or has nothing to do, and a clone that fails with
    another error, leave every history as it was.  Push, commit and
    branch creation never raise. *)
Theorem operation_history_records
    (self : BranchManager.t) (remote message branch_name base_branch : str)
    (base_dir repo_url : str) (branch author_name author_email : option str)
    (force checkout : bool) (depth : option N) (s : state W) :
  wp (GitAutomation.push remote branch force)
     (HistoryEffect.of_push remote force s) s
  /\ wp (GitAutomation.commit message author_name author_email)
        (HistoryEffect.of_commit s) s
  /\ wp (BranchManager.create_branch self branch_name base_branch checkout)
        (HistoryEffect.of_create_branch branch_name base_branch s) s
  /\ wp (RepoCloner.clone_repository base_dir repo_url branch depth)
        (HistoryEffect.of_clone repo_url branch s) s.
Proof.
  repeat split.
  - apply push_history.
  - apply commit_history.
  - apply create_branch_history.
  - apply clone_history_effect.
Qed.

End Records.

#[local] Existing Instance ToyGit.git.
#[local] Existing Instance MiniJson.module.

(** C2, the claim as stated, fails on a refused push: on branch main the
    push returns [False] and no record is appended, in memory or on
    disk. *)
Lemma refused_push_records_nothing :
  fst (GitAutomation.push (lit "origin") None false
         (ToyGit.fresh (ToyGit.working_copy (lit "main"))))
  = Ret false
  /\ automation_history
       (snd (GitAutomation.push (lit "origin") None false
               (ToyGit.fresh (ToyGit.working_copy (lit "main")))))
     = []
  /\ history_file
       (snd (GitAutomation.push (lit "origin") None false
               (ToyGit.fresh (ToyGit.working_copy (lit "main")))))
     = Some (lit "[]").
Proof. repeat split. Qed.

End HistoryRecords.

(** ** The history file: [_save_operation] and [_save_to_file] *)

Module HistoryFile.
Import GitAutomation.

Section Append.
Context {J : JsonModule}.

Lemma save_all_app (l1 l2 : list json) (file : option str) :
  save_all (l1 ++ l2) file = save_all l2 (save_all l1 file).
Proof. unfold save_all. apply fold_left_app. Qed.

Lemma save_never_raises (entry : json) (file : option str) :
  fst (_save_operation entry file) = Ret tt.
Proof. unfold _save_operation. destruct (result_bind _ _); reflexivity. Qed.

(** The first append, on a file that is absent, holds the empty array, or
    is blank. *)
Lemma save_on_blank (entry : json) (content : str) :
  truthy (strip content) = false ->
  _save_operation entry (Some content)
  = (Ret tt, Some (json_dumps (JList [entry]))).
Proof. intros H. unfold _save_operation. now rewrite H. Qed.

Lemma save_on_missing (entry : json) :
  _save_operation entry None = (Ret tt, Some (json_dumps (JList [entry]))).
Proof. reflexivity. Qed.

Lemma save_on_empty_array (entry : json) :
  json_loads (lit "[]") = Ret (JList []) ->
  _save_operation entry (Some (lit "[]"))
  = (Ret tt, Some (json_dumps (JList [entry]))).
Proof.
  intros H. unfold _save_operation.
  replace (truthy (strip (lit "[]"))) with true by (vm_compute; reflexivity).
  now rewrite H.
Qed.

(** An append on a file the json module wrote and reads back. *)
Lemma save_on_written (entry : json) (done : list json) :
  reads_back (JList done) ->
  _save_operation entry (Some (json_dumps (JList done)))
  = (Ret tt, Some (json_dumps (JList (done ++ [entry])))).
Proof. intros [Hload Hblank]. unfold _save_operation. now rewrite Hblank, Hload. Qed.

(** An append on text the json module rejects: the file stays as it is. *)
Lemma save_on_malformed (entry : json) (content : str) (e : exn) :
  truthy (strip content) = true ->
  json_loads content = Raise e ->
  _save_operation entry (Some content) = (Ret tt, Some content).
Proof. intros Hblank Hload. unfold _save_operation. now rewrite Hblank, Hload. Qed.

Lemma save_all_written (entries : list json) (file : option str) :
  json_loads (lit "[]") = Ret (JList []) ->
  (forall k, 0 < k <= List.length entries ->
             reads_back (JList (firstn k entries))) ->
  file = None \/ file = Some (lit "[]") ->
  save_all entries file
  = match entries with
    | [] => file
    | _ :: _ => Some (json_dumps (JList entries))
    end.
Proof.
  intros Hempty. induction entries as [|e l IH] using rev_ind;
    intros Hback Hfile; [reflexivity|].
  rewrite save_all_app. unfold save_all at 1. cbn [fold_left].
  assert (Hl : forall k, 0 < k <= List.length l ->
                         reads_back (JList (firstn k l))).
  { intros k Hk. specialize (Hback k).
    rewrite firstn_app in Hback.
    replace (k - List.length l) with 0 in Hback by lia.
    rewrite firstn_O, app_nil_r in Hback. apply Hback.
    rewrite length_app. cbn. lia. }
  rewrite (IH Hl Hfile).
  replace (match l ++ [e] with
           | [] => file
           | _ :: _ => Some (json_dumps (JList (l ++ [e])))
           end) with (Some (json_dumps (JList (l ++ [e]))))
    by (destruct l; reflexivity).
  destruct l as [|x l'].
  - destruct Hfile as [-> | ->].
    + now rewrite save_on_missing.
    + now rewrite save_on_empty_array.
  - rewrite save_on_written; [reflexivity|].
    specialize (Hl (List.length (x :: l'))). rewrite firstn_all in Hl.
    apply Hl. cbn. lia.
Qed.

(** C3 (as the code has it).  Provided the json module reads the empty
    array and reads back the arrays written: after any sequence of appends
    to a fresh or missing history file, the file holds the array of
    exactly these entries, in the order of the appends.  An append never
    raises.  On an existing file that is blank the new entry becomes the
    only element; on an existing file the json module rejects, the file is
    left as it is and the entry is not written.  [_save_to_file] of the
    branch manager is the same function. *)
Theorem history_append_contract (entries : list json) (file : option str)
    (content : str) (entry : json) :
  json_loads (lit "[]") = Ret (JList []) ->
  (forall k, 0 < k <= List.length entries ->
             reads_back (JList (firstn k entries))) ->
  (file = None \/ file = Some (lit "[]") ->
   read_history (save_all entries file) = Ret (JList entries))
  /\ fst (_save_operation entry file) = Ret tt
  /\ (truthy (strip content) = false ->
      _save_operation entry (Some content)
      = (Ret tt, Some (json_dumps (JList [entry]))))
  /\ (truthy (strip content) = true ->
      forall e, json_loads content = Raise e ->
      _save_operation entry (Some content) = (Ret tt, Some content))
  /\ BranchManager._save_to_file entry file = _save_operation entry file.
Proof.
  intros Hempty Hback. repeat split.
  - intros Hfile. rewrite (save_all_written entries file Hempty Hback Hfile).
    destruct entries as [|x l].
    + destruct Hfile as [-> | ->]; [reflexivity|].
      unfold read_history.
      replace (truthy (strip (lit "[]"))) with true by (vm_compute; reflexivity).
      exact Hempty.
    + specialize (Hback (List.length (x :: l))). rewrite firstn_all in Hback.
      destruct Hback as [Hload Hblank]; [cbn; lia|].
      unfold read_history. now rewrite Hblank.
  - apply save_never_raises.
  - apply save_on_blank.
  - intros Hblank e. now apply save_on_malformed.
Qed.

End Append.

#[local] Existing Instance MiniJson.module.

Lemma history_append_contract_witness :
  read_history
    (save_all
       [commit_record (lit "2026-02-19T10:00:00") (lit "9fceb02")
          (lit "[AI-AGENT] fix tests") (lit "RIFT_SAIYAM_AI_Fix");
        push_record (lit "2026-02-19T10:00:01") (lit "origin")
          (lit "RIFT_SAIYAM_AI_Fix") false]
       None)
  = Ret (JList
           [commit_record (lit "2026-02-19T10:00:00") (lit "9fceb02")
              (lit "[AI-AGENT] fix tests") (lit "RIFT_SAIYAM_AI_Fix");
            push_record (lit "2026-02-19T10:00:01") (lit "origin")
              (lit "RIFT_SAIYAM_AI_Fix") false]).
Proof.
  apply (proj1 (@history_append_contract MiniJson.module
           [commit_record (lit "2026-02-19T10:00:00") (lit "9fceb02")
              (lit "[AI-AGENT] fix tests") (lit "RIFT_SAIYAM_AI_Fix");
            push_record (lit "2026-02-19T10:00:01") (lit "origin")
              (lit "RIFT_SAIYAM_AI_Fix") false]
           None [] JNull
           ltac:(vm_compute; reflexivity)
           ltac:(intros [|[|[|k]]] Hk; cbn in Hk; try lia;
                 split; vm_compute; reflexivity))).
  left. reflexivity.
Defined.

(** C3, the claim as stated, fails on malformed content: an append on a
    file holding [{oops] leaves the file as it is; the entry is not
    written, so it does not become the sole element. *)
Lemma malformed_history_counterexample :
  truthy (strip (lit "{oops")) = true
  /\ json_loads (lit "{oops") = Raise (OtherError (lit "JSONDecodeError"))
  /\ _save_operation (JDict [(lit "action", JStr (lit "push"))])
       (Some (lit "{oops"))
     = (Ret tt, Some (lit "{oops"))
  /\ read_history
       (snd (_save_operation (JDict [(lit "action", JStr (lit "push"))])
               (Some (lit "{oops"))))
     <> Ret (JList [JDict [(lit "action", JStr (lit "push"))]]).
Proof.
  repeat split; try (vm_compute; reflexivity).
  vm_compute. discriminate.
Qed.

End HistoryFile.

(** ** [GitAutomation.automated_commit_push] *)

Module WorkflowFacts.
Import GitAutomation Workflow Rules PushPolicy HistoryRecords.

Section Flow.
Context {W : Type} {G : GitPython W} {J : JsonModule}.

Lemma calls_within_refl (P : call -> bool) (s : state W) : calls_within P s s.
Proof. exists []. split; [symmetry; apply app_nil_r | reflexivity]. Qed.

Lemma calls_within_trans (P : call -> bool) (s1 s2 s3 : state W) :
  calls_within P s1 s2 -> calls_within P s2 s3 -> calls_within P s1 s3.
Proof.
  intros (n1 & H1 & P1) (n2 & H2 & P2). exists (n1 ++ n2). split.
  - now rewrite H2, H1, app_assoc.
  - rewrite forallb_app. now rewrite P1, P2.
Qed.

Lemma calls_within_weaken (P P' : call -> bool) (s s' : state W) :
  (forall c, P c = true -> P' c = true) ->
  calls_within P s s' -> calls_within P' s s'.
Proof.
  intros HP (new & H & Hall). exists new. split; [exact H|].
  rewrite forallb_forall in *. auto.
Qed.

Ltac close_calls :=
  first
    [ apply calls_within_refl
    | unfold calls_within; cbn [calls log_call set_world];
      rewrite <- ?app_assoc; eexists; split; [reflexivity | reflexivity] ].

Ltac splits := repeat match goal with |- _ /\ _ => split end.

(** The steps never raise, [ensure_ai_fix_branch] apart, and each makes
    only calls of its own. *)
Lemma add_files_run (files : option (list str)) (add_all : bool) (s : state W) :
  wp (add_files files add_all)
     (fun r s' => (exists b, r = Ret b) /\ calls_within stage_call s s') s.
Proof.
  unfold add_files. wp_all; (split; [eexists; reflexivity | close_calls]).
Qed.

Lemma commit_run (message : str) (an ae : option str) (s : state W) :
  wp (commit message an ae)
     (fun r s' => (exists c, r = Ret c)
                  /\ calls_within (fun c => commit_call c || branch_call c) s s') s.
Proof.
  unfold commit. wp_all; (split; [eexists; reflexivity | close_calls]).
Qed.

Lemma push_run (remote : str) (branch : option str) (force : bool)
    (s : state W) :
  wp (push remote branch force)
     (fun r s' => (exists b, r = Ret b)
                  /\ calls_within (fun c => push_call c || branch_call c) s s') s.
Proof.
  unfold push. wp_all; (split; [eexists; reflexivity | close_calls]).
Qed.

Lemma ensure_run (self : GitAutomation.t) (team leader base : option str)
    (s : state W) :
  wp (ensure_ai_fix_branch self team leader base)
     (fun _ s' => calls_within branch_call s s') s.
Proof.
  unfold ensure_ai_fix_branch, BranchManager.create_branch.
  wp_all; close_calls.
Qed.

(** What a run of a step is, from its [wp] facts. *)
Lemma ensure_cases (self : GitAutomation.t) (s : state W) :
  exists r s1, ensure_ai_fix_branch self None None None s = (r, s1)
               /\ calls_within branch_call s s1.
Proof. apply (wp_run _ _ _ (ensure_run self None None None s)). Qed.

Lemma add_files_cases (add_all : bool) (s : state W) :
  exists b s2, add_files None add_all s = (Ret b, s2)
               /\ calls_within stage_call s s2.
Proof.
  destruct (wp_run _ _ _ (add_files_run None add_all s))
    as (r & s2 & Hrun & (b & ->) & Hc).
  now exists b, s2.
Qed.

Lemma commit_cases (message : str) (s : state W) :
  exists c s3, commit message None None s = (Ret c, s3)
               /\ calls_within (fun c => commit_call c || branch_call c) s s3.
Proof.
  destruct (wp_run _ _ _ (commit_run message None None s))
    as (r & s3 & Hrun & (c & ->) & Hc).
  now exists c, s3.
Qed.

Lemma push_cases (remote : str) (s : state W) :
  exists b s4, push remote None false s = (Ret b, s4)
               /\ calls_within (fun c => push_call c || branch_call c) s s4.
Proof.
  destruct (wp_run _ _ _ (push_run remote None false s))
    as (r & s4 & Hrun & (b & ->) & Hc).
  now exists b, s4.
Qed.

(** The runs of [automated_commit_push]: it never raises, and a run is
    one of the four of [run]; the calls made say where it stopped. *)
Lemma automated_commit_push_runs (self : GitAutomation.t) (message : str)
    (add_all : bool) (remote : str) (s : state W) :
  exists (res : results) (s' : state W),
    automated_commit_push self message add_all remote s = (Ret res, s')
    /\ run self message add_all remote s res s'
    /\ (r_add res = false ->
        calls_within (fun c => branch_call c || stage_call c) s s')
    /\ (r_commit res = None ->
        calls_within
          (fun c => branch_call c || stage_call c || commit_call c) s s')
    /\ (r_push res = true -> r_commit res <> None)
    /\ (r_commit res <> None -> r_add res = true).
Proof.
  destruct (ensure_cases self s) as (r1 & s1 & He & Hc1).
  unfold automated_commit_push, bind, try_except, now.
  rewrite He. destruct r1 as [b|e].
  2:{ (* the branch step failed *)
    exists (outcome s false None false), s1. cbn. splits.
    - reflexivity.
    - eapply stop_at_branch; eassumption.
    - intros _. eapply calls_within_weaken; [|exact Hc1].
      intros c ->. reflexivity.
    - intros _. eapply calls_within_weaken; [|exact Hc1].
      intros c ->. reflexivity.
    - discriminate.
    - congruence. }
  cbn [ret negb].
  destruct (add_files_cases add_all s1) as (added & s2 & Ha & Hc2).
  rewrite Ha.
  assert (Hc12 : calls_within (fun c => branch_call c || stage_call c) s s2).
  { eapply calls_within_trans;
      (eapply calls_within_weaken; [|eassumption]); intros c ->;
      [reflexivity | apply orb_true_r]. }
  destruct added.
  2:{ (* staging failed *)
    exists (outcome s false None false), s2. cbn. splits.
    - reflexivity.
    - eapply stop_at_stage; eassumption.
    - intros _. exact Hc12.
    - intros _. eapply calls_within_weaken; [|exact Hc12].
      intros c ->. reflexivity.
    - discriminate.
    - congruence. }
  cbn [negb].
  destruct (commit_cases message s2) as (c & s3 & Hcm & Hc3).
  rewrite Hcm.
  assert (Hc13 : calls_within
            (fun c => branch_call c || stage_call c || commit_call c) s s3).
  { eapply calls_within_trans;
      (eapply calls_within_weaken; [|eassumption]); intros c0 H.
    - now rewrite H.
    - cbv beta in H. apply orb_true_iff in H as [-> | ->];
        [apply orb_true_r | reflexivity]. }
  destruct c as [[|c0 h]|].
  3:{ (* nothing committed *)
    exists (outcome s true None false), s3. cbn. splits.
    - reflexivity.
    - eapply stop_at_commit; eauto.
    - discriminate.
    - intros _. exact Hc13.
    - discriminate.
    - congruence. }
  { (* an empty hash is no hash *)
    exists (outcome s true None false), s3. cbn. splits.
    - reflexivity.
    - eapply stop_at_commit; eauto.
    - discriminate.
    - intros _. exact Hc13.
    - discriminate.
    - congruence. }
  destruct (push_cases remote s3) as (pushed & s4 & Hp & Hc4).
  rewrite Hp.
  exists (outcome s true (Some (c0 :: h)) pushed), s4. splits.
  - now destruct pushed.
  - eapply through_push; eauto. discriminate.
  - discriminate.
  - discriminate.
  - discriminate.
  - reflexivity.
Qed.

(** C8 (as the code has it). [automated_commit_push] never raises and
    runs its four steps in order, each on the state the one before left:
    ensure the AI fix branch, stage, commit, push.  It goes on to a step
    only when the one before succeeded and stops at the first that fails.
    The result records the staging, commit and push steps: [add] is set
    only once staging succeeded, [commit] only once the commit gave a
    hash, [push] only once the push succeeded, and a step not reached
    keeps its initial entry: with [add] unset no library call of the
    commit or push steps was made, and with [commit] unset no push on a
    remote.  The result has no entry for the branch step: a run stopped at
    the branch step and a run stopped at staging both return the initial
    result. *)
Theorem automated_commit_push_gated (self : GitAutomation.t) (message : str)
    (add_all : bool) (remote : str) (s : state W) :
  exists (res : results) (s' : state W),
    automated_commit_push self message add_all remote s = (Ret res, s')
    /\ run self message add_all remote s res s'
    /\ (r_add res = false ->
        calls_within (fun c => branch_call c || stage_call c) s s')
    /\ (r_commit res = None ->
        calls_within
          (fun c => branch_call c || stage_call c || commit_call c) s s')
    /\ (r_push res = true -> r_commit res <> None)
    /\ (r_commit res <> None -> r_add res = true)
    /\ (forall e s1,
          ensure_ai_fix_branch self None None None s = (Raise e, s1) ->
          res = outcome s false None false /\ s' = s1)
    /\ (forall b s1 s2,
          ensure_ai_fix_branch self None None None s = (Ret b, s1) ->
          add_files None add_all s1 = (Ret false, s2) ->
          res = outcome s false None false /\ s' = s2).
Proof.
  destruct (automated_commit_push_runs self message add_all remote s)
    as (res & s' & Hrun & Hshape & Hadd & Hcommit & Hpush & Hgate).
  exists res, s'.
  split; [exact Hrun|]. split; [exact Hshape|]. split; [exact Hadd|].
  split; [exact Hcommit|]. split; [exact Hpush|]. split; [exact Hgate|].
  unfold automated_commit_push, bind, try_except, now in Hrun. split.
  - intros e s1 He. rewrite He in Hrun. cbn in Hrun.
    injection Hrun as <- <-. split; reflexivity.
  - intros b s1 s2 He Ha. rewrite He in Hrun. cbn [ret negb] in Hrun.
    rewrite Ha in Hrun. cbn in Hrun.
    injection Hrun as <- <-. split; reflexivity.
Qed.

End Flow.

#[local] Existing Instance ToyGit.git.
#[local] Existing Instance MiniJson.module.

(** C8, the claim as stated, fails on the branch step: the result does not
    record whether it completed.  On a detached HEAD the branch step
    raises and the workflow stops there, having only asked for the current
    branch; on branch main the branch step goes through, the AI fix branch
    is created and checked out, and the workflow stops at staging, with
    nothing to stage.  Both runs return the same result. *)
Lemma branch_step_not_recorded :
  fst (ensure_ai_fix_branch
         (GitAutomation.init
            {| BranchManager.TEAM_NAME := None;
               BranchManager.LEADER_NAME := None;
               BranchManager.DEFAULT_BRANCH := None |} true)
         None None None
         (ToyGit.fresh
            (ToyGit.with_branch None (ToyGit.working_copy (lit "main")))))
  = Raise (OtherError (lit "TypeError: HEAD is detached"))
  /\ fst (ensure_ai_fix_branch
            (GitAutomation.init
               {| BranchManager.TEAM_NAME := None;
                  BranchManager.LEADER_NAME := None;
                  BranchManager.DEFAULT_BRANCH := None |} true)
            None None None
            (ToyGit.fresh (ToyGit.working_copy (lit "main"))))
     = Ret (lit "RIFT_ORGANISERS_SAIYAM_KUMAR_AI_Fix")
  /\ fst (automated_commit_push
            (GitAutomation.init
               {| BranchManager.TEAM_NAME := None;
                  BranchManager.LEADER_NAME := None;
                  BranchManager.DEFAULT_BRANCH := None |} true)
            (lit "fix tests") false (lit "origin")
            (ToyGit.fresh
               (ToyGit.with_branch None (ToyGit.working_copy (lit "main")))))
     = fst (automated_commit_push
              (GitAutomation.init
                 {| BranchManager.TEAM_NAME := None;
                    BranchManager.LEADER_NAME := None;
                    BranchManager.DEFAULT_BRANCH := None |} true)
              (lit "fix tests") false (lit "origin")
              (ToyGit.fresh (ToyGit.working_copy (lit "main"))))
  /\ calls (snd (automated_commit_push
                   (GitAutomation.init
                      {| BranchManager.TEAM_NAME := None;
                         BranchManager.LEADER_NAME := None;
                         BranchManager.DEFAULT_BRANCH := None |} true)
                   (lit "fix tests") false (lit "origin")
                   (ToyGit.fresh
                      (ToyGit.with_branch None
                         (ToyGit.working_copy (lit "main"))))))
     = [CActiveBranch]
  /\ ToyGit.branch
       (world (snd (automated_commit_push
                      (GitAutomation.init
                         {| BranchManager.TEAM_NAME := None;
                            BranchManager.LEADER_NAME := None;
                            BranchManager.DEFAULT_BRANCH := None |} true)
                      (lit "fix tests") false (lit "origin")
                      (ToyGit.fresh (ToyGit.working_copy (lit "main"))))))
     = Some (lit "RIFT_ORGANISERS_SAIYAM_KUMAR_AI_Fix").
Proof. repeat split; vm_compute; reflexivity. Qed.

End WorkflowFacts.

(** ** [RepoCloner.clone_repository] *)

Module CloneFacts.
Import RepoCloner Rules HistoryRecords.

(** Where the last segment of the URL has [.git] at its end only, the
    directory name is the segment without it. *)
Example repo_name_of_plain :
  repo_name_of (lit "https://github.com/deoprakash/New.git") = lit "New"
  /\ repo_name_of (lit "https://github.com/deoprakash/New") = lit "New".
Proof. split; vm_compute; reflexivity. Qed.

(** C9, at the failing input.  The claim derives the directory name from
    the last segment of the URL with a [.git] suffix stripped and the rest
    unchanged, so octocat.github.io for
    https://github.com/octocat/octocat.github.io.git; the code removes
    every occurrence of [.git], also the one inside [.github], and
    computes octocathub.io. *)
Theorem repo_name_of_github_pages :
  last_item (split (lit "https://github.com/octocat/octocat.github.io.git")
                   (lit "/"))
  = lit "octocat.github.io.git"
  /\ repo_name_of (lit "https://github.com/octocat/octocat.github.io.git")
     = lit "octocathub.io".
Proof. split; vm_compute; reflexivity. Qed.

Section Clone.
Context {W : Type} {G : GitPython W}.

(** An existing destination is removed before the clone: the clone runs
    on the world [rmtree] left. *)
Lemma clone_replaces_existing (base_dir repo_url : str)
    (branch : option str) (depth : option N) (s : state W) :
  let clone_path := path_join base_dir (repo_name_of repo_url) in
  let kw_branch :=
    match branch with Some (c :: b) => Some (c :: b) | _ => None end in
  let kw_depth :=
    match depth with Some 0%N | None => None | Some d => Some d end in
  path_exists clone_path (world s) = Ret true ->
  fst (rmtree clone_path (world s)) = Ret tt ->
  wp (clone_repository base_dir repo_url branch depth)
     (fun _ s' =>
        calls s' = calls s ++ [CPathExists clone_path; CRmtree clone_path;
                               CCloneFrom repo_url clone_path kw_branch kw_depth]
        /\ world s'
           = snd (clone_from repo_url clone_path kw_branch kw_depth
                    (snd (rmtree clone_path (world s))))) s.
Proof.
  cbv zeta. intros Hthere Hrm. unfold clone_repository.
  repeat first
    [ wp_step
    | apply wp_append_clone_history
    | progress (cbn [world log_call set_world]; rewrite ?Hthere, ?Hrm)
    | wp_case ].
  all: cbn; now rewrite <- !app_assoc.
Qed.

End Clone.

End CloneFacts.

(** ** More on branch naming *)

Module NamingFacts.
Import BranchManager PyStrFacts BranchNaming NameSpec.

Lemma assoc_In {B : Type} (c : char) (tbl : list (N * B)) (v : B) :
  assoc c tbl = Some v -> In (c, v) tbl.
Proof.
  induction tbl as [|[k w] rest IH]; cbn; [discriminate|].
  destruct (N.eqb_spec k c) as [->|_].
  - intros [= ->]. now left.
  - intros H. right. now apply IH.
Qed.

(** No upper-case mapping of the tables produces an ASCII character other
    than a capital letter. *)
Lemma upper_tables_ascii_part :
  forallb (fun p => forallb ascii_part_ok (snd p)) UnicodeData.upper_full = true
  /\ forallb (fun p => ascii_part_ok (snd p)) UnicodeData.upper_single = true.
Proof. split; vm_compute; reflexivity. Qed.

Lemma upper_char_ascii_part (c : char) :
  (isalnum c || char_eqb c underscore) = true ->
  forallb ascii_part_ok (upper_char c) = true.
Proof.
  intros Hkeep. destruct (N.ltb_spec c 128) as [Hlt|Hge].
  - pose proof (ascii_kept_upper c Hlt Hkeep) as Htok.
    rewrite forallb_forall in *. intros d Hd. unfold ascii_part_ok.
    rewrite (Htok d Hd). apply implb_true_r.
  - destruct upper_tables_ascii_part as [Hfull Hsingle].
    unfold upper_char.
    destruct (assoc c UnicodeData.upper_full) as [u|] eqn:Hf.
    + apply assoc_In in Hf. rewrite forallb_forall in Hfull.
      apply (Hfull _ Hf).
    + destruct (assoc c UnicodeData.upper_single) as [u|] eqn:Hs.
      * apply assoc_In in Hs. rewrite forallb_forall in Hsingle.
        pose proof (Hsingle _ Hs) as Hu. cbn in Hu |- *. now rewrite Hu.
      * cbn. unfold ascii_part_ok, is_ascii.
        replace (c <? 128)%N with false
          by (symmetry; apply N.ltb_ge; exact Hge).
        reflexivity.
Qed.

(** X1. Whatever the argument, ASCII or not, every ASCII character of the
    result of [_normalize_name] is in [[A-Z0-9_]]: the result holds no
    space, no ASCII punctuation, no control character and no lower-case
    ASCII letter. *)
Theorem normalize_name_ascii_part (value : option str) :
  forallb ascii_part_ok (_normalize_name value) = true.
Proof.
  destruct value as [s|]; [|reflexivity].
  unfold _normalize_name, upper. apply forallb_forall.
  intros d Hd. apply in_flat_map in Hd as (c & Hc & Hd).
  apply filter_In in Hc as [_ Hkeep].
  pose proof (upper_char_ascii_part c Hkeep) as H.
  rewrite forallb_forall in H. now apply H.
Qed.

(** X2. The canonical branch name is never main or master, whatever the
    team and leader are: the push policy never refuses it. *)
Theorem generate_branch_name_not_protected (self : BranchManager.t)
    (team leader : option str) :
  GitAutomation.protected_branch (generate_branch_name self team leader)
  = false.
Proof.
  destruct (GitAutomation.protected_branch _) eqn:Hp; [|reflexivity].
  apply PushPolicy.protected_branch_spec in Hp.
  assert (Hlast : last (generate_branch_name self team leader) 0%N = 120%N).
  { unfold generate_branch_name.
    change BRANCH_SUFFIX with ([65; 73; 95; 70; 105] ++ [120])%N.
    rewrite !app_assoc. apply last_last. }
  destruct Hp as [Hp|Hp]; rewrite Hp in Hlast; vm_compute in Hlast;
    discriminate.
Qed.

(** *** Letter case *)

Lemma ascii_upper_table (c : char) :
  (c < 128)%N ->
  upper_char c = [ascii_upper c]
  /\ isspace (ascii_upper c) = isspace c
  /\ char_eqb (ascii_upper c) space = char_eqb c space
  /\ (isalnum (ascii_upper c) || char_eqb (ascii_upper c) underscore)
     = (isalnum c || char_eqb c underscore)
  /\ upper_char (ascii_upper c) = [ascii_upper c].
Proof.
  intros Hc.
  pose (P := fun c =>
    str_eqb (upper_char c) [ascii_upper c]
    && Bool.eqb (isspace (ascii_upper c)) (isspace c)
    && Bool.eqb (char_eqb (ascii_upper c) space) (char_eqb c space)
    && Bool.eqb (isalnum (ascii_upper c) || char_eqb (ascii_upper c) underscore)
                (isalnum c || char_eqb c underscore)
    && str_eqb (upper_char (ascii_upper c)) [ascii_upper c]).
  assert (HP : P c = true)
    by (apply (below_checked P 128); [vm_compute; reflexivity | exact Hc]).
  unfold P in HP. repeat (apply andb_true_iff in HP as [HP ?]).
  repeat split;
    first [ now apply str_eqb_eq | now apply Bool.eqb_prop ].
Qed.

Lemma startswith_nil (s : str) : startswith s [] = true.
Proof. destruct s; reflexivity. Qed.

(** One step of replacing a single character. *)
Lemma replace_char_step (a c : char) (new t : str) :
  replace_from [a] new 0 (c :: t)
  = if char_eqb c a then new ++ replace_from [a] new 0 t
    else c :: replace_from [a] new 0 t.
Proof.
  cbn [replace_from startswith List.length Nat.sub].
  now rewrite startswith_nil, andb_true_r.
Qed.

Lemma upper_ascii_map (s : str) :
  Forall (fun c => (c < 128)%N) s -> upper s = map ascii_upper s.
Proof.
  unfold upper. induction 1 as [|c t Hc Ht IH]; [reflexivity|].
  cbn [flat_map map]. destruct (ascii_upper_table c Hc) as (-> & _).
  cbn [app]. now rewrite IH.
Qed.

Lemma lstrip_ascii_map (s : str) :
  Forall (fun c => (c < 128)%N) s ->
  lstrip (map ascii_upper s) = map ascii_upper (lstrip s).
Proof.
  induction 1 as [|c t Hc Ht IH]; [reflexivity|].
  cbn [map lstrip]. destruct (ascii_upper_table c Hc) as (_ & -> & _).
  destruct (isspace c); [exact IH | reflexivity].
Qed.

Lemma replace_ascii_map (s : str) :
  Forall (fun c => (c < 128)%N) s ->
  replace (map ascii_upper s) [space] [underscore]
  = map ascii_upper (replace s [space] [underscore]).
Proof.
  unfold replace. induction 1 as [|c t Hc Ht IH]; [reflexivity|].
  cbn [map]. rewrite !replace_char_step.
  destruct (ascii_upper_table c Hc) as (_ & _ & -> & _).
  destruct (char_eqb c space); cbn [map app]; now rewrite IH.
Qed.

Lemma filter_ascii_map (s : str) :
  Forall (fun c => (c < 128)%N) s ->
  filter (fun ch => isalnum ch || char_eqb ch underscore) (map ascii_upper s)
  = map ascii_upper
      (filter (fun ch => isalnum ch || char_eqb ch underscore) s).
Proof.
  induction 1 as [|c t Hc Ht IH]; [reflexivity|].
  cbn [map filter]. destruct (ascii_upper_table c Hc) as (_ & _ & _ & -> & _).
  destruct (isalnum c || char_eqb c underscore); cbn [map]; now rewrite IH.
Qed.

Lemma upper_of_ascii_map (s : str) :
  Forall (fun c => (c < 128)%N) s -> upper (map ascii_upper s) = upper s.
Proof.
  unfold upper. induction 1 as [|c t Hc Ht IH]; [reflexivity|].
  cbn [map flat_map]. destruct (ascii_upper_table c Hc) as (-> & _ & _ & _ & ->).
  now rewrite IH.
Qed.

Lemma strip_ascii_map (s : str) :
  Forall (fun c => (c < 128)%N) s ->
  strip (map ascii_upper s) = map ascii_upper (strip s).
Proof.
  intros Hs. unfold strip, rstrip.
  rewrite lstrip_ascii_map by exact Hs.
  rewrite <- map_rev, lstrip_ascii_map, map_rev; [reflexivity|].
  now apply Forall_rev, lstrip_Forall.
Qed.

Lemma normalize_upper_ascii (s : str) :
  Forall (fun c => (c < 128)%N) s ->
  _normalize_name (Some (upper s)) = _normalize_name (Some s).
Proof.
  intros Hs. unfold _normalize_name.
  rewrite (upper_ascii_map s Hs), strip_ascii_map by exact Hs.
  assert (H1 : Forall (fun c => (c < 128)%N) (strip s))
    by now apply strip_Forall.
  rewrite replace_ascii_map by exact H1.
  assert (H2 : Forall (fun c => (c < 128)%N)
                 (replace (strip s) [space] [underscore])).
  { apply replace_Forall; [discriminate | | exact H1].
    constructor; [reflexivity | constructor]. }
  rewrite filter_ascii_map by exact H2.
  apply upper_of_ascii_map.
  apply Forall_forall. intros c Hc. apply filter_In in Hc as [Hc _].
  rewrite Forall_forall in H2. now apply H2.
Qed.

(** X3. ASCII names that differ only in the case of their letters (their
    upper-case forms are equal) are normalized to the same token. *)
Theorem normalize_name_ignores_case (a b : str) :
  ascii_only (Some a) = true -> ascii_only (Some b) = true ->
  upper a = upper b ->
  _normalize_name (Some a) = _normalize_name (Some b).
Proof.
  intros Ha Hb Hab.
  rewrite <- (normalize_upper_ascii a) by now apply ascii_only_Forall.
  rewrite <- (normalize_upper_ascii b) by now apply ascii_only_Forall.
  now rewrite Hab.
Qed.

Lemma normalize_name_ignores_case_witness :
  _normalize_name (Some (lit "Code Warriors"))
  = _normalize_name (Some (lit "CODE WARRIORS")).
Proof.
  apply (normalize_name_ignores_case (lit "Code Warriors")
           (lit "CODE WARRIORS")); vm_compute; reflexivity.
Defined.

(** *** Surrounding white space *)

Lemma lstrip_spaces_app (pre x : str) :
  forallb isspace pre = true -> lstrip (pre ++ x) = lstrip x.
Proof.
  induction pre as [|c pre IH]; [reflexivity|]. cbn [app lstrip forallb].
  intros H. apply andb_true_iff in H as [-> H]. now apply IH.
Qed.

Lemma lstrip_spaces (post : str) : forallb isspace post = true -> lstrip post = [].
Proof.
  intros H. rewrite <- (app_nil_r post). now rewrite lstrip_spaces_app.
Qed.

Lemma rstrip_app_spaces (x post : str) :
  forallb isspace post = true -> rstrip (x ++ post) = rstrip x.
Proof.
  intros H. unfold rstrip. rewrite rev_app_distr, lstrip_spaces_app;
    [reflexivity|].
  rewrite forallb_forall in *. intros c Hc. apply H. now apply in_rev.
Qed.

Lemma lstrip_app_spaces (s post : str) :
  forallb isspace post = true ->
  lstrip (s ++ post) = lstrip s ++ post
  \/ (lstrip s = [] /\ lstrip (s ++ post) = []).
Proof.
  intros H. induction s as [|c t IH]; cbn [app lstrip].
  - right. split; [reflexivity | now apply lstrip_spaces].
  - destruct (isspace c); [exact IH | now left].
Qed.

Lemma strip_surrounded (pre s post : str) :
  forallb isspace pre = true -> forallb isspace post = true ->
  strip (pre ++ s ++ post) = strip s.
Proof.
  intros Hpre Hpost. unfold strip. rewrite lstrip_spaces_app by exact Hpre.
  destruct (lstrip_app_spaces s post Hpost) as [-> | [-> ->]].
  - now apply rstrip_app_spaces.
  - reflexivity.
Qed.

(** X4. White space around a name is ignored, whichever white space
    characters of Unicode it is made of: only the name between them is
    normalized. *)
Theorem normalize_name_ignores_surrounding_space (pre s post : str) :
  forallb isspace pre = true -> forallb isspace post = true ->
  _normalize_name (Some (pre ++ s ++ post)) = _normalize_name (Some s).
Proof.
  intros Hpre Hpost. unfold _normalize_name.
  now rewrite strip_surrounded.
Qed.

Lemma normalize_name_ignores_surrounding_space_witness :
  _normalize_name (Some ([9; 32; 0xA0]%N ++ lit "Team One" ++ [32; 10]%N))
  = _normalize_name (Some (lit "Team One")).
Proof.
  apply (normalize_name_ignores_surrounding_space [9; 32; 0xA0]%N
           (lit "Team One") [32; 10]%N); vm_compute; reflexivity.
Defined.

End NamingFacts.

(** ** More on the history files *)

Module HistoryFacts.
Import GitAutomation Rules HistoryFile HistoryRecords.

Section Files.
Context {J : JsonModule}.


End Files.

Section Overwrite.
Context {W : Type} {G : GitPython W} {J : JsonModule}.

(** X6. [save_automation_history] replaces the history file by the
    in-memory history.  After a successful push on a file that held
    earlier entries, the file holds these entries and the push record;
    after [save_automation_history] it holds only what the object itself
    recorded: entries of earlier runs are gone. *)
Theorem save_automation_history_replaces_file
    (remote : str) (branch : option str) (force : bool)
    (s s1 : state W) (prior : list json) :
  history_file s = Some (json_dumps (JList prior)) ->
  reads_back (JList prior) ->
  push remote branch force s = (Ret true, s1) ->
  exists record,
    automation_history s1 = automation_history s ++ [record]
    /\ history_file s1 = Some (json_dumps (JList (prior ++ [record])))
    /\ history_file (snd (GitOps.save_automation_history s1))
       = Some (json_dumps (JList (automation_history s ++ [record]))).
Proof.
  intros Hfile Hback Hpush.
  pose proof (push_history remote branch force s) as H.
  unfold wp in H. rewrite Hpush in H. cbn in H.
  destruct H as (timestamp & b & H). unfold histories in H.
  injection H as Hmem Hdisk _ _.
  exists (push_record timestamp remote b force). repeat split.
  - exact Hmem.
  - rewrite Hdisk, Hfile, save_on_written by exact Hback. reflexivity.
  - cbn. now rewrite Hmem.
Qed.

End Overwrite.

#[local] Existing Instance ToyGit.git.
#[local] Existing Instance MiniJson.module.

Lemma save_automation_history_replaces_file_witness :
  exists record,
    automation_history
      (snd (push (lit "origin") (Some (lit "RIFT_SAIYAM_AI_Fix")) false
              {| world := ToyGit.working_copy (lit "RIFT_SAIYAM_AI_Fix");
                 calls := []; automation_history := [];
                 history_file :=
                   Some (json_dumps
                           (JList [commit_record (lit "2026-02-18T09:00:00")
                                     (lit "1a2b3c4") (lit "[AI-AGENT] old")
                                     (lit "RIFT_SAIYAM_AI_Fix")]));
                 branch_history := []; clone_history := [] |}))
    = [] ++ [record]
    /\ history_file
         (snd (push (lit "origin") (Some (lit "RIFT_SAIYAM_AI_Fix")) false
                 {| world := ToyGit.working_copy (lit "RIFT_SAIYAM_AI_Fix");
                    calls := []; automation_history := [];
                    history_file :=
                      Some (json_dumps
                              (JList [commit_record (lit "2026-02-18T09:00:00")
                                        (lit "1a2b3c4") (lit "[AI-AGENT] old")
                                        (lit "RIFT_SAIYAM_AI_Fix")]));
                    branch_history := []; clone_history := [] |}))
       = Some (json_dumps
                 (JList ([commit_record (lit "2026-02-18T09:00:00")
                            (lit "1a2b3c4") (lit "[AI-AGENT] old")
                            (lit "RIFT_SAIYAM_AI_Fix")] ++ [record])))
    /\ history_file
         (snd (GitOps.save_automation_history
                 (snd (push (lit "origin") (Some (lit "RIFT_SAIYAM_AI_Fix"))
                         false
                         {| world :=
                              ToyGit.working_copy (lit "RIFT_SAIYAM_AI_Fix");
                            calls := []; automation_history := [];
                            history_file :=
                              Some (json_dumps
                                      (JList [commit_record
                                                (lit "2026-02-18T09:00:00")
                                                (lit "1a2b3c4")
                                                (lit "[AI-AGENT] old")
                                                (lit "RIFT_SAIYAM_AI_Fix")]));
                            branch_history := []; clone_history := [] |}))))
       = Some (json_dumps (JList ([] ++ [record]))).
Proof.
  apply (@save_automation_history_replaces_file _ ToyGit.git MiniJson.module
           (lit "origin") (Some (lit "RIFT_SAIYAM_AI_Fix")) false
           {| world := ToyGit.working_copy (lit "RIFT_SAIYAM_AI_Fix");
              calls := []; automation_history := [];
              history_file :=
                Some (json_dumps
                        (JList [commit_record (lit "2026-02-18T09:00:00")
                                  (lit "1a2b3c4") (lit "[AI-AGENT] old")
                                  (lit "RIFT_SAIYAM_AI_Fix")]));
              branch_history := []; clone_history := [] |}
           _
           [commit_record (lit "2026-02-18T09:00:00") (lit "1a2b3c4")
              (lit "[AI-AGENT] old") (lit "RIFT_SAIYAM_AI_Fix")]).
  - reflexivity.
  - split; vm_compute; reflexivity.
  - apply surjective_pairing.
Defined.

End HistoryFacts.

(** ** More on the workflows *)

Module WorkflowMore.
Import GitAutomation Workflow Rules PushPolicy HistoryRecords WorkflowFacts.
Import PyStrFacts.


(** Closes a goal on the calls made along a run. *)
Ltac calls_done :=
  first
    [ apply calls_within_refl
    | unfold calls_within; cbn [calls log_call set_world];
      rewrite <- ?app_assoc; eexists; split; [reflexivity | reflexivity] ].

Ltac splits := repeat match goal with |- _ /\ _ => split end.

Section Pushes.
Context {W : Type} {G : GitPython W} {J : JsonModule}.

Lemma calls_within_one (P : call -> bool) (c : call) (s : state W) :
  P c = true -> calls_within P s (log_call c s).
Proof. intros H. exists [c]. split; [reflexivity|]. cbn. now rewrite H. Qed.

Lemma calls_within_same_calls (P : call -> bool) (s s1 s2 : state W) :
  calls s2 = calls s1 -> calls_within P s s1 -> calls_within P s s2.
Proof. intros H (new & Hn & Hp). exists new. now rewrite H. Qed.



(** The calls of a whole run, from those of its steps: the run never
    raises, and after the branch step only calls of staging, commit and
    push are made. *)
Lemma workflow_after_branch_step (P : call -> bool) (self : GitAutomation.t)
    (message : str) (add_all : bool) (remote : str) (s : state W) :
  (forall c, branch_call c = true -> P c = true) ->
  (forall c, stage_call c = true -> P c = true) ->
  (forall c, commit_call c = true -> P c = true) ->
  (forall s3, wp (push remote None false)
                 (fun _ s' => calls_within P s3 s') s3) ->
  exists res s' r1 s1,
    automated_commit_push self message add_all remote s = (Ret res, s')
    /\ ensure_ai_fix_branch self None None None s = (r1, s1)
    /\ calls_within branch_call s s1
    /\ calls_within P s1 s'.
Proof.
  intros Pb Ps Pc Pp.
  destruct (ensure_cases self s) as (r1 & s1 & He & Hc1).
  unfold automated_commit_push, bind, try_except, now.
  rewrite He. destruct r1 as [b|e].
  2:{ eexists _, _, _, _. splits; try reflexivity; [exact Hc1|].
      apply calls_within_refl. }
  cbn [ret negb].
  destruct (add_files_cases add_all s1) as (added & s2 & Ha & Hc2).
  apply calls_within_weaken with (P' := P) in Hc2; [|exact Ps].
  rewrite Ha. destruct added; cbn [negb].
  2:{ eexists _, _, _, _. splits; try reflexivity; assumption. }
  destruct (commit_cases message s2) as (c & s3 & Hcm & Hc3).
  apply calls_within_weaken with (P' := P) in Hc3.
  2:{ intros c0 H. apply orb_true_iff in H as [H|H]; auto. }
  pose proof (calls_within_trans _ _ _ _ Hc2 Hc3) as Hc23.
  rewrite Hcm. destruct c as [[|c0 h]|];
    try (eexists _, _, _, _; splits; try reflexivity; assumption).
  destruct (push_cases remote s3) as (pushed & s4 & Hp & _).
  pose proof (Pp s3) as Hc4. unfold wp in Hc4. rewrite Hp in Hc4.
  cbn in Hc4. rewrite Hp.
  pose proof (calls_within_trans _ _ _ _ Hc23 Hc4) as Hc24.
  destruct pushed; eexists _, _, _, _; splits; try reflexivity; assumption.
Qed.








(** *** [create_ai_fix_branch] and [create_ai_branch_and_commit] *)

Lemma create_branch_run (bm : BranchManager.t) (name base : str)
    (checkout : bool) (s : state W) :
  wp (BranchManager.create_branch bm name base checkout)
     (fun _ s' => calls_within branch_call s s') s.
Proof. unfold BranchManager.create_branch. wp_all; calls_done. Qed.

Lemma generate_branch_name_not_empty (bm : BranchManager.t)
    (team leader : option str) :
  BranchManager.generate_branch_name bm team leader <> [].
Proof.
  unfold BranchManager.generate_branch_name. intros H.
  apply app_eq_nil in H as [_ H]. discriminate.
Qed.

(** [create_ai_fix_branch]: the name or [None], never an exception; with
    a name, one record for it on base main; with [None], no record. *)
Lemma create_ai_fix_branch_cases (bm : BranchManager.t)
    (team leader : option str) (s : state W) :
  exists r s1,
    BranchOps.create_ai_fix_branch bm team leader s = (Ret r, s1)
    /\ calls_within branch_call s s1
    /\ match r with
       | Some name =>
           name = BranchManager.generate_branch_name bm team leader
           /\ BranchManager.has_repo bm = true
           /\ exists timestamp,
                histories s1
                = (automation_history s, history_file s,
                   branch_history s
                   ++ [BranchManager.branch_record timestamp name (lit "main")],
                   clone_history s)
       | None => histories s1 = histories s
       end.
Proof.
  unfold BranchOps.create_ai_fix_branch, bind.
  pose proof (create_branch_history bm
                (BranchManager.generate_branch_name bm team leader)
                (lit "main") true s) as Hh.
  pose proof (create_branch_run bm
                (BranchManager.generate_branch_name bm team leader)
                (lit "main") true s) as Hc.
  assert (Hrepo : BranchManager.has_repo bm = false ->
            fst (BranchManager.create_branch bm
                   (BranchManager.generate_branch_name bm team leader)
                   (lit "main") true s) = Ret false).
  { intros H. unfold BranchManager.create_branch. now rewrite H. }
  unfold wp in Hh, Hc.
  destruct (BranchManager.create_branch _ _ _ _ s) as [[[|]|e] s1];
    cbn in Hh, Hc, Hrepo |- *.
  - eexists _, _. split; [reflexivity|]. split; [exact Hc|].
    split; [reflexivity|]. split; [|exact Hh].
    destruct (BranchManager.has_repo bm); [reflexivity|].
    specialize (Hrepo eq_refl). discriminate.
  - eexists _, _. split; [reflexivity|]. split; assumption.
  - contradiction.
Qed.


(** A run of [ensure_ai_fix_branch] that starts on another branch than
    its target first checks out the base branch. *)
Lemma ensure_leaves_other_branch (self : GitAutomation.t) (name : str)
    (s : state W) :
  BranchManager.has_repo (branch_manager self) = true ->
  active_branch_name (world s) = Ret name ->
  name <> GitOps.default_target self ->
  wp (ensure_ai_fix_branch self None None None)
     (fun _ s' =>
        exists rest,
          calls s'
          = calls s
            ++ [CActiveBranch; CCheckout (GitOps.default_base self)] ++ rest) s.
Proof.
  intros Hrepo Hactive Hother.
  unfold ensure_ai_fix_branch, BranchManager.create_branch.
  fold (GitOps.default_target self). fold (GitOps.default_base self).
  rewrite Hrepo. cbn [negb].
  wp_step. wp_step. rewrite Hactive.
  destruct (str_eqb name (GitOps.default_target self)) eqn:Heq.
  { apply str_eqb_eq in Heq. contradiction. }
  wp_all.
  all: cbn [calls log_call set_world]; rewrite <- ?app_assoc;
    cbn [app]; eexists; reflexivity.
Qed.

(** X9. The team and leader given to [create_ai_branch_and_commit] name
    the branch it creates, not the branch it commits on: when the branch
    created is checked out and is not the default AI fix branch of the
    object, the workflow that follows first leaves it for the base
    branch (on its way to the default AI fix branch), and still reports
    the branch created. *)
Theorem create_ai_branch_and_commit_leaves_branch (self : GitAutomation.t)
    (description commit_message : str) (team leader : option str)
    (name : str) (s s1 : state W) :
  BranchOps.create_ai_fix_branch (branch_manager self) team leader s
  = (Ret (Some name), s1) ->
  active_branch_name (world s1) = Ret name ->
  name <> GitOps.default_target self ->
  exists res s' rest,
    GitOps.create_ai_branch_and_commit self description commit_message
      team leader s = (Ret (GitOps.Ran res name), s')
    /\ calls s'
       = calls s1
         ++ [CActiveBranch; CCheckout (GitOps.default_base self)] ++ rest.
Proof.
  intros Hcreate Hactive Hother.
  destruct (create_ai_fix_branch_cases (branch_manager self) team leader s)
    as (r & s1' & Hcreate' & _ & Hr).
  rewrite Hcreate in Hcreate'. injection Hcreate' as <- <-.
  destruct Hr as (Hname & Hrepo & _).
  unfold GitOps.create_ai_branch_and_commit, bind. rewrite Hcreate.
  destruct name as [|c n].
  { symmetry in Hname. now apply generate_branch_name_not_empty in Hname. }
  destruct (workflow_after_branch_step (fun _ => true) self commit_message
              true (lit "origin") s1)
    as (res & s' & r1 & s2 & Hrun & He & _ & (new & Hnew & _));
    [reflexivity | reflexivity | reflexivity | |].
  { intros s3. pose proof (push_run (lit "origin") None false s3) as H.
    unfold wp in *. destruct H as [_ H].
    eapply calls_within_weaken; [|exact H]. reflexivity. }
  pose proof (ensure_leaves_other_branch self (c :: n) s1 Hrepo Hactive
                Hother) as Hens.
  unfold wp in Hens. rewrite He in Hens. cbn in Hens.
  destruct Hens as (rest & Hrest).
  rewrite Hrun. exists res, s', (rest ++ new). split; [reflexivity|].
  rewrite Hnew, Hrest. now rewrite <- !app_assoc.
Qed.

End Pushes.

#[local] Existing Instance ToyGit.git.
#[local] Existing Instance MiniJson.module.

Lemma create_ai_branch_and_commit_leaves_branch_witness :
  exists res s' rest,
    GitOps.create_ai_branch_and_commit
      (GitAutomation.init (BranchManager.Build_environ None None None) true)
      (lit "demo") (lit "fix tests")
      (Some (lit "Code Warriors")) (Some (lit "John Doe"))
      (ToyGit.fresh (ToyGit.working_copy (lit "main")))
    = (Ret (GitOps.Ran res (lit "CODE_WARRIORS_JOHN_DOE_AI_Fix")), s')
    /\ calls s'
       = calls
           (snd (BranchOps.create_ai_fix_branch
                   (branch_manager
                      (GitAutomation.init
                         (BranchManager.Build_environ None None None) true))
                   (Some (lit "Code Warriors")) (Some (lit "John Doe"))
                   (ToyGit.fresh (ToyGit.working_copy (lit "main")))))
         ++ [CActiveBranch;
             CCheckout
               (GitOps.default_base
                  (GitAutomation.init
                     (BranchManager.Build_environ None None None) true))]
         ++ rest.
Proof.
  apply (@create_ai_branch_and_commit_leaves_branch _ ToyGit.git
           MiniJson.module
           (GitAutomation.init (BranchManager.Build_environ None None None)
              true)
           (lit "demo") (lit "fix tests")
           (Some (lit "Code Warriors")) (Some (lit "John Doe"))
           (lit "CODE_WARRIORS_JOHN_DOE_AI_Fix")
           (ToyGit.fresh (ToyGit.working_copy (lit "main")))).
  - vm_compute. reflexivity.
  - vm_compute. reflexivity.
  - vm_compute. discriminate.
Defined.

End WorkflowMore.

(** ** [RepoCloner]: the directory name, and [clone_multiple] *)

Module CloneMore.
Import RepoCloner CloneOps Rules.

Lemma split_char_step (c x : char) (cur t : str) :
  split_from [c] 0 cur (x :: t)
  = if char_eqb x c then rev cur :: split_from [c] 0 [] t
    else split_from [c] 0 (x :: cur) t.
Proof.
  cbn [split_from startswith List.length Nat.sub].
  replace (startswith t []) with true by (destruct t; reflexivity).
  now rewrite andb_true_r.
Qed.

Lemma split_from_not_nil (c : char) (s cur : str) :
  split_from [c] 0 cur s <> [].
Proof.
  revert cur. induction s as [|x t IH]; intros cur; [discriminate|].
  rewrite split_char_step. destruct (char_eqb x c); [discriminate | apply IH].
Qed.

Lemma last_after_field (c : char) (a s cur : str) :
  last (a :: split_from [c] 0 cur s) [] = last (split_from [c] 0 cur s) [].
Proof.
  pose proof (split_from_not_nil c s cur) as H.
  destruct (split_from [c] 0 cur s); [now contradiction H | reflexivity].
Qed.

(** The last field of a split at one character: what follows the last
    occurrence of the character. *)
Lemma last_field (c : char) (s : str) :
  forall cur, ~ In c cur ->
  exists pre seg,
    rev cur ++ s = pre ++ seg
    /\ last (split_from [c] 0 cur s) [] = seg
    /\ ~ In c seg
    /\ (pre = [] \/ exists p, pre = p ++ [c]).
Proof.
  induction s as [|x t IH]; intros cur Hcur.
  - exists [], (rev cur). cbn [split_from last]. rewrite app_nil_r.
    split; [reflexivity|]. split; [reflexivity|].
    split; [now rewrite <- in_rev | now left].
  - rewrite split_char_step. destruct (char_eqb x c) eqn:E.
    + apply N.eqb_eq in E. subst x.
      destruct (IH [] (fun H => H)) as (pre & seg & Heq & Hlast & Hseg & Hpre).
      cbn [rev app] in Heq.
      exists (rev cur ++ c :: pre), seg.
      rewrite last_after_field.
      split; [now rewrite Heq, <- app_assoc|].
      split; [exact Hlast|]. split; [exact Hseg|]. right.
      destruct Hpre as [-> | (p & ->)].
      * now exists (rev cur).
      * exists (rev cur ++ c :: p). now rewrite <- app_assoc.
    + apply N.eqb_neq in E.
      destruct (IH (x :: cur)) as (pre & seg & Heq & Hrest).
      { intros [H | H]; [now apply E | now apply Hcur]. }
      exists pre, seg. split; [|exact Hrest].
      rewrite <- Heq. cbn [rev]. now rewrite <- app_assoc.
Qed.

Lemma replace_from_keeps (P : char -> Prop) (old : str) (s : str) :
  Forall P s -> forall skip, Forall P (replace_from old [] skip s).
Proof.
  induction 1 as [|x t Hx Ht IH]; intros skip; [constructor|].
  cbn [replace_from]. destruct skip; [|apply IH].
  destruct (startswith (x :: t) old); cbn [app]; [apply IH|].
  constructor; [exact Hx | apply IH].
Qed.

Lemma remove_git_keeps (P : char -> Prop) (s : str) :
  Forall P s -> Forall P (replace s (lit ".git") []).
Proof. intros H. apply (replace_from_keeps P _ s H). Qed.

(** X10. The directory name [clone_repository] derives is computed from
    what follows the last slash of the URL, the whole URL when it has no
    slash: it is this segment with every [.git] removed, and it contains no
    slash itself. *)
Theorem repo_name_of_last_segment (repo_url : str) :
  exists pre seg,
    repo_url = pre ++ seg
    /\ ~ In slash seg
    /\ (pre = [] \/ exists p, pre = p ++ [slash])
    /\ repo_name_of repo_url = replace seg (lit ".git") []
    /\ ~ In slash (repo_name_of repo_url).
Proof.
  destruct (last_field slash repo_url [] (fun H => H))
    as (pre & seg & Heq & Hlast & Hseg & Hpre).
  exists pre, seg. unfold repo_name_of, last_item, split.
  change (lit "/") with [slash]. rewrite Hlast.
  split; [exact Heq|]. split; [exact Hseg|]. split; [exact Hpre|].
  split; [reflexivity|].
  assert (H : Forall (fun x => x <> slash) (replace seg (lit ".git") [])).
  { apply remove_git_keeps. apply Forall_forall. intros x Hx ->. now apply Hseg. }
  intros Hin. rewrite Forall_forall in H. now apply (H slash Hin).
Qed.

Lemma last_field_trailing (c : char) (u : str) :
  forall cur, last (split_from [c] 0 cur (u ++ [c])) [] = [].
Proof.
  induction u as [|x t IH]; intros cur.
  - cbn [app]. rewrite split_char_step.
    unfold char_eqb. rewrite N.eqb_refl. reflexivity.
  - cbn [app]. rewrite split_char_step.
    destruct (char_eqb x c); [rewrite last_after_field|]; apply IH.
Qed.

Lemma repo_name_of_trailing_slash (u : str) : repo_name_of (u ++ lit "/") = [].
Proof.
  unfold repo_name_of, last_item, split. change (lit "/") with [slash].
  now rewrite last_field_trailing.
Qed.

Section Clone.
Context {W : Type} {G : GitPython W}.

(** X11. A URL that ends in a slash gives the empty directory name, so
    the clone path is the base directory joined with the empty name (for
    pathlib the base directory itself): when this path exists,
    [clone_repository] first asks for it and then removes it, whatever
    else it holds. *)
Theorem clone_trailing_slash_removes_base (base_dir u : str)
    (branch : option str) (depth : option N) (s : state W) :
  path_exists (path_join base_dir []) (world s) = Ret true ->
  repo_name_of (u ++ lit "/") = []
  /\ exists r s' rest,
       clone_repository base_dir (u ++ lit "/") branch depth s = (r, s')
       /\ calls s'
          = calls s ++ [CPathExists (path_join base_dir []);
                        CRmtree (path_join base_dir [])] ++ rest.
Proof.
  intros Hthere. split; [apply repo_name_of_trailing_slash|].
  assert (H : wp (clone_repository base_dir (u ++ lit "/") branch depth)
                (fun _ s' =>
                   exists rest,
                     calls s'
                     = calls s ++ [CPathExists (path_join base_dir []);
                                   CRmtree (path_join base_dir [])] ++ rest) s).
  { unfold clone_repository. rewrite repo_name_of_trailing_slash.
    repeat first
      [ wp_step
      | apply wp_append_clone_history
      | progress (cbn [world log_call set_world]; rewrite ?Hthere)
      | wp_case ].
    all: try discriminate.
    all: cbn [calls log_call set_world]; rewrite <- ?app_assoc; cbn [app];
      eexists; reflexivity. }
  destruct (wp_run _ _ _ H) as (r & s' & Hrun & rest & Hcalls).
  now exists r, s', rest.
Qed.



End Clone.

#[local] Existing Instance ToyGit.git.

Lemma clone_trailing_slash_removes_base_witness :
  repo_name_of (lit "https://github.com/deoprakash/New" ++ lit "/") = []
  /\ exists r s' rest,
       clone_repository (lit "./repos")
         (lit "https://github.com/deoprakash/New" ++ lit "/") None None
         (ToyGit.fresh
            (ToyGit.with_dirs [lit "./repos/"; lit "./repos/Other"]
               (ToyGit.working_copy (lit "main"))))
       = (r, s')
       /\ calls s'
          = calls (ToyGit.fresh
                     (ToyGit.with_dirs [lit "./repos/"; lit "./repos/Other"]
                        (ToyGit.working_copy (lit "main"))))
            ++ [CPathExists (path_join (lit "./repos") []);
                CRmtree (path_join (lit "./repos") [])] ++ rest.
Proof.
  apply (@clone_trailing_slash_removes_base _ ToyGit.git (lit "./repos")
           (lit "https://github.com/deoprakash/New") None None
           (ToyGit.fresh
              (ToyGit.with_dirs [lit "./repos/"; lit "./repos/Other"]
                 (ToyGit.working_copy (lit "main"))))).
  vm_compute. reflexivity.
Defined.

End CloneMore.

(** ** [BranchManager]: listing the branches, and the deliverables check *)

Module BranchFacts.
Import BranchOps Rules.

Lemma startswith_prefix (p s : str) :
  startswith s p = true <-> exists post, s = p ++ post.
Proof.
  revert s. induction p as [|y p IH]; intros s.
  - split; [intros _; now exists s | intros _; destruct s; reflexivity].
  - destruct s as [|x s]; cbn [startswith].
    + split; [discriminate | intros (post & H); discriminate H].
    + rewrite andb_true_iff, IH. unfold char_eqb. rewrite N.eqb_eq. split.
      * intros (-> & post & ->). now exists post.
      * intros (post & H). injection H as -> ->.
        split; [reflexivity | now exists post].
Qed.

(** [pattern in b]: [pattern] occurs in [b]. *)
Lemma contains_occurs (b p : str) :
  contains b p = true <-> exists pre post, b = pre ++ p ++ post.
Proof.
  induction b as [|x b IH].
  - cbn [contains]. rewrite orb_false_r, startswith_prefix. split.
    + intros (post & H). now exists [], post.
    + intros (pre & post & H). destruct pre; [now exists post | discriminate H].
  - cbn [contains]. rewrite orb_true_iff, startswith_prefix, IH. split.
    + intros [(post & H) | (pre & post & H)].
      * now exists [], post.
      * exists (x :: pre), post. now rewrite H.
    + intros (pre & post & H). destruct pre as [|x' pre].
      * left. now exists post.
      * right. injection H as _ H. now exists pre, post.
Qed.

Lemma contains_empty (b : str) : contains b [] = true.
Proof. apply contains_occurs. now exists [], b. Qed.

Lemma filter_all {A : Type} (f : A -> bool) (l : list A) :
  (forall x, f x = true) -> filter f l = l.
Proof.
  intros H. induction l as [|x l IH]; [reflexivity|].
  cbn [filter]. now rewrite H, IH.
Qed.

(** The test [if pattern:] changes nothing: an empty pattern occurs in
    every name. *)
Lemma pattern_filter (pattern : option str) (heads : list str) :
  match pattern with
  | Some (c :: p) => filter (fun b => contains b (c :: p)) heads
  | Some [] | None => heads
  end
  = filter (fun b => contains b (or_else pattern [])) heads.
Proof.
  destruct pattern as [[|c p]|]; cbn [or_else];
    [symmetry; apply filter_all, contains_empty | reflexivity
    | symmetry; apply filter_all, contains_empty].
Qed.

Section Listing.
Context {W : Type} {G : GitPython W}.

(** X13. [list_branches] never raises and changes neither the
    repository nor a history.  Without a repository it returns the empty
    list and calls nothing; with one it reads the heads once and returns,
    in the order of the heads, those in which the pattern occurs as a
    substring, all of them for no pattern or the empty one; when reading
    the heads raises, it returns the empty list. *)
Theorem list_branches_contract (self : BranchManager.t)
    (pattern : option str) (s : state W) :
  exists l s',
    list_branches self pattern s = (Ret l, s')
    /\ world s' = world s
    /\ histories s' = histories s
    /\ calls s'
       = calls s ++ (if BranchManager.has_repo self then [CHeadNames] else [])
    /\ (if BranchManager.has_repo self
        then match head_names (world s) with
             | Raise _ => l = []
             | Ret heads =>
                 l = filter (fun b => contains b (or_else pattern [])) heads
                 /\ forall b,
                      In b l
                      <-> In b heads
                          /\ exists pre post,
                               b = pre ++ or_else pattern [] ++ post
             end
        else l = []).
Proof.
  unfold list_branches. destruct (BranchManager.has_repo self); cbn [negb].
  - unfold try_except, bind, query, ret.
    destruct (head_names (world s)) as [heads|e].
    + eexists _, _. split; [reflexivity|].
      split; [reflexivity|]. split; [reflexivity|]. split; [reflexivity|].
      rewrite pattern_filter. split; [reflexivity|].
      intros b. rewrite filter_In, contains_occurs. reflexivity.
    + eexists _, _. split; [reflexivity|].
      split; [reflexivity|]. split; [reflexivity|]. split; reflexivity.
  - exists [], s. unfold ret. rewrite app_nil_r.
    split; [reflexivity|]. split; [reflexivity|]. split; [reflexivity|].
    split; reflexivity.
Qed.

End Listing.

(** *** The name the deliverables check expects *)

Import DeliverablesTest.

Lemma str_eqb_same (a : str) : str_eqb a a = true.
Proof.
  induction a as [|c a IH]; [reflexivity|].
  cbn [str_eqb]. unfold char_eqb. now rewrite N.eqb_refl, IH.
Qed.

(** The manager of [test_deliverable_1] names its entries as the test
    expects. *)
Lemma expected_name_of_manager (env : BranchManager.environ) :
  Deliverables.get_expected_branch_name env
  = BranchManager.generate_branch_name
      (BranchManager.init env false
         (Some (BranchManager.getenv (BranchManager.TEAM_NAME env)
                  (lit "RIFT_ORGANISERS")))
         (Some (BranchManager.getenv (BranchManager.LEADER_NAME env)
                  (lit "SAIYAM_KUMAR"))))
      (Some (BranchManager.getenv (BranchManager.TEAM_NAME env)
               (lit "RIFT_ORGANISERS")))
      (Some (BranchManager.getenv (BranchManager.LEADER_NAME env)
               (lit "SAIYAM_KUMAR"))).
Proof. destruct env as [[[|c t]|] [[|c' l]|] d]; reflexivity. Qed.

Lemma expected_name_of_automation (env : BranchManager.environ)
    (repo_ok : bool) :
  Deliverables.get_expected_branch_name env
  = GitOps.default_target (GitAutomation.init env repo_ok).
Proof. destruct env as [[[|c t]|] [[|c' l]|] d]; reflexivity. Qed.

(** X14. For every environment, the branch name the deliverables check
    computes on its own is the branch [automated_commit_push] works on
    and the name the test's manager gives its entries: with TEAM_NAME or
    LEADER_NAME unset, set, or set to the empty string.  The class
    defaults of [BranchManager], which differ from those of
    [GitAutomation] and of the test, never come into it. *)
Theorem expected_branch_name_consistent (env : BranchManager.environ)
    (repo_ok : bool) :
  Deliverables.get_expected_branch_name env
  = GitOps.default_target (GitAutomation.init env repo_ok)
  /\ Deliverables.get_expected_branch_name env
     = BranchManager.generate_branch_name
         (BranchManager.init env false
            (Some (BranchManager.getenv (BranchManager.TEAM_NAME env)
                     (lit "RIFT_ORGANISERS")))
            (Some (BranchManager.getenv (BranchManager.LEADER_NAME env)
                     (lit "SAIYAM_KUMAR"))))
         (Some (BranchManager.getenv (BranchManager.TEAM_NAME env)
                  (lit "RIFT_ORGANISERS")))
         (Some (BranchManager.getenv (BranchManager.LEADER_NAME env)
                  (lit "SAIYAM_KUMAR"))).
Proof.
  split; [apply expected_name_of_automation | apply expected_name_of_manager].
Qed.

(** *** [test_deliverable_1] *)

Section TestRun.
Context {J : JsonModule}.

Lemma names_own_branch (name type timestamp issue_id description run_id : str) :
  names_branch name
    (branch_entry name type timestamp issue_id description run_id)
  = Ret true.
Proof.
  unfold names_branch, branch_entry. cbn [dict_get].
  now rewrite !str_eqb_same.
Qed.

Lemma all_named_app (expected : str) (l1 l2 : list json) :
  all_named expected (l1 ++ l2)
  = match all_named expected l1 with
    | Ret true => all_named expected l2
    | r => r
    end.
Proof.
  induction l1 as [|e l1 IH]; [reflexivity|].
  cbn [app all_named]. destruct (names_branch expected e) as [[|]|x];
    [exact IH | reflexivity | reflexivity].
Qed.

Lemma all_named_own (expected : str) (l : list json) :
  Forall (fun e => names_branch expected e = Ret true) l ->
  all_named expected l = Ret true.
Proof.
  induction 1 as [|e l He Hl IH]; [reflexivity|].
  cbn [all_named]. now rewrite He.
Qed.

(** The loop appends one entry for each configuration, in memory and, by
    [_save_to_file], on disk; each under the manager's name. *)
Lemma create_entries_spec (manager : BranchManager.t) (team leader : str)
    (clock : nat -> str * str)
    (configs : list (option str * option str * option str)) :
  forall (i : nat) (st : store),
  exists new,
    entries (create_entries manager team leader configs clock i st)
    = entries st ++ new
    /\ file (create_entries manager team leader configs clock i st)
       = GitAutomation.save_all new (file st)
    /\ List.length new = List.length configs
    /\ Forall (fun e =>
                 names_branch
                   (BranchManager.generate_branch_name manager
                      (Some team) (Some leader)) e = Ret true) new.
Proof.
  induction configs as [|[[issue_type issue_id] description] rest IH];
    intros i st.
  - exists []. rewrite app_nil_r. repeat split. constructor.
  - cbn [create_entries].
    destruct (IH (S i)
                (snd (create_branch_entry manager issue_type issue_id
                        description (Some team) (Some leader)
                        (fst (clock i)) (snd (clock i)) st)))
      as (new & He & Hf & Hlen & Hall).
    eexists (_ :: new). rewrite He, Hf.
    cbn [create_branch_entry snd entries file List.length].
    split; [rewrite <- app_assoc; reflexivity|].
    split; [reflexivity|]. split; [now rewrite Hlen|].
    constructor; [apply names_own_branch | exact Hall].
Qed.

Lemma created_spec (env : BranchManager.environ) (clock : nat -> str * str)
    (f : option str) :
  file (created env clock f)
  = GitAutomation.save_all (entries (created env clock f)) (ensure_store f)
  /\ List.length (entries (created env clock f)) = 4
  /\ all_named (Deliverables.get_expected_branch_name env)
       (entries (created env clock f)) = Ret true.
Proof.
  unfold created.
  match goal with
  | |- context [create_entries ?m ?t ?l ?c ?cl ?i ?st] =>
      destruct (create_entries_spec m t l cl c i st)
        as (new & He & Hf & Hlen & Hall)
  end.
  cbn [entries file app] in He, Hf. rewrite He, Hf.
  split; [reflexivity|]. split; [exact Hlen|].
  rewrite expected_name_of_manager. now apply all_named_own.
Qed.

(** Appends on a file that holds a written array. *)
Lemma save_all_on_written (prior new : list json) :
  (forall k, k < List.length new ->
             reads_back (JList (prior ++ firstn k new))) ->
  GitAutomation.save_all new (Some (json_dumps (JList prior)))
  = Some (json_dumps (JList (prior ++ new))).
Proof.
  induction new as [|e l IH] using rev_ind; intros Hback.
  - now rewrite app_nil_r.
  - rewrite HistoryFile.save_all_app, IH.
    + unfold GitAutomation.save_all. cbn [fold_left].
      rewrite HistoryFile.save_on_written; [now rewrite app_assoc|].
      specialize (Hback (List.length l)). rewrite firstn_app in Hback.
      rewrite Nat.sub_diag, firstn_all in Hback. cbn [firstn] in Hback.
      rewrite app_nil_r in Hback. apply Hback.
      rewrite length_app. cbn. lia.
    + intros k Hk. specialize (Hback k). rewrite firstn_app in Hback.
      replace (k - List.length l) with 0 in Hback by lia.
      cbn [firstn] in Hback. rewrite app_nil_r in Hback. apply Hback.
      rewrite length_app. cbn. lia.
Qed.

(** X15. On a history file that is absent or holds the empty array, and
    with a json module that reads the empty array and reads back the
    arrays written, [test_deliverable_1] returns [True]: the four entries
    are in the file, each under the expected branch name, for every
    environment and clock. *)
Theorem test_deliverable_1_passes_on_fresh_file
    (env : BranchManager.environ) (clock : nat -> str * str)
    (f : option str) :
  f = None \/ f = Some (lit "[]") ->
  json_loads (lit "[]") = Ret (JList []) ->
  (forall k, 0 < k <= 4 ->
             reads_back (JList (firstn k (entries (created env clock f))))) ->
  test_deliverable_1 env clock f = Ret true.
Proof.
  intros Hfile Hempty Hback.
  destruct (created_spec env clock f) as (Hf & Hlen & Hall).
  unfold test_deliverable_1. rewrite Hf.
  rewrite (HistoryFile.save_all_written _ (ensure_store f) Hempty).
  - destruct (entries (created env clock f)) as [|e l] eqn:E;
      [discriminate Hlen|].
    destruct (Hback 4) as [Hload _]; [lia|].
    rewrite <- Hlen, firstn_all in Hload. rewrite Hload.
    cbn [result_bind check_history]. rewrite Hall.
    cbn [result_bind]. now rewrite Hlen.
  - now rewrite Hlen.
  - destruct Hfile as [-> | ->]; now right.
Qed.

(** X16. The test is only as good as the file it finds: on a history
    file that holds the array of earlier entries [prior], its result is
    that of checking the names of [prior] alone.  It fails, or raises,
    on whatever an earlier run under another name, or another writer,
    left in the file, although the four entries of this run are right. *)
Theorem test_deliverable_1_depends_on_prior
    (env : BranchManager.environ) (clock : nat -> str * str)
    (prior : list json) :
  (forall k, k <= 4 ->
     reads_back
       (JList (prior
               ++ firstn k (entries
                              (created env clock
                                 (Some (json_dumps (JList prior)))))))) ->
  test_deliverable_1 env clock (Some (json_dumps (JList prior)))
  = all_named (Deliverables.get_expected_branch_name env) prior.
Proof.
  intros Hback.
  destruct (created_spec env clock (Some (json_dumps (JList prior))))
    as (Hf & Hlen & Hall).
  unfold test_deliverable_1. rewrite Hf. cbn [ensure_store].
  rewrite save_all_on_written by (intros k Hk; apply Hback; lia).
  destruct (Hback 4) as [Hload _]; [lia|].
  rewrite <- Hlen, firstn_all in Hload. rewrite Hload.
  cbn [result_bind check_history]. rewrite all_named_app, Hall.
  destruct (all_named _ prior) as [[|]|e]; cbn [result_bind];
    [|now rewrite andb_false_r | reflexivity].
  rewrite length_app, Hlen, andb_true_r.
  f_equal. apply Nat.leb_le. lia.
Qed.

End TestRun.

#[local] Existing Instance MiniJson.module.

Lemma test_deliverable_1_passes_on_fresh_file_witness :
  test_deliverable_1
    {| BranchManager.TEAM_NAME := Some (lit "Code Warriors");
       BranchManager.LEADER_NAME := None;
       BranchManager.DEFAULT_BRANCH := None |}
    (fun _ => (lit "20260219_100000", lit "2026-02-19T10:00:00"))
    None
  = Ret true.
Proof.
  apply (@test_deliverable_1_passes_on_fresh_file MiniJson.module
           {| BranchManager.TEAM_NAME := Some (lit "Code Warriors");
              BranchManager.LEADER_NAME := None;
              BranchManager.DEFAULT_BRANCH := None |}
           (fun _ => (lit "20260219_100000", lit "2026-02-19T10:00:00"))
           None).
  - left. reflexivity.
  - vm_compute. reflexivity.
  - intros [|[|[|[|[|k]]]]] Hk; try lia; split; vm_compute; reflexivity.
Defined.

Lemma test_deliverable_1_depends_on_prior_witness :
  test_deliverable_1
    {| BranchManager.TEAM_NAME := None;
       BranchManager.LEADER_NAME := None;
       BranchManager.DEFAULT_BRANCH := None |}
    (fun _ => (lit "20260219_100000", lit "2026-02-19T10:00:00"))
    (Some (json_dumps
             (JList [branch_entry (lit "RAG_RAIDERS_DEO_PRAKASH_AI_Fix")
                       (lit "bug") (lit "2026-02-18T09:00:00") (lit "7")
                       (lit "fix_login") (lit "20260218_090000")])))
  = all_named
      (Deliverables.get_expected_branch_name
         {| BranchManager.TEAM_NAME := None;
            BranchManager.LEADER_NAME := None;
            BranchManager.DEFAULT_BRANCH := None |})
      [branch_entry (lit "RAG_RAIDERS_DEO_PRAKASH_AI_Fix")
         (lit "bug") (lit "2026-02-18T09:00:00") (lit "7")
         (lit "fix_login") (lit "20260218_090000")].
Proof.
  apply (@test_deliverable_1_depends_on_prior MiniJson.module
           {| BranchManager.TEAM_NAME := None;
              BranchManager.LEADER_NAME := None;
              BranchManager.DEFAULT_BRANCH := None |}
           (fun _ => (lit "20260219_100000", lit "2026-02-19T10:00:00"))
           [branch_entry (lit "RAG_RAIDERS_DEO_PRAKASH_AI_Fix")
              (lit "bug") (lit "2026-02-18T09:00:00") (lit "7")
              (lit "fix_login") (lit "20260218_090000")]).
  intros [|[|[|[|[|k]]]]] Hk; try lia; split; vm_compute; reflexivity.
Defined.

End BranchFacts.
